(** * polyCourse2Calendar: timetable records, group merging and calendar expansion

    A shallow embedding of [polyCourse2Calendar.py].  Python objects become
    records, [dict]s keyed by course code, group number or date become
    [gmap]s, the two insertion-ordered [defaultdict]s local to the merging
    pass become association lists, and the code that can raise returns a
    [result].

    Text is modelled as Rocq [string]s (byte strings).  [str.upper] and
    [str.lower] act on the ASCII letters and leave every other byte alone;
    comparison is byte-wise lexicographic, which for UTF-8 text is the
    code-point order Python uses. *)

From Stdlib Require Import ZArith Ascii String.
From stdpp Require Import base option list sorting gmap strings pretty.

Open Scope string_scope.
Open Scope list_scope.
Open Scope Z_scope.

(** ** Python string operations used by the script *)

Module PyStr.

Definition upper_ascii (c : ascii) : ascii :=
  let n := N_of_ascii c in
  if ((97 <=? n) && (n <=? 122))%N then ascii_of_N (n - 32) else c.

Definition lower_ascii (c : ascii) : ascii :=
  let n := N_of_ascii c in
  if ((65 <=? n) && (n <=? 90))%N then ascii_of_N (n + 32) else c.

(** [s.upper()], on ASCII text *)
Fixpoint upper (s : string) : string :=
  match s with
  | EmptyString => EmptyString
  | String c s' => String (upper_ascii c) (upper s')
  end.

(** [s.lower()], on ASCII text *)
Fixpoint lower (s : string) : string :=
  match s with
  | EmptyString => EmptyString
  | String c s' => String (lower_ascii c) (lower s')
  end.

(** [s.split(sep)] for a one-character separator: never the empty list,
    [''.split(',') == ['']]. *)
Fixpoint split (sep : ascii) (s : string) : list string :=
  match s with
  | EmptyString => [EmptyString]
  | String c s' =>
      if decide (c = sep) then EmptyString :: split sep s'
      else match split sep s' with
           | tok :: toks => String c tok :: toks
           | [] => [String c EmptyString]
           end
  end.

(** [sep.join(l)] *)
Fixpoint join (sep : string) (l : list string) : string :=
  match l with
  | [] => EmptyString
  | [x] => x
  | x :: l' => x +:+ sep +:+ join sep l'
  end.

(** [sorted(l)] on strings: the order is total and antisymmetric, so the
    result is the one sorted arrangement of [l] whatever the algorithm. *)
Definition sorted (l : list string) : list string := merge_sort String.le l.

(** [s.replace(old, new)] for one-character [old] and [new]. *)
Fixpoint replace (old new : ascii) (s : string) : string :=
  match s with
  | EmptyString => EmptyString
  | String c s' => String (if decide (c = old) then new else c) (replace old new s')
  end.

(** [c in s] for a character. *)
Fixpoint contains (c : ascii) (s : string) : bool :=
  match s with
  | EmptyString => false
  | String c' s' => bool_decide (c' = c) || contains c s'
  end.

End PyStr.

Definition comma : ascii := ","%char.

(** ** Record model *)

(** [class Group].  The record holds the attributes as stored; objects are
    only ever built through [Group_init], the constructor of the class. *)
Record Group := mkGroup {
  number : Z;
  week_day : string;
  room : string;
  course_length : Z;
  frequency : string;
  hour : string
}.

Global Instance Group_eq_dec : EqDecision Group.
Proof. solve_decision. Defined.

(** [Group.__init__] *)
Definition Group_init (number : Z) (week_day room : string) (course_length : Z)
    (frequency hour : string) : Group :=
  {| number := number;
     week_day := week_day;
     room := room;
     course_length := course_length;
     frequency := frequency;
     hour := PyStr.join "," (PyStr.sorted (PyStr.split comma hour)) |}.

(** The grouping key of the merging pass: [(week_day, room, frequency)]. *)
Definition GroupKey : Type := string * string * string.

Definition group_key (g : Group) : GroupKey := (week_day g, room g, frequency g).

(** *** Insertion-ordered [defaultdict]s

    [merged_groups] and [hour_map] are iterated in insertion order, so they
    are association lists with one entry per key. *)
Section defaultdict.
Context {K V : Type} `{EqDecision K}.

(** [d[k] = f(d[k])] on a [defaultdict] whose factory yields [dflt]: the
    entry is updated in place, a new key goes to the end. *)
Fixpoint dd_update (dflt : V) (f : V → V) (k : K) (d : list (K * V)) : list (K * V) :=
  match d with
  | [] => [(k, f dflt)]
  | (k', v) :: d' =>
      if decide (k' = k) then (k', f v) :: d' else (k', v) :: dd_update dflt f k d'
  end.

Fixpoint dd_lookup (k : K) (d : list (K * V)) : option V :=
  match d with
  | [] => None
  | (k', v) :: d' => if decide (k' = k) then Some v else dd_lookup k d'
  end.

(** [d[k]] read on a [defaultdict]. *)
Definition dd_get (dflt : V) (k : K) (d : list (K * V)) : V :=
  default dflt (dd_lookup k d).
End defaultdict.

(** *** [class Course] *)
Record Course := mkCourse {
  sigle : string;
  name : string;
  nb_credit : Z;
  theo_groups : gmap Z (list Group);
  lab_groups : gmap Z (list Group)
}.

(** [Course.__init__] *)
Definition Course_init (sigle name : string) (nb_credit : Z) : Course :=
  {| sigle := sigle; name := name; nb_credit := nb_credit;
     theo_groups := ∅; lab_groups := ∅ |}.

(** The body of the [for group in group_list] loop of [_merge_group_type]. *)
Definition merge_step
    (st : list (GroupKey * Z) * list (GroupKey * list string)) (group : Group)
    : list (GroupKey * Z) * list (GroupKey * list string) :=
  let key := (week_day group, room group, frequency group) in
  (dd_update 0 (λ v, v + course_length group) key st.1,
   dd_update [] (λ hs, hs ++ [hour group]) key st.2).

(** One iteration of the outer loop of [_merge_group_type]: the new value
    of [groups[number]]. *)
Definition merge_bucket (number : Z) (group_list : list Group) : list Group :=
  let st := foldl merge_step ([], []) group_list in
  let merged_groups := st.1 in
  let hour_map := st.2 in
  (λ kv : GroupKey * Z,
     let '((day, room, frequency), duration) := kv in
     let hours := dd_get [] (day, room, frequency) hour_map in
     Group_init number day room duration frequency (PyStr.join "," hours))
  <$> merged_groups.

(** [Course._merge_group_type] *)
Definition _merge_group_type (groups : gmap Z (list Group)) : gmap Z (list Group) :=
  map_imap (λ number group_list, Some (merge_bucket number group_list)) groups.

(** [Course.merge_groups] *)
Definition merge_groups (c : Course) : Course :=
  {| sigle := sigle c; name := name c; nb_credit := nb_credit c;
     theo_groups := _merge_group_type (theo_groups c);
     lab_groups := _merge_group_type (lab_groups c) |}.

(** [groups[number].append(group)] on a [defaultdict(list)]. *)
Definition bucket_append (group : Group) (groups : gmap Z (list Group)) : gmap Z (list Group) :=
  <[number group := default [] (groups !! number group) ++ [group]]> groups.

(** [Course.add_group] *)
Definition add_group (group_type : string) (group : Group) (c : Course) : Course :=
  merge_groups
    (if decide (PyStr.lower group_type = "c") then
       {| sigle := sigle c; name := name c; nb_credit := nb_credit c;
          theo_groups := bucket_append group (theo_groups c);
          lab_groups := lab_groups c |}
     else if decide (PyStr.lower group_type = "l") then
       {| sigle := sigle c; name := name c; nb_credit := nb_credit c;
          theo_groups := theo_groups c;
          lab_groups := bucket_append group (lab_groups c) |}
     else c).

(** [Course.get_specific_group] *)
Definition get_specific_group (c : Course) (group_type : string) (group_number : Z)
    : option (list Group) :=
  if decide (PyStr.lower group_type = "c") then theo_groups c !! group_number
  else if decide (PyStr.lower group_type = "l") then lab_groups c !! group_number
  else None.

(** ** Exceptions

    Code that can raise returns a [result]; the first exception ends the
    run, as nothing in the script catches it unless modelled otherwise. *)
Inductive exn := ValueError | OverflowError | IndexError | StopIteration.

Inductive result (A : Type) :=
  | Ok (a : A)
  | Raise (e : exn).
Arguments Ok {A} a.
Arguments Raise {A} e.

Global Instance exn_eq_dec : EqDecision exn.
Proof. solve_decision. Defined.

(** A [for x in l:] loop whose body adds to an output collection or
    raises. *)
Fixpoint for_each {A B : Type} (body : A → result (list B)) (l : list A) : result (list B) :=
  match l with
  | [] => Ok []
  | x :: l' =>
      match body x with
      | Raise e => Raise e
      | Ok out =>
          match for_each body l' with
          | Raise e => Raise e
          | Ok out' => Ok (out ++ out')
          end
      end
  end.

(** A [for x in l:] loop whose body updates a state or raises. *)
Fixpoint for_state {A S : Type} (body : S → A → result S) (st : S) (l : list A) : result S :=
  match l with
  | [] => Ok st
  | x :: l' =>
      match body st x with
      | Raise e => Raise e
      | Ok st' => for_state body st' l'
      end
  end.

(** ** CSV ingestion

    [csv.reader] is not modelled: a file that could be opened is the list
    of its rows, each row the list of its fields.  The conversions
    [int(s)], [int(float(s))] and [datetime.strptime(s, '%Y-%m-%d')] are
    built-ins of the language; they are parameters of the model, with the
    exceptions they can raise. *)

(** A date is a naive [datetime] at midnight, which is what
    [strptime(_, '%Y-%m-%d')] returns and what adding whole days keeps; it
    is held as its proleptic Gregorian ordinal ([date.toordinal()]).
    The value kept for a date is a [dict] with the two keys below; it is
    never empty, so [if alternance_info:] tests that the date has an
    entry. *)
Record DayInfo := mkDayInfo {
  day_name : string;
  week_type : string
}.

Global Instance DayInfo_eq_dec : EqDecision DayInfo.
Proof. solve_decision. Defined.

Module PyStrip.
(** The ASCII characters for which [str.isspace()] holds: [strip] below
    is [str.strip()] on ASCII text. *)
Definition is_space (c : ascii) : bool :=
  let n := N_of_ascii c in
  (((9 <=? n) && (n <=? 13)) || ((28 <=? n) && (n <=? 32)))%N.

Fixpoint lstrip (s : string) : string :=
  match s with
  | EmptyString => EmptyString
  | String c s' => if is_space c then lstrip s' else s
  end.

(** [s.rstrip()]: [None] stands for a suffix made of whitespace only. *)
Fixpoint rstrip_go (s : string) : option string :=
  match s with
  | EmptyString => None
  | String c s' =>
      match rstrip_go s' with
      | Some r => Some (String c r)
      | None => if is_space c then None else Some (String c EmptyString)
      end
  end.

Definition rstrip (s : string) : string := default EmptyString (rstrip_go s).

(** [s.strip()] *)
Definition strip (s : string) : string := rstrip (lstrip s).
End PyStrip.

Section ingestion.
(** [int(s)]; [None] is [ValueError]. *)
Variable py_int : string → option Z.
(** [int(float(s))]: [ValueError] when [s] is no number or is a NaN,
    [OverflowError] when it is an infinity. *)
Variable py_int_float : string → result Z.
(** [datetime.strptime(s, '%Y-%m-%d')]; [None] is [ValueError]. *)
Variable strptime_ymd : string → option Z.

(** [not s] on a string. *)
Definition is_empty (s : string) : bool := bool_decide (s = "").

(** The body of the [for row in reader] loop of [Courses.read_csv_files]. *)
Definition read_row (courses : gmap string Course) (row : list string)
    : result (gmap string Course) :=
  if decide (length row < 15)%nat then Ok courses
  else
    match row with
    | [_; sigle; number; nb_credit; _; _; room; period_type; _; week_nb;
       course_type; name; _; week_day; hour] =>
        if is_empty sigle || is_empty number || is_empty nb_credit
           || is_empty room || is_empty period_type || is_empty course_type
           || is_empty name || is_empty week_day || is_empty hour
        then Ok courses
        else
          match py_int number with
          | None => Ok courses
          | Some number =>
              match py_int_float (PyStr.replace "," "." nb_credit) with
              | Raise ValueError => Ok courses
              | Raise e => Raise e
              | Ok nb_credit =>
                  let course_length := 1 in
                  let frequency :=
                    if decide (week_nb = "I") then "B1"
                    else if decide (week_nb = "P") then "B2"
                    else "every_week" in
                  let courses :=
                    match courses !! sigle with
                    | None => <[sigle := Course_init sigle name nb_credit]> courses
                    | Some _ => courses
                    end in
                  let group :=
                    Group_init number week_day room course_length frequency hour in
                  Ok (alter (add_group (PyStr.lower period_type) group) sigle courses)
              end
          end
    | _ => Raise ValueError
    end.

(** [Courses.read_csv_files] on the rows of the opened file: the first
    row is the header consumed by [next(reader)]. *)
Definition read_csv_files (courses : gmap string Course) (rows : list (list string))
    : result (gmap string Course) :=
  match rows with
  | [] => Raise StopIteration
  | _ :: rows' => for_state read_row courses rows'
  end.

(** The body of the loop of [Courses.read_alternance_csv]. *)
Definition read_alternance_row (week_map : gmap Z DayInfo) (row : list string)
    : result (gmap Z DayInfo) :=
  if decide (length row < 3)%nat then Ok week_map
  else
    match row with
    | [date_str; day_name; week_type] =>
        match strptime_ymd date_str with
        | None => Ok week_map
        | Some date =>
            Ok (<[date := {| day_name := PyStr.upper (PyStrip.strip day_name);
                             week_type := PyStr.upper (PyStrip.strip week_type) |}]>
                  week_map)
        end
    | _ => Raise ValueError
    end.

(** [Courses.read_alternance_csv] on the rows of the opened file. *)
Definition read_alternance_csv (rows : list (list string)) : result (gmap Z DayInfo) :=
  match rows with
  | [] => Raise StopIteration
  | _ :: rows' => for_state read_alternance_row ∅ rows'
  end.
End ingestion.

(** [Courses.get_course] *)
Definition get_course (courses : gmap string Course) (sigle : string) : option Course :=
  courses !! sigle.

(** ** Dates and times *)

Module PyDate.
(** From [datetime.py]: [_is_leap], [_days_before_year],
    [_days_before_month] and [_ymd2ord]. *)
Definition is_leap (year : Z) : bool :=
  (year mod 4 =? 0) && (negb (year mod 100 =? 0) || (year mod 400 =? 0)).

Definition days_before_year (year : Z) : Z :=
  let y := year - 1 in
  y * 365 + y / 4 - y / 100 + y / 400.

Definition DAYS_BEFORE_MONTH : list Z :=
  [0; 31; 59; 90; 120; 151; 181; 212; 243; 273; 304; 334].

Definition days_before_month (year month : Z) : Z :=
  default 0 (DAYS_BEFORE_MONTH !! Z.to_nat (month - 1))
  + (if (2 <? month) && is_leap year then 1 else 0).

Definition ymd2ord (year month day : Z) : Z :=
  days_before_year year + days_before_month year month + day.

(** [datetime.max.toordinal()], the ordinal of 9999-12-31: adding a day
    to it raises [OverflowError]. *)
Definition MAXORDINAL : Z := 3652059.

Definition digit (c : ascii) : option Z :=
  let n := N_of_ascii c in
  if ((48 <=? n) && (n <=? 57))%N then Some (Z.of_N (n - 48)) else None.

(** The ways the directive [%H] can match a prefix, in the order the
    regular expression [2[0-3]|[0-1]\d|\d] tries them: the value read and
    the text left. *)
Definition H_alts (s : string) : list (Z * string) :=
  match s with
  | String a (String b r) =>
      match digit a, digit b with
      | Some x, Some y =>
          (if decide (x = 2 ∧ y ≤ 3) then [(20 + y, r)] else [])
          ++ (if decide (x ≤ 1) then [(10 * x + y, r)] else [])
          ++ [(x, String b r)]
      | Some x, None => [(x, String b r)]
      | None, _ => []
      end
  | String a EmptyString =>
      match digit a with Some x => [(x, EmptyString)] | None => [] end
  | EmptyString => []
  end.

(** The same for [%M], [[0-5]\d|\d]. *)
Definition M_alts (s : string) : list (Z * string) :=
  match s with
  | String a (String b r) =>
      match digit a, digit b with
      | Some x, Some y =>
          (if decide (x ≤ 5) then [(10 * x + y, r)] else [])
          ++ [(x, String b r)]
      | Some x, None => [(x, String b r)]
      | None, _ => []
      end
  | String a EmptyString =>
      match digit a with Some x => [(x, EmptyString)] | None => [] end
  | EmptyString => []
  end.

(** [datetime.strptime(s, "%H%M")] as [(hour, minute)]: the first match
    of the two directives in backtracking order, which must use up the
    whole text; [None] is [ValueError]. *)
Definition strptime_HM (s : string) : option (Z * Z) :=
  match
    h ← H_alts s; m ← M_alts h.2; [(h.1, m.1, m.2)]
  with
  | (h, m, rest) :: _ => if decide (rest = "") then Some (h, m) else None
  | [] => None
  end.
End PyDate.

Definition montreal_tz : string := "America/Toronto".

(** An aware [datetime] as [montreal_tz.localize] builds it: the wall-clock
    reading and the zone it is read in. *)
Record LocalDateTime := mkLocalDateTime {
  dt_ordinal : Z;
  dt_hour : Z;
  dt_minute : Z;
  dt_zone : string
}.

Record Alarm := mkAlarm {
  action : string;
  trigger_minutes : Z
}.

(** An [ics.Event] with the attributes the script sets. *)
Record Event := mkEvent {
  ev_name : string;
  ev_begin : LocalDateTime;
  ev_duration_hours : Z;
  ev_location : string;
  ev_alarms : list Alarm
}.

Global Instance LocalDateTime_eq_dec : EqDecision LocalDateTime.
Proof. solve_decision. Defined.
Global Instance Alarm_eq_dec : EqDecision Alarm.
Proof. solve_decision. Defined.
Global Instance Event_eq_dec : EqDecision Event.
Proof. solve_decision. Defined.

(** ** Calendar expansion *)

Definition FULL_DAY_TO_ABBREVIATION : gmap string string :=
  list_to_map
    [("LUNDI", "LUN"); ("MARDI", "MAR"); ("MERCREDI", "MER"); ("JEUDI", "JEU");
     ("VENDREDI", "VEN"); ("SAMEDI", "SAM"); ("DIMANCHE", "DIM")].

(** [datetime(2024, 10, 1)] *)
Definition october_first : Z := Eval cbv in PyDate.ymd2ord 2024 10 1.

(** Lines 187-193: the abbreviation the day is given. *)
Definition resolve_day_abbr (current_date : Z) (alternance_info : DayInfo) : string :=
  let full_day_name := day_name alternance_info in
  let day_abbr := default full_day_name (FULL_DAY_TO_ABBREVIATION !! full_day_name) in
  if decide (current_date = october_first) then "LUN" else day_abbr.

(** Lines 199-203: the test that guards the emission of an event. *)
Definition day_matches (group : Group) (day_abbr week_type : string) : bool :=
  let frequency := PyStr.lower (frequency group) in
  bool_decide (day_abbr = PyStr.upper (week_day group))
  && (bool_decide (frequency = "every_week")
      || (bool_decide (frequency = "b1") && bool_decide (week_type = "B1"))
      || (bool_decide (frequency = "b2") && bool_decide (week_type = "B2"))).

(** The label of line 214. *)
Definition type_label (group_type : string) : string :=
  if decide (group_type = "c") then "COURS" else "LAB".

(** [montreal_tz.localize(dt)] for a naive [dt].  To find the zone
    transitions around [dt], pytz computes [dt - timedelta(days=1)] and
    [dt + timedelta(days=1)]: on the first and on the last representable
    day that arithmetic raises [OverflowError]. *)
Definition localize (zone : string) (ordinal h m : Z) : result LocalDateTime :=
  if decide (ordinal ≤ 1 ∨ PyDate.MAXORDINAL ≤ ordinal) then Raise OverflowError
  else Ok {| dt_ordinal := ordinal; dt_hour := h; dt_minute := m; dt_zone := zone |}.

(** Lines 204-221: the event built for a matching day. *)
Definition make_event (course : Course) (group_type : string) (group : Group)
    (current_date : Z) : result Event :=
  match PyStr.split comma (hour group) with
  | [] => Raise IndexError
  | start_time_str :: _ =>
      match PyDate.strptime_HM start_time_str with
      | None => Raise ValueError
      | Some (h, m) =>
          match localize montreal_tz current_date h m with
          | Raise e => Raise e
          | Ok event_date_time =>
              let total_hours := Z.of_nat (length (PyStr.split comma (hour group))) in
              Ok {| ev_name := sigle course +:+ " - " +:+ name course +:+ " - Groupe "
                               +:+ pretty (number group)
                               +:+ " (" +:+ type_label group_type +:+ ")";
                    ev_begin := event_date_time;
                    ev_duration_hours := total_hours;
                    ev_location := room group;
                    ev_alarms := [{| action := "display"; trigger_minutes := -30 |}] |}
          end
      end
  end.

(** The [while current_date <= semester_end_date] loop, by recursion on the
    number [days] of dates from [current_date] to [semester_end_date]:
    the loop test holds exactly while that number is positive. *)
Fixpoint days_loop (alternance_map : gmap Z DayInfo) (course : Course)
    (group_type : string) (group : Group) (days : nat) (current_date : Z)
    : result (list Event) :=
  match days with
  | O => Ok []
  | S days' =>
      let next :=
        if decide (PyDate.MAXORDINAL < current_date + 1) then Raise OverflowError
        else days_loop alternance_map course group_type group days' (current_date + 1) in
      match alternance_map !! current_date with
      | None => next
      | Some alternance_info =>
          let day_abbr := resolve_day_abbr current_date alternance_info in
          if day_matches group day_abbr (week_type alternance_info) then
            match make_event course group_type group current_date with
            | Raise e => Raise e
            | Ok event =>
                match next with
                | Raise e => Raise e
                | Ok events => Ok (event :: events)
                end
            end
          else next
      end
  end.

Section expansion.
Variable courses_manager : gmap string Course.
Variable alternance_map : gmap Z DayInfo.
Variables semester_start_date semester_end_date : Z.

(** Lines 179-225, for one group of the retrieved list. *)
Definition expand_group (course : Course) (group_type : string) (group : Group)
    : result (list Event) :=
  days_loop alternance_map course group_type group
    (Z.to_nat (semester_end_date - semester_start_date + 1)) semester_start_date.

(** Lines 177-225, for one selected group number. *)
Definition expand_number (course : Course) (group_type : string) (group_number : Z)
    : result (list Event) :=
  match get_specific_group course group_type group_number with
  | None | Some [] => Ok []
  | Some groups => for_each (expand_group course group_type) groups
  end.

(** Lines 175-225, for one item of a course's selection. *)
Definition expand_type (course : Course) (item : string * list Z) : result (list Event) :=
  for_each (expand_number course item.1) item.2.

(** Lines 172-225, for one item of [courses_to_convert]. *)
Definition expand_course (item : string * list (string * list Z)) : result (list Event) :=
  match get_course courses_manager item.1 with
  | None => Ok []
  | Some course => for_each (expand_type course) item.2
  end.
End expansion.

(** [generate_ics_file]: the events added to the calendar, in the order
    they are added.  Each event is a fresh object with its own identifier,
    so the set the calendar keeps has them all; the list written to the
    file is returned instead of written. *)
Definition generate_ics_file (courses_manager : gmap string Course)
    (courses_to_convert : list (string * list (string * list Z)))
    (alternance_map : gmap Z DayInfo) : result (list Event) :=
  let semester_dates := merge_sort Z.le (map_to_list alternance_map).*1 in
  match head semester_dates, last semester_dates with
  | Some semester_start_date, Some semester_end_date =>
      for_each
        (expand_course courses_manager alternance_map semester_start_date semester_end_date)
        courses_to_convert
  | _, _ => Raise IndexError
  end.

(** ** Conversions for worked rows

    An instance of the two number conversions, for evaluating the model on
    concrete rows.  On a run of one to fifteen ASCII digits [int_of_digits]
    is [int(s)], and on such a run, a dot and a second such run
    [int_of_decimal] is [int(float(s))]; the worked rows use no other
    text. *)
Module Conv.
Fixpoint digits_value (acc : Z) (s : string) : option Z :=
  match s with
  | EmptyString => Some acc
  | String c s' =>
      match PyDate.digit c with
      | Some d => digits_value (10 * acc + d) s'
      | None => None
      end
  end.

Definition int_of_digits (s : string) : option Z :=
  if decide (s = "") then None else digits_value 0 s.

Definition int_of_decimal (s : string) : result Z :=
  match PyStr.split "." s with
  | [whole; fraction] =>
      match int_of_digits whole, int_of_digits fraction with
      | Some z, Some _ => Ok z
      | _, _ => Raise ValueError
      end
  | _ => Raise ValueError
  end.
End Conv.

(** The frequency a row gets from its week-number field, lines 123-128. *)
Definition row_frequency (week_nb : string) : string :=
  if decide (week_nb = "I") then "B1"
  else if decide (week_nb = "P") then "B2"
  else "every_week".

(** ** Quantities the properties are stated with *)

(** The hour field [Group_init] stores, as a function of the text given. *)
Definition normal_hour (h : string) : string :=
  PyStr.join "," (PyStr.sorted (PyStr.split comma h)).

(** The tokens of an hour field. *)
Definition hour_tokens (h : string) : list string := PyStr.split comma h.

Definition sum_Z (l : list Z) : Z := foldr Z.add 0 l.

(** The groups of a list that carry a given key, in list order. *)
Definition members (k : GroupKey) (gl : list Group) : list Group :=
  filter (λ g, group_key g = k) gl.

Definition total_length (k : GroupKey) (gl : list Group) : Z :=
  sum_Z (course_length <$> members k gl).

Definition hours_of (k : GroupKey) (gl : list Group) : list string :=
  hour <$> members k gl.

(** The keys of a list of groups in the order they are first met. *)
Definition key_order (gl : list Group) : list GroupKey :=
  foldl (λ ks g, if decide (group_key g ∈ ks) then ks else ks ++ [group_key g]) [] gl.

(** A dictionary presented by its key order and a value function. *)
Definition tabulate {K V : Type} (F : K → V) (ks : list K) : list (K * V) :=
  (λ k, (k, F k)) <$> ks.

(** The group the merging pass builds for key [k]. *)
Definition merged_group (number : Z) (gl : list Group) (k : GroupKey) : Group :=
  Group_init number k.1.1 k.1.2 (total_length k gl) k.2 (PyStr.join "," (hours_of k gl)).

(** The frequency test of lines 200-202, on the stored frequency text. *)
Definition frequency_passes (group : Group) (week_type : string) : Prop :=
  PyStr.lower (frequency group) = "every_week"
  ∨ (PyStr.lower (frequency group) = "b1" ∧ week_type = "B1")
  ∨ (PyStr.lower (frequency group) = "b2" ∧ week_type = "B2").

(** Whether the day loop emits an event on date [d]. *)
Definition day_selected (alternance_map : gmap Z DayInfo) (group : Group) (d : Z) : bool :=
  match alternance_map !! d with
  | Some info => day_matches group (resolve_day_abbr d info) (week_type info)
  | None => false
  end.

(** The title of line 214. *)
Definition event_title (course : Course) (group : Group) (label : string) : string :=
  sigle course +:+ " - " +:+ name course +:+ " - Groupe " +:+ pretty (number group)
  +:+ " (" +:+ label +:+ ")".

(** The event emitted on date [d] for a group whose first hour token reads
    [h]:[m]. *)
Definition event_for (course : Course) (group_type : string) (group : Group)
    (h m d : Z) : Event :=
  {| ev_name := event_title course group (type_label group_type);
     ev_begin := {| dt_ordinal := d; dt_hour := h; dt_minute := m; dt_zone := montreal_tz |};
     ev_duration_hours := Z.of_nat (length (hour_tokens (hour group)));
     ev_location := room group;
     ev_alarms := [{| action := "display"; trigger_minutes := -30 |}] |}.

(** ** Quantities for the properties of the record model *)

(** The elements of a list in the order they are first met. *)
Definition first_occurrences {A : Type} `{EqDecision A} (l : list A) : list A :=
  reverse (remove_dups (reverse l)).

(** The placement [add_group] makes before it merges, lines 45-48. *)
Definition place_group (group_type : string) (group : Group) (c : Course) : Course :=
  if decide (PyStr.lower group_type = "c") then
    {| sigle := sigle c; name := name c; nb_credit := nb_credit c;
       theo_groups := bucket_append group (theo_groups c);
       lab_groups := lab_groups c |}
  else if decide (PyStr.lower group_type = "l") then
    {| sigle := sigle c; name := name c; nb_credit := nb_credit c;
       theo_groups := theo_groups c;
       lab_groups := bucket_append group (lab_groups c) |}
  else c.

(** A sequence of [add_group] calls on a course. *)
Definition add_groups (adds : list (string * Group)) (c : Course) : Course :=
  foldl (λ c' a, add_group a.1 a.2 c') c adds.

(** The same placements with no merging in between. *)
Definition place_groups (adds : list (string * Group)) (c : Course) : Course :=
  foldl (λ c' a, place_group a.1 a.2 c') c adds.

(** ** Quantities for the properties of the ingestion *)

(** The rows [read_row] passes over: fewer than 15 fields, or 15 fields
    with an empty required field or a number whose conversion raises
    [ValueError]. *)
Definition skipped_row (py_int : string → option Z) (py_int_float : string → result Z)
    (row : list string) : Prop :=
  (length row < 15)%nat
  ∨ ∃ f0 sigle number nb_credit f4 f5 room period_type f8 week_nb course_type name f12
      week_day hour,
      row = [f0; sigle; number; nb_credit; f4; f5; room; period_type; f8; week_nb;
             course_type; name; f12; week_day; hour]
      ∧ ("" ∈ [sigle; number; nb_credit; room; period_type; course_type; name; week_day;
               hour]
         ∨ py_int number = None
         ∨ py_int_float (PyStr.replace "," "." nb_credit) = Raise ValueError).

(** What ingestion keeps true of the registry. *)
Definition group_ok (n : Z) (g : Group) : Prop :=
  number g = n
  ∧ frequency g ∈ ["B1"; "B2"; "every_week"]
  ∧ 1 ≤ course_length g
  ∧ hour g = normal_hour (hour g).

Definition bucket_ok (n : Z) (bucket : list Group) : Prop :=
  bucket ≠ [] ∧ NoDup (group_key <$> bucket) ∧ Forall (group_ok n) bucket.

Definition mapping_ok (groups : gmap Z (list Group)) : Prop :=
  ∀ n bucket, groups !! n = Some bucket → bucket_ok n bucket.

Definition course_ok (key : string) (c : Course) : Prop :=
  sigle c = key ∧ mapping_ok (theo_groups c) ∧ mapping_ok (lab_groups c).

Definition registry_ok (courses : gmap string Course) : Prop :=
  ∀ key c, courses !! key = Some c → course_ok key c.

(** The entry an alternance row contributes, if any: rows of three fields
    whose date converts. *)
Definition alternance_entry (strptime_ymd : string → option Z) (row : list string)
    : option (Z * DayInfo) :=
  match row with
  | [date_str; day_name; week_type] =>
      match strptime_ymd date_str with
      | Some date =>
          Some (date, {| day_name := PyStr.upper (PyStrip.strip day_name);
                         week_type := PyStr.upper (PyStrip.strip week_type) |})
      | None => None
      end
  | _ => None
  end.

(** An instance of the date conversion, for evaluating the model on
    concrete rows: on a text [YYYY-MM-DD] of zero-padded digits naming a
    calendar day it is [datetime.strptime(s, '%Y-%m-%d')]; the worked rows
    use no other text.  [days_in_month] is [_days_in_month] of
    [datetime.py]. *)
Module ConvDate.
Definition two_digits (a b : ascii) : option Z :=
  match PyDate.digit a, PyDate.digit b with
  | Some x, Some y => Some (10 * x + y)
  | _, _ => None
  end.

Definition days_in_month (year month : Z) : Z :=
  if (month =? 2) && PyDate.is_leap year then 29
  else default 0 ([31; 28; 31; 30; 31; 30; 31; 31; 30; 31; 30; 31] !! Z.to_nat (month - 1)).

Definition date_of_iso (s : string) : option Z :=
  match s with
  | String y1 (String y2 (String y3 (String y4 (String sep1 (String m1 (String m2
      (String sep2 (String d1 (String d2 EmptyString))))))))) =>
      match two_digits y1 y2, two_digits y3 y4, two_digits m1 m2, two_digits d1 d2 with
      | Some yh, Some yl, Some m, Some d =>
          let y := 100 * yh + yl in
          if decide (sep1 = "-"%char ∧ sep2 = "-"%char ∧ 1 ≤ y ∧ 1 ≤ m ≤ 12
                     ∧ 1 ≤ d ≤ days_in_month y m)
          then Some (PyDate.ymd2ord y m d) else None
      | _, _, _, _ => None
      end
  | _ => None
  end.
End ConvDate.

(** ** Quantities for the properties of the expansion *)

(** Line 168: the dates of the alternance map in order. *)
Definition semester_dates (alternance_map : gmap Z DayInfo) : list Z :=
  merge_sort Z.le (map_to_list alternance_map).*1.

(** A group whose first hour token [strptime] accepts. *)
Definition hour_parses (g : Group) : Prop :=
  ∃ tok toks h m,
    hour_tokens (hour g) = tok :: toks ∧ PyDate.strptime_HM tok = Some (h, m).

(** A registry all of whose groups have such an hour field. *)
Definition registry_parses (courses : gmap string Course) : Prop :=
  ∀ key c n bucket g,
    courses !! key = Some c →
    theo_groups c !! n = Some bucket ∨ lab_groups c !! n = Some bucket →
    g ∈ bucket → hour_parses g.

(** The text of a time of day as the timetable writes it, "HHMM". *)
Definition digit_char (d : Z) : ascii := ascii_of_N (48 + Z.to_N d).

Definition HHMM (t : Z * Z) : string :=
  String (digit_char (t.1 / 10)) (String (digit_char (t.1 mod 10))
    (String (digit_char (t.2 / 10)) (String (digit_char (t.2 mod 10)) EmptyString))).

(** A time of day: hour below 24 and minute below 60. *)
Definition valid_time (t : Z * Z) : Prop := 0 ≤ t.1 ≤ 23 ∧ 0 ≤ t.2 ≤ 59.

(** ** The script

    Lines 230-242, on the rows of the two files once opened. *)
Definition courses_to_convert : list (string * list (string * list Z)) :=
  [("LOG1810", [("c", [2]); ("l", [4])]);
   ("INF1015", [("c", [1]); ("l", [1])])].

Definition main (py_int : string → option Z) (py_int_float : string → result Z)
    (strptime_ymd : string → option Z) (horsage_rows alternance_rows : list (list string))
    : result (list Event) :=
  match read_csv_files py_int py_int_float ∅ horsage_rows with
  | Raise e => Raise e
  | Ok courses_manager =>
      match read_alternance_csv strptime_ymd alternance_rows with
      | Raise e => Raise e
      | Ok alternance_map =>
          generate_ics_file courses_manager courses_to_convert alternance_map
      end
  end.

(** ** ASCII text

    The text on which [PyStr.upper], [PyStr.lower] and [PyStrip.strip]
    are [str.upper], [str.lower] and [str.strip]: every character below
    128. *)
Fixpoint ascii_text (s : string) : bool :=
  match s with
  | EmptyString => true
  | String c s' => (N_of_ascii c <? 128)%N && ascii_text s'
  end.

(** * Properties *)

(** ** Splitting, joining and sorting *)

Section split_join.
Variable sep : ascii.

Lemma split_nonempty s : PyStr.split sep s ≠ [].
Proof.
  destruct s as [|c s]; simpl; [done|].
  case_decide; [done|]. by destruct (PyStr.split sep s).
Qed.

Lemma split_tokens_no_sep s :
  Forall (λ tok, PyStr.contains sep tok = false) (PyStr.split sep s).
Proof.
  induction s as [|c s IH]; simpl.
  - by repeat constructor.
  - case_decide as Hc.
    + by constructor.
    + destruct (PyStr.split sep s) as [|tok toks].
      * repeat constructor. simpl. by rewrite bool_decide_eq_false_2.
      * inversion_clear IH. constructor; [|done].
        simpl. by rewrite bool_decide_eq_false_2.
Qed.

Lemma split_token tok : PyStr.contains sep tok = false → PyStr.split sep tok = [tok].
Proof.
  induction tok as [|c tok IH]; simpl; [done|].
  intros [Hc Htok]%orb_false_iff.
  apply bool_decide_eq_false in Hc.
  rewrite decide_False by done. by rewrite IH.
Qed.

Lemma split_app_sep s1 s2 :
  PyStr.split sep (s1 +:+ String sep s2) = PyStr.split sep s1 ++ PyStr.split sep s2.
Proof.
  induction s1 as [|c s1 IH]; simpl.
  - by rewrite decide_True.
  - rewrite IH. case_decide; [done|].
    pose proof (split_nonempty s1).
    by destruct (PyStr.split sep s1).
Qed.

(** Splitting a joined list gives the tokens of its members. *)
Lemma split_join_concat l :
  l ≠ [] →
  PyStr.split sep (PyStr.join (String sep EmptyString) l) = concat (PyStr.split sep <$> l).
Proof.
  induction l as [|x l IH]; [done|]. intros _.
  destruct l as [|y l].
  - simpl. by rewrite app_nil_r.
  - change (PyStr.join (String sep "") (x :: y :: l))
      with (x +:+ String sep (PyStr.join (String sep "") (y :: l))).
    rewrite split_app_sep, IH by done. done.
Qed.

Lemma split_join l :
  l ≠ [] → Forall (λ tok, PyStr.contains sep tok = false) l →
  PyStr.split sep (PyStr.join (String sep EmptyString) l) = l.
Proof.
  intros Hne Hl. rewrite split_join_concat by done.
  clear Hne. induction Hl as [|x l Hx _ IH]; [done|].
  rewrite fmap_cons, concat_cons, IH, split_token by done. done.
Qed.
End split_join.

Lemma sorted_Sorted l : Sorted String.le (PyStr.sorted l).
Proof. apply (Sorted_merge_sort String.le). Qed.

Lemma sorted_Permutation l : PyStr.sorted l ≡ₚ l.
Proof. apply merge_sort_Permutation. Qed.

Lemma sorted_of_Sorted l : Sorted String.le l → PyStr.sorted l = l.
Proof.
  intros Hl. apply (Sorted_unique String.le); [apply sorted_Sorted|done|].
  apply sorted_Permutation.
Qed.

Lemma sorted_proper l1 l2 : l1 ≡ₚ l2 → PyStr.sorted l1 = PyStr.sorted l2.
Proof.
  intros Hl. apply (Sorted_unique String.le); [apply sorted_Sorted..|].
  by rewrite !sorted_Permutation.
Qed.

Lemma sorted_nonempty l : l ≠ [] → PyStr.sorted l ≠ [].
Proof.
  intros Hl Hs. pose proof (sorted_Permutation l) as Hp.
  rewrite Hs in Hp. by apply Permutation_nil_l in Hp.
Qed.

Lemma split_normal_hour h :
  PyStr.split comma (normal_hour h) = PyStr.sorted (PyStr.split comma h).
Proof.
  unfold normal_hour. apply (split_join comma).
  - apply sorted_nonempty, split_nonempty.
  - rewrite sorted_Permutation. apply split_tokens_no_sep.
Qed.

Lemma normal_hour_idemp h : normal_hour (normal_hour h) = normal_hour h.
Proof.
  unfold normal_hour at 1. rewrite split_normal_hour.
  by rewrite sorted_of_Sorted by apply sorted_Sorted.
Qed.

(** ** The merging pass *)

Section defaultdict_facts.
Context {K V : Type} `{EqDecision K}.
Implicit Types (d : list (K * V)) (ks : list K).

Lemma dd_update_tabulate_old dflt f k (F : K → V) ks :
  NoDup ks → k ∈ ks →
  dd_update dflt f k (tabulate F ks)
  = tabulate (λ k', if decide (k' = k) then f (F k) else F k') ks.
Proof.
  unfold tabulate. induction 1 as [|k0 ks Hk0 Hnd IH]; intros Hin.
  - by apply elem_of_nil in Hin.
  - csimpl. destruct (decide (k0 = k)) as [->|Hne].
    + f_equal. apply list_fmap_ext. intros i k' Hk'.
      rewrite decide_False; [done|].
      intros Heq. subst k'. apply Hk0. by eapply list_elem_of_lookup_2.
    + f_equal. apply IH. apply elem_of_cons in Hin as [?|?]; congruence.
Qed.

Lemma dd_update_tabulate_new dflt f k (F : K → V) ks :
  k ∉ ks →
  dd_update dflt f k (tabulate F ks)
  = tabulate (λ k', if decide (k' = k) then f dflt else F k') (ks ++ [k]).
Proof.
  unfold tabulate. induction ks as [|k0 ks IH]; intros Hin.
  - csimpl. by rewrite decide_True.
  - apply not_elem_of_cons in Hin as [Hne Hin]. csimpl.
    rewrite !(decide_False (P := k0 = k)) by done. f_equal. by apply IH.
Qed.

Lemma dd_get_tabulate dflt (F : K → V) k ks : k ∈ ks → dd_get dflt k (tabulate F ks) = F k.
Proof.
  unfold dd_get, tabulate. induction ks as [|k0 ks IH]; intros Hin.
  - by apply elem_of_nil in Hin.
  - csimpl. destruct (decide (k0 = k)) as [->|Hne]; [done|].
    apply IH. apply elem_of_cons in Hin as [?|?]; congruence.
Qed.
End defaultdict_facts.

Lemma sum_Z_app l1 l2 : sum_Z (l1 ++ l2) = sum_Z l1 + sum_Z l2.
Proof. unfold sum_Z. induction l1 as [|x l1 IH]; simpl; lia. Qed.

Lemma sum_Z_Permutation l1 l2 : l1 ≡ₚ l2 → sum_Z l1 = sum_Z l2.
Proof. unfold sum_Z. induction 1; simpl; lia. Qed.

Lemma members_snoc k gl g :
  members k (gl ++ [g]) = members k gl ++ (if decide (group_key g = k) then [g] else []).
Proof.
  unfold members. by rewrite filter_app.
Qed.

Lemma members_nil_iff k gl : members k gl = [] ↔ k ∉ group_key <$> gl.
Proof.
  unfold members. split.
  - intros Hnil (g & -> & Hg)%list_elem_of_fmap.
    assert (g ∈ filter (λ g', group_key g' = group_key g) gl) as Hin
      by (by apply list_elem_of_filter).
    rewrite Hnil in Hin. by apply elem_of_nil in Hin.
  - induction gl as [|g gl IH]; [done|]. rewrite fmap_cons, not_elem_of_cons.
    intros [Hne Hk]. rewrite filter_cons_False by done. by apply IH.
Qed.

Lemma members_Permutation k gl gl' : gl ≡ₚ gl' → members k gl ≡ₚ members k gl'.
Proof. intros Hp. unfold members. by rewrite Hp. Qed.

Lemma key_order_snoc gl g :
  key_order (gl ++ [g])
  = if decide (group_key g ∈ key_order gl) then key_order gl
    else key_order gl ++ [group_key g].
Proof. unfold key_order. by rewrite foldl_snoc. Qed.

Lemma key_order_elem_of gl k : k ∈ key_order gl ↔ k ∈ group_key <$> gl.
Proof.
  induction gl as [|g gl IH] using rev_ind.
  - done.
  - rewrite key_order_snoc, fmap_app, elem_of_app, <-IH. simpl.
    rewrite list_elem_of_singleton.
    case_decide as Hg; [|rewrite elem_of_app, list_elem_of_singleton; tauto].
    split; [tauto|]. intros [?| ->]; tauto.
Qed.

Lemma key_order_NoDup gl : NoDup (key_order gl).
Proof.
  induction gl as [|g gl IH] using rev_ind.
  - constructor.
  - rewrite key_order_snoc. case_decide; [done|].
    apply NoDup_app. split_and!; [done| |apply NoDup_singleton].
    intros k Hk ->%list_elem_of_singleton. done.
Qed.

Lemma total_length_snoc k gl g :
  total_length k (gl ++ [g])
  = if decide (k = group_key g) then total_length k gl + course_length g
    else total_length k gl.
Proof.
  unfold total_length. rewrite members_snoc, fmap_app, sum_Z_app.
  destruct (decide (k = group_key g)) as [->|Hne].
  - rewrite decide_True by done. unfold sum_Z. simpl. lia.
  - rewrite decide_False by congruence. unfold sum_Z. simpl. lia.
Qed.

Lemma hours_of_snoc k gl g :
  hours_of k (gl ++ [g])
  = if decide (k = group_key g) then hours_of k gl ++ [hour g] else hours_of k gl.
Proof.
  unfold hours_of. rewrite members_snoc, fmap_app.
  destruct (decide (k = group_key g)) as [->|Hne].
  - by rewrite decide_True.
  - rewrite decide_False by congruence. apply app_nil_r.
Qed.

Lemma tabulate_ext {K V} (F G : K → V) ks : (∀ k, F k = G k) → tabulate F ks = tabulate G ks.
Proof. intros HFG. unfold tabulate. apply list_fmap_ext. intros _ k _. by rewrite HFG. Qed.

(** The two dictionaries after the inner loop of the merging pass. *)
Lemma merge_fold_spec gl :
  foldl merge_step ([], []) gl
  = (tabulate (λ k, total_length k gl) (key_order gl),
     tabulate (λ k, hours_of k gl) (key_order gl)).
Proof.
  induction gl as [|g gl IH] using rev_ind; [done|].
  rewrite foldl_snoc, IH, key_order_snoc. unfold merge_step. simpl.
  fold (group_key g).
  destruct (decide (group_key g ∈ key_order gl)) as [Hin|Hnew].
  - rewrite !dd_update_tabulate_old by (done || apply key_order_NoDup).
    f_equal; apply tabulate_ext; intros k.
    + rewrite total_length_snoc. repeat case_decide; by subst.
    + rewrite hours_of_snoc. repeat case_decide; by subst.
  - rewrite !dd_update_tabulate_new by done.
    assert (members (group_key g) gl = []) as Hnil
      by (by apply members_nil_iff; rewrite <-key_order_elem_of).
    f_equal; apply tabulate_ext; intros k.
    + rewrite total_length_snoc. repeat case_decide; try done. subst k.
      unfold total_length. by rewrite Hnil.
    + rewrite hours_of_snoc. repeat case_decide; try done. subst k.
      unfold hours_of. by rewrite Hnil.
Qed.

(** What the merging pass stores for one group number: one group per key,
    in the order the keys are first met. *)
Lemma merge_bucket_spec number gl :
  merge_bucket number gl = merged_group number gl <$> key_order gl.
Proof.
  unfold merge_bucket. rewrite merge_fold_spec. simpl. unfold tabulate at 2.
  rewrite <-list_fmap_compose. apply list_fmap_ext.
  intros i [[day rm] freq] Hk. simpl.
  rewrite dd_get_tabulate by (by eapply list_elem_of_lookup_2). done.
Qed.

Lemma group_key_merged_group number gl k : group_key (merged_group number gl k) = k.
Proof. by destruct k as [[??]?]. Qed.

Lemma elem_of_merge_bucket number gl g :
  g ∈ merge_bucket number gl
  ↔ group_key g ∈ group_key <$> gl ∧ g = merged_group number gl (group_key g).
Proof.
  rewrite merge_bucket_spec, list_elem_of_fmap. split.
  - intros (k & -> & Hk). rewrite group_key_merged_group.
    by rewrite <-key_order_elem_of.
  - intros [Hk Hg]. exists (group_key g). by rewrite key_order_elem_of.
Qed.

(** In a list with one group per key, the groups that carry a key. *)
Lemma members_one_per_key (G : GroupKey → Group) ks k :
  (∀ k', group_key (G k') = k') → NoDup ks → k ∈ ks → members k (G <$> ks) = [G k].
Proof.
  intros HG. unfold members. induction 1 as [|k0 ks Hk0 Hnd IH]; intros Hin.
  - by apply elem_of_nil in Hin.
  - rewrite fmap_cons. destruct (decide (k0 = k)) as [->|Hne].
    + rewrite filter_cons_True by done. f_equal.
      apply members_nil_iff. rewrite <-list_fmap_compose.
      intros (k' & Hk' & Hin')%list_elem_of_fmap. simpl in Hk'.
      rewrite HG in Hk'. by subst k'.
    + rewrite filter_cons_False by (by rewrite HG).
      apply IH. apply elem_of_cons in Hin as [?|?]; congruence.
Qed.

Lemma members_merge_bucket number gl k :
  k ∈ group_key <$> gl → members k (merge_bucket number gl) = [merged_group number gl k].
Proof.
  intros Hk. rewrite merge_bucket_spec. apply members_one_per_key.
  - intros k'. apply group_key_merged_group.
  - apply key_order_NoDup.
  - by apply key_order_elem_of.
Qed.

Lemma key_order_one_per_key gl : NoDup (group_key <$> gl) → key_order gl = group_key <$> gl.
Proof.
  induction gl as [|g gl IH] using rev_ind; [done|].
  rewrite fmap_app, NoDup_app. intros (Hnd & Hnew & _).
  rewrite key_order_snoc, decide_False, IH; [done..|].
  rewrite key_order_elem_of. intros Hin. apply (Hnew _ Hin). by left.
Qed.

Lemma merged_group_normal number gl k :
  k ∈ group_key <$> gl →
  merged_group number (merge_bucket number gl) k = merged_group number gl k.
Proof.
  intros Hk. unfold merged_group at 1, total_length, hours_of.
  rewrite members_merge_bucket by done. simpl.
  unfold merged_group, Group_init. simpl. f_equal.
  - unfold sum_Z. simpl. lia.
  - apply normal_hour_idemp.
Qed.

Lemma merge_bucket_idemp number gl :
  merge_bucket number (merge_bucket number gl) = merge_bucket number gl.
Proof.
  assert (group_key <$> merge_bucket number gl = key_order gl) as Hkeys.
  { rewrite merge_bucket_spec, <-list_fmap_compose.
    rewrite <-(list_fmap_id (key_order gl)) at 2.
    apply list_fmap_ext. intros _ k _. apply group_key_merged_group. }
  rewrite (merge_bucket_spec number (merge_bucket number gl)).
  rewrite key_order_one_per_key by (rewrite Hkeys; apply key_order_NoDup).
  rewrite Hkeys, (merge_bucket_spec number gl).
  apply list_fmap_ext. intros i k Hk. rewrite <-merge_bucket_spec.
  apply merged_group_normal. apply key_order_elem_of.
  by eapply list_elem_of_lookup_2.
Qed.

Lemma merge_group_type_idemp (groups : gmap Z (list Group)) :
  _merge_group_type (_merge_group_type groups) = _merge_group_type groups.
Proof.
  apply map_eq. intros number. unfold _merge_group_type.
  rewrite !map_lookup_imap.
  destruct (groups !! number) as [gl|]; simpl; [|done].
  by rewrite merge_bucket_idemp.
Qed.

Lemma merge_groups_idemp c : merge_groups (merge_groups c) = merge_groups c.
Proof. unfold merge_groups. simpl. by rewrite !merge_group_type_idemp. Qed.

(** C4.  Merging is idempotent: for every mapping from group numbers to
    lists of groups, merging the merged mapping gives the merged mapping
    again, group for group; so does merging both mappings of a course. *)
Theorem merge_idempotent (groups : gmap Z (list Group)) (c : Course) :
  _merge_group_type (_merge_group_type groups) = _merge_group_type groups
  ∧ merge_groups (merge_groups c) = merge_groups c.
Proof. split; [apply merge_group_type_idemp|apply merge_groups_idemp]. Qed.

Lemma lookup_merge_group_type groups number :
  _merge_group_type groups !! number = merge_bucket number <$> groups !! number.
Proof. unfold _merge_group_type. rewrite map_lookup_imap. by destruct (groups !! number). Qed.

(** C5.  Within a group number, the groups that share a (weekday, room,
    frequency) triple collapse into exactly one group; its course length
    is the sum of their lengths, and it is the same for every order of the
    input list.  That group is the one the merging pass stores in the
    mapping under the group number. *)
Theorem merged_length_is_sum (number : Z) (gl gl' : list Group) (k : GroupKey) :
  k ∈ group_key <$> gl → gl' ≡ₚ gl →
  ∃ g, members k (merge_bucket number gl') = [g]
       ∧ course_length g = sum_Z (course_length <$> members k gl)
       ∧ ∀ groups : gmap Z (list Group),
           groups !! number = Some gl' →
           ∃ merged, _merge_group_type groups !! number = Some merged
                     ∧ members k merged = [g].
Proof.
  intros Hk Hp. exists (merged_group number gl' k).
  assert (members k (merge_bucket number gl') = [merged_group number gl' k]) as Hm
    by (apply members_merge_bucket; by rewrite Hp).
  split_and!.
  - exact Hm.
  - simpl. unfold total_length. apply sum_Z_Permutation.
    by rewrite (members_Permutation k gl' gl).
  - intros groups Hgroups. exists (merge_bucket number gl'). split; [|exact Hm].
    by rewrite lookup_merge_group_type, Hgroups.
Qed.

Lemma merged_length_is_sum_witness :
  let g1 := Group_init 2 "LUN" "B-2325" 1 "every_week" "0830" in
  let g2 := Group_init 2 "MAR" "B-2325" 1 "every_week" "0830" in
  let g3 := Group_init 2 "LUN" "B-2325" 1 "every_week" "0930" in
  ∃ g, members ("LUN", "B-2325", "every_week") (merge_bucket 2 [g2; g3; g1]) = [g]
       ∧ course_length g
         = sum_Z (course_length <$> members ("LUN", "B-2325", "every_week") [g1; g2; g3])
       ∧ ∀ groups : gmap Z (list Group),
           groups !! 2 = Some [g2; g3; g1] →
           ∃ merged, _merge_group_type groups !! 2 = Some merged
                     ∧ members ("LUN", "B-2325", "every_week") merged = [g].
Proof.
  intros g1 g2 g3.
  apply (merged_length_is_sum 2 [g1; g2; g3] [g2; g3; g1] ("LUN", "B-2325", "every_week")).
  - apply list_elem_of_here.
  - symmetry. apply (Permutation_cons_append [g2; g3] g1).
Defined.

Lemma hour_tokens_normal_hour h : hour_tokens (normal_hour h) = PyStr.sorted (hour_tokens h).
Proof. apply split_normal_hour. Qed.

Lemma normal_hour_joined h : normal_hour h = PyStr.join "," (hour_tokens (normal_hour h)).
Proof. by rewrite hour_tokens_normal_hour. Qed.

Lemma hours_of_nonempty k gl : k ∈ group_key <$> gl → hours_of k gl ≠ [].
Proof.
  intros Hk Hnil. apply fmap_nil_inv in Hnil. by apply members_nil_iff in Hnil.
Qed.

(** The tokens of a merged group's hour field. *)
Lemma hour_tokens_merged_group number gl k :
  k ∈ group_key <$> gl →
  hour_tokens (hour (merged_group number gl k))
  = PyStr.sorted (concat (hour_tokens <$> hours_of k gl)).
Proof.
  intros Hk. simpl. fold (normal_hour (PyStr.join "," (hours_of k gl))).
  rewrite hour_tokens_normal_hour. f_equal.
  apply (split_join_concat comma). by apply hours_of_nonempty.
Qed.

(** C3, as the code has it.  The stored hour field is the comma-joined,
    sorted list of its constituent tokens, every occurrence kept: at
    construction the tokens of the text given, after a merge the tokens of
    all the groups collapsed into the group. *)
Theorem hour_field_sorted_tokens :
  (∀ number week_day room course_length frequency h,
     let g := Group_init number week_day room course_length frequency h in
     hour g = PyStr.join "," (hour_tokens (hour g))
     ∧ Sorted String.le (hour_tokens (hour g))
     ∧ hour_tokens (hour g) ≡ₚ hour_tokens h)
  ∧ (∀ (groups : gmap Z (list Group)) number merged g,
       _merge_group_type groups !! number = Some merged → g ∈ merged →
       ∃ gl, groups !! number = Some gl
             ∧ hour g = PyStr.join "," (hour_tokens (hour g))
             ∧ Sorted String.le (hour_tokens (hour g))
             ∧ hour_tokens (hour g)
               ≡ₚ concat (hour_tokens <$> hours_of (group_key g) gl)).
Proof.
  split.
  - intros number wd rm len freq h. simpl. fold (normal_hour h).
    rewrite hour_tokens_normal_hour. split_and!.
    + reflexivity.
    + apply sorted_Sorted.
    + apply sorted_Permutation.
  - intros groups number merged g Hm Hg.
    rewrite lookup_merge_group_type in Hm.
    destruct (groups !! number) as [gl|]; [|done].
    injection Hm as <-. exists gl. split; [done|].
    apply elem_of_merge_bucket in Hg as [Hk Hg].
    pose proof (hour_tokens_merged_group number gl _ Hk) as Htok.
    rewrite <-Hg in Htok. rewrite Htok. split_and!.
    + rewrite <-Htok, Hg. apply normal_hour_joined.
    + apply sorted_Sorted.
    + apply sorted_Permutation.
Qed.

Lemma hour_field_sorted_tokens_witness :
  let g1 := Group_init 2 "LUN" "B-2325" 1 "every_week" "0930" in
  let g2 := Group_init 2 "LUN" "B-2325" 1 "every_week" "0830" in
  let g := Group_init 2 "LUN" "B-2325" 2 "every_week" "0930,0830" in
  ∃ gl, ({[2 := [g1; g2]]} : gmap Z (list Group)) !! 2 = Some gl
        ∧ hour g = PyStr.join "," (hour_tokens (hour g))
        ∧ Sorted String.le (hour_tokens (hour g))
        ∧ hour_tokens (hour g) ≡ₚ concat (hour_tokens <$> hours_of (group_key g) gl).
Proof.
  intros g1 g2 g.
  apply (proj2 hour_field_sorted_tokens {[2 := [g1; g2]]} 2 [g] g).
  - vm_compute. reflexivity.
  - apply list_elem_of_here.
Defined.

(** C3, as stated, fails: nothing removes a repeated token.  A group built
    from the hour text ["0830,0830"] stores both occurrences, and so does
    the merge of two rows with the hour ["0830"]. *)
Lemma hour_field_keeps_duplicates :
  let g := Group_init 2 "LUN" "B-2325" 1 "every_week" "0830,0830" in
  let row := Group_init 2 "LUN" "B-2325" 1 "every_week" "0830" in
  hour g = "0830,0830"
  ∧ ¬ NoDup (hour_tokens (hour g))
  ∧ hour g ≠ PyStr.join "," (PyStr.sorted (remove_dups (hour_tokens "0830,0830")))
  ∧ hour <$> merge_bucket 2 [row; row] = ["0830,0830"].
Proof.
  split_and!.
  - vm_compute. reflexivity.
  - vm_compute. intros Hnd. apply NoDup_cons in Hnd as [Hnin _].
    apply Hnin. apply list_elem_of_here.
  - vm_compute. discriminate.
  - vm_compute. reflexivity.
Qed.

(** ** Calendar expansion *)

Lemma day_matches_spec group day_abbr week_type :
  day_matches group day_abbr week_type = true
  ↔ day_abbr = PyStr.upper (week_day group) ∧ frequency_passes group week_type.
Proof.
  unfold day_matches, frequency_passes.
  rewrite andb_true_iff, !orb_true_iff, !andb_true_iff, !bool_decide_eq_true.
  tauto.
Qed.

Lemma make_event_ok course group_type group tok toks h m d :
  hour_tokens (hour group) = tok :: toks →
  PyDate.strptime_HM tok = Some (h, m) →
  1 < d < PyDate.MAXORDINAL →
  make_event course group_type group d = Ok (event_for course group_type group h m d).
Proof.
  unfold make_event, hour_tokens, localize. intros Htok Hhm Hd. rewrite Htok, Hhm.
  rewrite decide_False by lia.
  unfold event_for, hour_tokens. by rewrite Htok.
Qed.

(** The events of the day loop: one for each selected date, in date
    order, provided the hour field parses and the dates lie strictly
    between the first and the last representable day. *)
Lemma days_loop_spec alternance_map course group_type group tok toks h m :
  hour_tokens (hour group) = tok :: toks →
  PyDate.strptime_HM tok = Some (h, m) →
  ∀ (days : nat) (current_date : Z),
    (days ≠ O → 1 < current_date ∧ current_date + Z.of_nat days ≤ PyDate.MAXORDINAL) →
    days_loop alternance_map course group_type group days current_date
    = Ok (event_for course group_type group h m
            <$> filter (λ d, day_selected alternance_map group d)
                  (seqZ current_date (Z.of_nat days))).
Proof.
  intros Htok Hhm. induction days as [|days IH]; intros cur Hmax; [done|].
  rewrite seqZ_cons by lia.
  replace (Z.pred (Z.of_nat (S days))) with (Z.of_nat days) by lia.
  cbn [days_loop]. rewrite decide_False by lia.
  rewrite (IH (cur + 1)) by lia.
  rewrite (make_event_ok _ _ _ _ _ _ _ _ Htok Hhm) by lia.
  rewrite filter_cons.
  replace (Z.succ cur) with (cur + 1) by lia.
  assert (day_selected alternance_map group cur
          = match alternance_map !! cur with
            | Some info => day_matches group (resolve_day_abbr cur info) (week_type info)
            | None => false
            end) as -> by done.
  destruct (alternance_map !! cur) as [info|].
  - destruct (day_matches _ _ _); [|by rewrite decide_False by (simpl; tauto)].
    by rewrite decide_True.
  - by rewrite decide_False by (simpl; tauto).
Qed.

Lemma elem_of_seqZ_range (d lo hi : Z) :
  d ∈ seqZ lo (Z.of_nat (Z.to_nat (hi - lo + 1))) ↔ lo ≤ d ≤ hi.
Proof. rewrite elem_of_seqZ. lia. Qed.

(** C1, as the code has it.  For a group whose hour field parses, and a
    semester strictly between the first and the last representable day,
    the day loop returns, and for every day of the semester range with an alternance
    entry it emits an event iff the resolved abbreviation equals the
    group's weekday token put in upper case and the frequency test passes
    on the frequency read without regard to case: every_week always, b1
    only on week type "B1", b2 only on week type "B2". *)
Theorem day_emission (alternance_map : gmap Z DayInfo) (course : Course)
    (group_type : string) (group : Group) (semester_start_date semester_end_date : Z)
    (tok : string) (toks : list string) (h m : Z) :
  hour_tokens (hour group) = tok :: toks →
  PyDate.strptime_HM tok = Some (h, m) →
  1 < semester_start_date →
  semester_end_date < PyDate.MAXORDINAL →
  ∃ events,
    expand_group alternance_map semester_start_date semester_end_date
      course group_type group = Ok events
    ∧ ∀ d info,
        semester_start_date ≤ d ≤ semester_end_date →
        alternance_map !! d = Some info →
        ((∃ event, event ∈ events ∧ dt_ordinal (ev_begin event) = d)
         ↔ resolve_day_abbr d info = PyStr.upper (week_day group)
           ∧ frequency_passes group (week_type info)).
Proof.
  intros Htok Hhm Hstart Hend. eexists. split.
  - unfold expand_group. apply (days_loop_spec _ _ _ _ _ _ _ _ Htok Hhm). lia.
  - intros d info Hd Hinfo. rewrite <-day_matches_spec. split.
    + intros (event & (d' & -> & Hd')%list_elem_of_fmap & Heq).
      simpl in Heq. subst d'.
      apply list_elem_of_filter in Hd' as [Hsel _].
      unfold day_selected in Hsel. rewrite Hinfo in Hsel.
      by apply Is_true_true.
    + intros Hm. exists (event_for course group_type group h m d). split; [|done].
      apply list_elem_of_fmap_2, list_elem_of_filter. split.
      * unfold day_selected. rewrite Hinfo. by apply Is_true_true.
      * by apply elem_of_seqZ_range.
Qed.

Lemma day_emission_witness :
  let group := Group_init 2 "LUN" "B-2325" 2 "every_week" "0830,0930" in
  let course := Course_init "LOG1810" "Logiciel" 3 in
  let alternance_map : gmap Z DayInfo := {[739131 := mkDayInfo "LUNDI" "B1"]} in
  ∃ events,
    expand_group alternance_map 739131 739131 course "c" group = Ok events
    ∧ ∀ d info,
        739131 ≤ d ≤ 739131 →
        alternance_map !! d = Some info →
        ((∃ event, event ∈ events ∧ dt_ordinal (ev_begin event) = d)
         ↔ resolve_day_abbr d info = PyStr.upper (week_day group)
           ∧ frequency_passes group (week_type info)).
Proof.
  intros group course alternance_map.
  apply (day_emission alternance_map course "c" group 739131 739131
           "0830" ["0930"] 8 30).
  - vm_compute. reflexivity.
  - vm_compute. reflexivity.
  - vm_compute. reflexivity.
  - vm_compute. reflexivity.
Defined.

(** C1, as stated, fails: the comparison is with the weekday token put in
    upper case.  A group whose token is ["lun"] gets an event on a LUNDI,
    although the resolved abbreviation ["LUN"] is not its token. *)
Lemma lowercase_weekday_token_emits :
  let group := Group_init 2 "lun" "B-2325" 1 "every_week" "0830" in
  let course := add_group "c" group (Course_init "LOG1810" "Logiciel" 3) in
  let info := mkDayInfo "LUNDI" "B1" in
  let d := PyDate.ymd2ord 2024 9 2 in
  theo_groups course !! 2 = Some [group]
  ∧ resolve_day_abbr d info ≠ week_day group
  ∧ ∃ event,
      generate_ics_file {["LOG1810" := course]} [("LOG1810", [("c", [2])])] {[d := info]}
      = Ok [event]
      ∧ dt_ordinal (ev_begin event) = d.
Proof.
  split_and!.
  - vm_compute. reflexivity.
  - vm_compute. discriminate.
  - eexists. split; vm_compute; reflexivity.
Qed.

(** *** Loops that agree step by step *)

Lemma for_each_ext {A B} (f g : A → result (list B)) l :
  (∀ x, x ∈ l → f x = g x) → for_each f l = for_each g l.
Proof.
  induction l as [|x l IH]; intros Hfg; [done|]. simpl.
  rewrite (Hfg x) by apply list_elem_of_here.
  rewrite IH; [done|]. intros y Hy. apply Hfg. by apply list_elem_of_further.
Qed.

Lemma for_each_app {A B} (f : A → result (list B)) l1 l2 :
  for_each f (l1 ++ l2)
  = match for_each f l1 with
    | Raise e => Raise e
    | Ok out1 =>
        match for_each f l2 with
        | Raise e => Raise e
        | Ok out2 => Ok (out1 ++ out2)
        end
    end.
Proof.
  induction l1 as [|x l1 IH]; simpl.
  - by destruct (for_each f l2).
  - destruct (f x) as [out|e]; [|done]. rewrite IH.
    destruct (for_each f l1) as [out1|e]; [|done].
    destruct (for_each f l2) as [out2|e]; [|done].
    by rewrite app_assoc.
Qed.

Lemma for_each_silent {A B} (f : A → result (list B)) l :
  (∀ x, x ∈ l → f x = Ok []) → for_each f l = Ok [].
Proof.
  induction l as [|x l IH]; intros Hf; [done|]. simpl.
  rewrite (Hf x) by apply list_elem_of_here.
  rewrite IH; [done|]. intros y Hy. apply Hf. by apply list_elem_of_further.
Qed.

Lemma for_each_skip {A B} (f : A → result (list B)) l1 x l2 :
  f x = Ok [] → for_each f (l1 ++ x :: l2) = for_each f (l1 ++ l2).
Proof.
  intros Hx. rewrite !for_each_app. simpl. rewrite Hx.
  destruct (for_each f l1) as [out1|e]; [|done].
  by destruct (for_each f l2).
Qed.

Lemma for_each_elem_of {A B} (f : A → result (list B)) l out y :
  for_each f l = Ok out → y ∈ out → ∃ x out', x ∈ l ∧ f x = Ok out' ∧ y ∈ out'.
Proof.
  revert out. induction l as [|x l IH]; intros out; simpl.
  - intros [= <-] Hy. by apply elem_of_nil in Hy.
  - destruct (f x) as [out1|e] eqn:Hx; [|done].
    destruct (for_each f l) as [out2|e]; [|done].
    intros [= <-] [Hy|Hy]%elem_of_app.
    + exists x, out1. split_and!; [apply list_elem_of_here|done..].
    + destruct (IH out2 eq_refl Hy) as (x' & out' & Hx' & Hfx' & Hy').
      exists x', out'. split_and!; [by apply list_elem_of_further|done..].
Qed.

Lemma days_loop_unfold alternance_map course group_type group days current_date :
  days_loop alternance_map course group_type group (S days) current_date
  = let next :=
      if decide (PyDate.MAXORDINAL < current_date + 1) then Raise OverflowError
      else days_loop alternance_map course group_type group days (current_date + 1) in
    if day_selected alternance_map group current_date then
      match make_event course group_type group current_date with
      | Raise e => Raise e
      | Ok event => match next with Raise e => Raise e | Ok events => Ok (event :: events) end
      end
    else next.
Proof.
  cbn [days_loop]. unfold day_selected.
  by destruct (alternance_map !! current_date).
Qed.

Lemma days_loop_ext alt1 alt2 course group_type group :
  (∀ d, day_selected alt1 group d = day_selected alt2 group d) →
  ∀ days current_date,
    days_loop alt1 course group_type group days current_date
    = days_loop alt2 course group_type group days current_date.
Proof.
  intros Hsel. induction days as [|days IH]; intros cur; [done|].
  by rewrite !days_loop_unfold, Hsel, IH.
Qed.

Lemma expand_course_ext courses_manager alt1 alt2 semester_start_date semester_end_date item :
  (∀ group d, day_selected alt1 group d = day_selected alt2 group d) →
  expand_course courses_manager alt1 semester_start_date semester_end_date item
  = expand_course courses_manager alt2 semester_start_date semester_end_date item.
Proof.
  intros Hsel. unfold expand_course.
  destruct (get_course courses_manager item.1) as [course|]; [|done].
  apply for_each_ext. intros [group_type numbers] _. unfold expand_type.
  apply for_each_ext. intros group_number _. unfold expand_number.
  destruct (get_specific_group _ _ _) as [[|group groups]|]; [done| |done].
  apply for_each_ext. intros group' _. unfold expand_group.
  by apply days_loop_ext.
Qed.

(** *** The semester range *)

Lemma merge_sort_Z_proper (l1 l2 : list Z) :
  l1 ≡ₚ l2 → merge_sort Z.le l1 = merge_sort Z.le l2.
Proof.
  intros Hl. apply (Sorted_unique Z.le).
  - apply (Sorted_merge_sort Z.le).
  - apply (Sorted_merge_sort Z.le).
  - by rewrite !merge_sort_Permutation.
Qed.

Lemma keys_insert (alternance_map : gmap Z DayInfo) d info :
  (map_to_list (<[d := info]> alternance_map)).*1
  ≡ₚ d :: (map_to_list (delete d alternance_map)).*1.
Proof.
  rewrite <-insert_delete_eq.
  rewrite map_to_list_insert by apply lookup_delete_eq. done.
Qed.

(** ** The calendar exception *)

Lemma resolve_october_first info : resolve_day_abbr october_first info = "LUN".
Proof. unfold resolve_day_abbr. by rewrite decide_True. Qed.

Lemma day_selected_october_first alternance_map group info recorded_name d :
  day_selected (<[october_first := info]> alternance_map) group d
  = day_selected
      (<[october_first := {| day_name := recorded_name; week_type := week_type info |}]>
         alternance_map) group d.
Proof.
  unfold day_selected. destruct (decide (d = october_first)) as [->|Hne].
  - rewrite !lookup_insert_eq, !resolve_october_first. done.
  - by rewrite !lookup_insert_ne.
Qed.

(** ** Selections that do not resolve *)

Lemma expand_number_unresolved alternance_map semester_start_date semester_end_date
    course group_type group_number :
  get_specific_group course group_type group_number = None →
  expand_number alternance_map semester_start_date semester_end_date
    course group_type group_number = Ok [].
Proof. unfold expand_number. by intros ->. Qed.

Lemma get_specific_group_other course group_type group_number :
  PyStr.lower group_type ≠ "c" → PyStr.lower group_type ≠ "l" →
  get_specific_group course group_type group_number = None.
Proof. intros Hc Hl. unfold get_specific_group. by rewrite !decide_False. Qed.

(** C9.  A selection entry that does not resolve contributes no event
    and raises nothing: a course code absent from the registry (the run
    is the same as without the entry), a group type that is neither "c"
    nor "l" in either case, a group number absent from the chosen
    mapping. *)
Theorem unresolved_selection_skipped (courses_manager : gmap string Course)
    (alternance_map : gmap Z DayInfo) (semester_start_date semester_end_date : Z)
    (course : Course) (course_code group_type : string)
    (group_selection : list (string * list Z)) (group_numbers : list Z) (group_number : Z)
    (before after : list (string * list (string * list Z))) :
  (get_course courses_manager course_code = None →
     expand_course courses_manager alternance_map semester_start_date semester_end_date
       (course_code, group_selection) = Ok []
     ∧ generate_ics_file courses_manager
         (before ++ (course_code, group_selection) :: after) alternance_map
       = generate_ics_file courses_manager (before ++ after) alternance_map)
  ∧ (PyStr.lower group_type ≠ "c" → PyStr.lower group_type ≠ "l" →
       expand_type alternance_map semester_start_date semester_end_date
         course (group_type, group_numbers) = Ok [])
  ∧ (get_specific_group course group_type group_number = None →
       expand_number alternance_map semester_start_date semester_end_date
         course group_type group_number = Ok []).
Proof.
  split_and!.
  - intros Hcode.
    assert (∀ s e, expand_course courses_manager alternance_map s e
                     (course_code, group_selection) = Ok []) as Hskip.
    { intros s e. unfold expand_course. simpl. by rewrite Hcode. }
    split; [apply Hskip|].
    unfold generate_ics_file.
    destruct (head _) as [s|]; [|done]. destruct (last _) as [e|]; [|done].
    by apply for_each_skip.
  - intros Hc Hl. unfold expand_type. simpl. apply for_each_silent.
    intros n _. apply expand_number_unresolved. by apply get_specific_group_other.
  - apply expand_number_unresolved.
Qed.

Lemma unresolved_selection_skipped_witness :
  let course := add_group "c" (Group_init 2 "LUN" "B-2325" 1 "every_week" "0830")
                  (Course_init "LOG1810" "Logiciel" 3) in
  let courses_manager : gmap string Course := {["LOG1810" := course]} in
  let alternance_map : gmap Z DayInfo := {[739131 := mkDayInfo "LUNDI" "B1"]} in
  (expand_course courses_manager alternance_map 739131 739131
     ("INF1015", [("c", [1])]) = Ok []
   ∧ generate_ics_file courses_manager
       ([("LOG1810", [("c", [2])])] ++ ("INF1015", [("c", [1])]) :: []) alternance_map
     = generate_ics_file courses_manager ([("LOG1810", [("c", [2])])] ++ []) alternance_map)
  ∧ expand_type alternance_map 739131 739131 course ("x", [2]) = Ok []
  ∧ expand_number alternance_map 739131 739131 course "c" 5 = Ok [].
Proof.
  intros course courses_manager alternance_map.
  pose proof (unresolved_selection_skipped courses_manager alternance_map 739131 739131
                course "INF1015" "x" [("c", [1])] [2] 5 [("LOG1810", [("c", [2])])] [])
    as (Hcode & Htype & _).
  pose proof (unresolved_selection_skipped courses_manager alternance_map 739131 739131
                course "INF1015" "c" [("c", [1])] [2] 5 [("LOG1810", [("c", [2])])] [])
    as (_ & _ & Hnumber).
  split_and!.
  - apply Hcode. vm_compute. reflexivity.
  - apply Hcode. vm_compute. reflexivity.
  - apply Htype; vm_compute; discriminate.
  - apply Hnumber. vm_compute. reflexivity.
Defined.

(** ** Group type: retrieval and label *)

Lemma lower_ascii_c a : PyStr.lower_ascii a = "c"%char ↔ a = "c"%char ∨ a = "C"%char.
Proof.
  destruct a as [[] [] [] [] [] [] [] []]; vm_compute;
    (split; [intros [=]; (by left) || (by right) | by intros [[=]|[=]]]) || done.
Qed.

Lemma lower_ascii_l a : PyStr.lower_ascii a = "l"%char ↔ a = "l"%char ∨ a = "L"%char.
Proof.
  destruct a as [[] [] [] [] [] [] [] []]; vm_compute;
    (split; [intros [=]; (by left) || (by right) | by intros [[=]|[=]]]) || done.
Qed.

Lemma lower_eq_c s : PyStr.lower s = "c" ↔ s = "c" ∨ s = "C".
Proof.
  destruct s as [|a [|b s]]; simpl.
  - split; [done|by intros [|]].
  - split.
    + intros [= Ha]. apply lower_ascii_c in Ha as [->| ->]; auto.
    + by intros [[= ->]|[= ->]].
  - split; [done|by intros [|]].
Qed.

Lemma lower_eq_l s : PyStr.lower s = "l" ↔ s = "l" ∨ s = "L".
Proof.
  destruct s as [|a [|b s]]; simpl.
  - split; [done|by intros [|]].
  - split.
    + intros [= Ha]. apply lower_ascii_l in Ha as [->| ->]; auto.
    + by intros [[= ->]|[= ->]].
  - split; [done|by intros [|]].
Qed.

Lemma type_label_cours group_type : type_label group_type = "COURS" ↔ group_type = "c".
Proof. unfold type_label. by case_decide. Qed.

Lemma make_event_name course group_type group d event :
  make_event course group_type group d = Ok event →
  ev_name event = event_title course group (type_label group_type).
Proof.
  unfold make_event. destruct (PyStr.split comma (hour group)) as [|tok toks]; [done|].
  destruct (PyDate.strptime_HM tok) as [[h m]|]; [|done].
  destruct (localize montreal_tz d h m); [|done]. by intros [= <-].
Qed.

Lemma days_loop_elem_of alternance_map course group_type group days current_date events event :
  days_loop alternance_map course group_type group days current_date = Ok events →
  event ∈ events → ∃ d, make_event course group_type group d = Ok event.
Proof.
  revert current_date events. induction days as [|days IH]; intros cur events.
  - intros [= <-] Hev. by apply elem_of_nil in Hev.
  - rewrite days_loop_unfold. cbv zeta.
    destruct (decide (PyDate.MAXORDINAL < cur + 1)) as [Hover|Hfits].
    { destruct (day_selected alternance_map group cur); [|done].
      by destruct (make_event course group_type group cur). }
    destruct (day_selected alternance_map group cur).
    + destruct (make_event course group_type group cur) as [ev|e] eqn:Hmk; [|done].
      destruct (days_loop alternance_map course group_type group days (cur + 1))
        as [evs|e] eqn:Hloop; [|done].
      intros [= <-] [->|Hev]%elem_of_cons; [by exists cur|].
      by apply (IH (cur + 1) evs).
    + apply IH.
Qed.

(** ** Event fields *)

(** The fields of every event built: the start is the day with the hour
    and minute of the first token, in the Toronto zone; the duration is
    the number of tokens; the location is the room; there is one alarm, 30
    minutes before; the title carries code, name, group number and the
    label of the selection key. *)
Lemma make_event_fields course group_type group d event :
  make_event course group_type group d = Ok event →
  ∃ tok toks h m,
    hour_tokens (hour group) = tok :: toks
    ∧ PyDate.strptime_HM tok = Some (h, m)
    ∧ ev_begin event = {| dt_ordinal := d; dt_hour := h; dt_minute := m;
                          dt_zone := "America/Toronto" |}
    ∧ ev_duration_hours event = Z.of_nat (length (hour_tokens (hour group)))
    ∧ ev_location event = room group
    ∧ ev_alarms event = [{| action := "display"; trigger_minutes := -30 |}]
    ∧ ev_name event
      = sigle course +:+ " - " +:+ name course +:+ " - Groupe " +:+ pretty (number group)
        +:+ " (" +:+ (if decide (group_type = "c") then "COURS" else "LAB") +:+ ")".
Proof.
  unfold make_event, hour_tokens.
  destruct (PyStr.split comma (hour group)) as [|tok toks] eqn:Htok; [done|].
  destruct (PyDate.strptime_HM tok) as [[h m]|] eqn:Hhm; [|done].
  unfold localize. case_decide; [done|].
  intros [= <-]. by exists tok, toks, h, m.
Qed.

(** C8 at the selection key "C".  The group selected is the lecture group
    of the course, built from a row of type "C"; start, duration, location
    and alarm are as described, but the title says "LAB". *)
Theorem lecture_event_titled_lab :
  let group := Group_init 2 "LUN" "B-2325" 1 "every_week" "0830,0930" in
  let course := add_group "c" group (Course_init "LOG1810" "Logiciel" 3) in
  let d := PyDate.ymd2ord 2024 9 2 in
  theo_groups course !! 2 = Some [group]
  ∧ lab_groups course !! 2 = None
  ∧ generate_ics_file {["LOG1810" := course]} [("LOG1810", [("C", [2])])]
      {[d := mkDayInfo "LUNDI" "B1"]}
    = Ok [ {| ev_name := "LOG1810 - Logiciel - Groupe 2 (LAB)";
              ev_begin := {| dt_ordinal := d; dt_hour := 8; dt_minute := 30;
                             dt_zone := "America/Toronto" |};
              ev_duration_hours := 2;
              ev_location := "B-2325";
              ev_alarms := [{| action := "display"; trigger_minutes := -30 |}] |} ].
Proof. split_and!; vm_compute; reflexivity. Qed.

(** ** CSV ingestion *)

Lemma lower_ascii_idemp a : PyStr.lower_ascii (PyStr.lower_ascii a) = PyStr.lower_ascii a.
Proof. destruct a as [[] [] [] [] [] [] [] []]; vm_compute; reflexivity. Qed.

Lemma lower_idemp s : PyStr.lower (PyStr.lower s) = PyStr.lower s.
Proof. induction s as [|a s IH]; simpl; [done|]. by rewrite lower_ascii_idemp, IH. Qed.

Lemma is_empty_false s : s ≠ "" → is_empty s = false.
Proof. intros Hs. unfold is_empty. by apply bool_decide_eq_false. Qed.

Lemma alter_created (f : Course → Course) (courses : gmap string Course) sigle fresh :
  alter f sigle
    (match courses !! sigle with
     | None => <[sigle := fresh]> courses
     | Some _ => courses
     end)
  = <[sigle := f (default fresh (courses !! sigle))]> courses.
Proof.
  apply map_eq. intros key. destruct (courses !! sigle) as [c|] eqn:Hc; simpl.
  - destruct (decide (key = sigle)) as [->|Hne].
    + by rewrite lookup_alter_eq, lookup_insert_eq, Hc.
    + by rewrite lookup_alter_ne, lookup_insert_ne.
  - destruct (decide (key = sigle)) as [->|Hne].
    + by rewrite lookup_alter_eq, !lookup_insert_eq.
    + by rewrite lookup_alter_ne, !lookup_insert_ne.
Qed.

(** What a well-formed row does to the registry. *)
Lemma read_row_well_formed py_int py_int_float (courses : gmap string Course)
    (f0 sigle number nb_credit f4 f5 room period_type f8 week_nb course_type name f12
       week_day hour : string) (n credit : Z) :
  sigle ≠ "" → number ≠ "" → nb_credit ≠ "" → room ≠ "" → period_type ≠ "" →
  course_type ≠ "" → name ≠ "" → week_day ≠ "" → hour ≠ "" →
  py_int number = Some n →
  py_int_float (PyStr.replace "," "." nb_credit) = Ok credit →
  read_row py_int py_int_float courses
    [f0; sigle; number; nb_credit; f4; f5; room; period_type; f8; week_nb; course_type;
     name; f12; week_day; hour]
  = Ok (<[sigle :=
            add_group (PyStr.lower period_type)
              (Group_init n week_day room 1 (row_frequency week_nb) hour)
              (default (Course_init sigle name credit) (courses !! sigle))]> courses).
Proof.
  intros. unfold read_row. rewrite decide_False by (simpl; lia).
  rewrite !is_empty_false by done. simpl.
  repeat match goal with H : _ = _ |- _ => rewrite H end.
  by rewrite alter_created.
Qed.

(** C2, as the code has it.  A well-formed row is routed by its period-type
    field, column [7], read without regard to case: "c" sends the new
    group to the theoretical mapping of its course, "l" to the lab
    mapping, anything else to neither; both mappings are then merged.
    The group-type field, column [10], only has to be non-empty. *)
Theorem row_routed_by_period_type (py_int : string → option Z)
    (py_int_float : string → result Z) (courses : gmap string Course)
    (f0 sigle number nb_credit f4 f5 room period_type f8 week_nb course_type name f12
       week_day hour : string) (n credit : Z) :
  sigle ≠ "" → number ≠ "" → nb_credit ≠ "" → room ≠ "" → period_type ≠ "" →
  course_type ≠ "" → name ≠ "" → week_day ≠ "" → hour ≠ "" →
  py_int number = Some n →
  py_int_float (PyStr.replace "," "." nb_credit) = Ok credit →
  let group := Group_init n week_day room 1 (row_frequency week_nb) hour in
  let before := default (Course_init sigle name credit) (courses !! sigle) in
  ∃ after,
    read_row py_int py_int_float courses
      [f0; sigle; number; nb_credit; f4; f5; room; period_type; f8; week_nb; course_type;
       name; f12; week_day; hour]
    = Ok (<[sigle := after]> courses)
    ∧ (period_type = "c" ∨ period_type = "C" →
         theo_groups after = _merge_group_type (bucket_append group (theo_groups before))
         ∧ lab_groups after = _merge_group_type (lab_groups before))
    ∧ (period_type = "l" ∨ period_type = "L" →
         theo_groups after = _merge_group_type (theo_groups before)
         ∧ lab_groups after = _merge_group_type (bucket_append group (lab_groups before)))
    ∧ (period_type ≠ "c" → period_type ≠ "C" → period_type ≠ "l" → period_type ≠ "L" →
         theo_groups after = _merge_group_type (theo_groups before)
         ∧ lab_groups after = _merge_group_type (lab_groups before)).
Proof.
  intros. eexists. split; [by apply read_row_well_formed|].
  unfold add_group. rewrite lower_idemp. split_and!.
  - intros Hc%lower_eq_c. by rewrite decide_True.
  - intros Hl. assert (PyStr.lower period_type ≠ "c") by (by destruct Hl as [-> | ->]).
    apply lower_eq_l in Hl. by rewrite decide_False, decide_True.
  - intros Hc HC Hl HL.
    rewrite !decide_False; [done| |]; rewrite ?lower_eq_l, ?lower_eq_c; tauto.
Qed.

Lemma row_routed_by_period_type_witness :
  let group := Group_init 2 "LUN" "B-2325" 1 (row_frequency "") "0830,0930" in
  let before :=
    default (Course_init "LOG1810" "Logiciel" 3)
      ((∅ : gmap string Course) !! "LOG1810") in
  ∃ after,
    read_row Conv.int_of_digits Conv.int_of_decimal ∅
      [""; "LOG1810"; "2"; "3,0"; ""; ""; "B-2325"; "C"; ""; ""; "L"; "Logiciel"; "";
       "LUN"; "0830,0930"]
    = Ok (<["LOG1810" := after]> ∅)
    ∧ ("C" = "c" ∨ "C" = "C" →
         theo_groups after = _merge_group_type (bucket_append group (theo_groups before))
         ∧ lab_groups after = _merge_group_type (lab_groups before))
    ∧ ("C" = "l" ∨ "C" = "L" →
         theo_groups after = _merge_group_type (theo_groups before)
         ∧ lab_groups after = _merge_group_type (bucket_append group (lab_groups before)))
    ∧ ("C" ≠ "c" → "C" ≠ "C" → "C" ≠ "l" → "C" ≠ "L" →
         theo_groups after = _merge_group_type (theo_groups before)
         ∧ lab_groups after = _merge_group_type (lab_groups before)).
Proof.
  apply (row_routed_by_period_type Conv.int_of_digits Conv.int_of_decimal ∅
           "" "LOG1810" "2" "3,0" "" "" "B-2325" "C" "" "" "L" "Logiciel" ""
           "LUN" "0830,0930" 2 3);
    solve [discriminate | vm_compute; reflexivity].
Defined.

(** C2, as stated, fails: column [10] does not decide the mapping.  Two
    rows with the same column [10], "L", and columns [7] "C" and "L" put
    their group in the theoretical and in the lab mapping. *)
Lemma group_type_column_does_not_route :
  let row period_type :=
    [""; "LOG1810"; "2"; "3,0"; ""; ""; "B-2325"; period_type; ""; ""; "L"; "Logiciel";
     ""; "LUN"; "0830"] in
  let group := Group_init 2 "LUN" "B-2325" 1 "every_week" "0830" in
  (∃ course,
     read_row Conv.int_of_digits Conv.int_of_decimal ∅ (row "C")
     = Ok {["LOG1810" := course]}
     ∧ theo_groups course = {[2 := [group]]} ∧ lab_groups course = ∅)
  ∧ (∃ course,
       read_row Conv.int_of_digits Conv.int_of_decimal ∅ (row "L")
       = Ok {["LOG1810" := course]}
       ∧ theo_groups course = ∅ ∧ lab_groups course = {[2 := [group]]}).
Proof.
  split; eexists; split_and!; vm_compute; reflexivity.
Qed.

(** Rows the two readers skip: the registry, or the map, is unchanged. *)
Lemma read_row_short py_int py_int_float courses row :
  (length row < 15)%nat → read_row py_int py_int_float courses row = Ok courses.
Proof. intros Hlen. unfold read_row. by rewrite decide_True. Qed.

Lemma read_row_value_error py_int py_int_float courses
    (f0 sigle number nb_credit f4 f5 room period_type f8 week_nb course_type name f12
       week_day hour : string) :
  py_int number = None
  ∨ (∃ n, py_int number = Some n)
    ∧ py_int_float (PyStr.replace "," "." nb_credit) = Raise ValueError →
  read_row py_int py_int_float courses
    [f0; sigle; number; nb_credit; f4; f5; room; period_type; f8; week_nb; course_type;
     name; f12; week_day; hour]
  = Ok courses.
Proof.
  intros Hbad. unfold read_row. rewrite decide_False by (simpl; lia).
  destruct (_ || _); [done|].
  destruct Hbad as [->|[[n ->] ->]]; done.
Qed.

Lemma read_row_empty_field py_int py_int_float courses
    (f0 sigle number nb_credit f4 f5 room period_type f8 week_nb course_type name f12
       week_day hour : string) :
  "" ∈ [sigle; number; nb_credit; room; period_type; course_type; name; week_day; hour] →
  read_row py_int py_int_float courses
    [f0; sigle; number; nb_credit; f4; f5; room; period_type; f8; week_nb; course_type;
     name; f12; week_day; hour]
  = Ok courses.
Proof.
  intros Hempty. unfold read_row. rewrite decide_False by (simpl; lia).
  assert (is_empty sigle || is_empty number || is_empty nb_credit || is_empty room
          || is_empty period_type || is_empty course_type || is_empty name
          || is_empty week_day || is_empty hour = true) as ->; [|done].
  unfold is_empty. rewrite !orb_true_iff, !bool_decide_eq_true.
  rewrite !elem_of_cons, elem_of_nil in Hempty. intuition auto.
Qed.

Lemma read_alternance_row_skipped strptime_ymd week_map row :
  (length row < 3)%nat
  ∨ (∃ date_str day_name week_type,
       row = [date_str; day_name; week_type] ∧ strptime_ymd date_str = None) →
  read_alternance_row strptime_ymd week_map row = Ok week_map.
Proof.
  unfold read_alternance_row. intros [Hlen|(date_str & dn & wt & -> & Hdate)].
  - by rewrite decide_True.
  - rewrite decide_False by (simpl; lia). by rewrite Hdate.
Qed.

(** Rows with more fields than the unpacking takes. *)
Lemma read_row_overlong py_int py_int_float courses row :
  (15 < length row)%nat → read_row py_int py_int_float courses row = Raise ValueError.
Proof.
  intros Hlen. unfold read_row. rewrite decide_False by lia.
  do 16 (destruct row as [|? row]; [simpl in Hlen; lia|]). done.
Qed.

Lemma read_alternance_row_overlong strptime_ymd week_map row :
  (3 < length row)%nat → read_alternance_row strptime_ymd week_map row = Raise ValueError.
Proof.
  intros Hlen. unfold read_alternance_row. rewrite decide_False by lia.
  do 4 (destruct row as [|? row]; [simpl in Hlen; lia|]). done.
Qed.

(** C6 at a row with one field too many.  Whatever the conversions do, a
    timetable row of 16 fields and an alternance row of 4 fields are not
    skipped: unpacking them raises [ValueError], which ends the
    ingestion of a file that was opened and read. *)
Theorem overlong_row_raises (py_int : string → option Z)
    (py_int_float : string → result Z) (strptime_ymd : string → option Z)
    (courses : gmap string Course) (header : list string) :
  read_csv_files py_int py_int_float courses
    [header;
     [""; "LOG1810"; "2"; "3,0"; ""; ""; "B-2325"; "C"; ""; ""; "C"; "Logiciel"; "";
      "LUN"; "0830,0930"; ""]]
  = Raise ValueError
  ∧ read_alternance_csv strptime_ymd [header; ["2024-09-02"; "LUNDI"; "B1"; ""]]
    = Raise ValueError.
Proof. split; reflexivity. Qed.

Lemma read_row_overflow py_int py_int_float courses
    (f0 sigle number nb_credit f4 f5 room period_type f8 week_nb course_type name f12
       week_day hour : string) (n : Z) :
  "" ∉ [sigle; number; nb_credit; room; period_type; course_type; name; week_day; hour] →
  py_int number = Some n →
  py_int_float (PyStr.replace "," "." nb_credit) = Raise OverflowError →
  read_row py_int py_int_float courses
    [f0; sigle; number; nb_credit; f4; f5; room; period_type; f8; week_nb; course_type;
     name; f12; week_day; hour]
  = Raise OverflowError.
Proof.
  intros Hfull Hn Hcredit. unfold read_row. rewrite decide_False by (simpl; lia).
  rewrite !not_elem_of_cons in Hfull.
  rewrite !is_empty_false by (intros ->; tauto). simpl.
  by rewrite Hn, Hcredit.
Qed.

(** * Further properties of the record model *)

Lemma keys_merge_bucket n gl : group_key <$> merge_bucket n gl = key_order gl.
Proof.
  rewrite merge_bucket_spec, <-list_fmap_compose.
  rewrite <-(list_fmap_id (key_order gl)) at 2.
  apply list_fmap_ext. intros _ k _. apply group_key_merged_group.
Qed.

Lemma key_order_merge_bucket n gl : key_order (merge_bucket n gl) = key_order gl.
Proof.
  rewrite key_order_one_per_key; rewrite keys_merge_bucket; [done|].
  apply key_order_NoDup.
Qed.

Lemma first_occurrences_snoc {A} `{EqDecision A} (l : list A) x :
  first_occurrences (l ++ [x])
  = if decide (x ∈ first_occurrences l) then first_occurrences l
    else first_occurrences l ++ [x].
Proof.
  unfold first_occurrences. rewrite reverse_snoc. cbn [remove_dups].
  assert (x ∈ reverse (remove_dups (reverse l)) ↔ x ∈ reverse l) as Hin
    by (by rewrite elem_of_reverse, elem_of_remove_dups).
  unfold decide_rel. destruct (list_elem_of_dec x (reverse l)) as [Hx|Hx].
  - by rewrite decide_True by (by apply Hin).
  - rewrite decide_False by (by rewrite Hin). by rewrite reverse_cons.
Qed.

Lemma key_order_first_occurrences gl : key_order gl = first_occurrences (group_key <$> gl).
Proof.
  induction gl as [|g gl IH] using rev_ind; [done|].
  rewrite key_order_snoc, fmap_app.
  by rewrite (first_occurrences_snoc (group_key <$> gl) (group_key g)), IH.
Qed.

(** X1.  After the merging pass every list of the mapping has one group
    per (weekday, room, frequency) key, each group carries the number the
    list is stored under, and its hour field is in stored form. *)
Theorem merged_bucket_shape (groups : gmap Z (list Group)) (n : Z) (bucket : list Group) :
  _merge_group_type groups !! n = Some bucket →
  NoDup (group_key <$> bucket)
  ∧ ∀ g, g ∈ bucket → number g = n ∧ hour g = normal_hour (hour g).
Proof.
  rewrite lookup_merge_group_type. destruct (groups !! n) as [gl|]; [|done].
  intros [= <-]. split.
  - rewrite keys_merge_bucket. apply key_order_NoDup.
  - intros g [_ ->]%elem_of_merge_bucket. split; [done|].
    simpl. symmetry. apply normal_hour_idemp.
Qed.

Lemma merged_bucket_shape_witness :
  let g1 := Group_init 7 "LUN" "B-2325" 1 "every_week" "0930" in
  let g2 := Group_init 7 "LUN" "B-2325" 1 "every_week" "0830" in
  let merged := Group_init 2 "LUN" "B-2325" 2 "every_week" "0830,0930" in
  NoDup (group_key <$> [merged])
  ∧ ∀ g, g ∈ [merged] → number g = 2 ∧ hour g = normal_hour (hour g).
Proof.
  intros g1 g2 merged.
  apply (merged_bucket_shape {[2 := [g1; g2]]} 2 [merged]).
  vm_compute. reflexivity.
Defined.

(** X2.  The groups of a merged list stand in the order in which their
    keys are first met in the input list. *)
Theorem merged_keys_first_met (n : Z) (gl : list Group) :
  group_key <$> merge_bucket n gl = first_occurrences (group_key <$> gl).
Proof. rewrite keys_merge_bucket. apply key_order_first_occurrences. Qed.

Lemma sum_Z_fmap_add {A} (a b : A → Z) (l : list A) :
  sum_Z ((λ x, a x + b x) <$> l) = sum_Z (a <$> l) + sum_Z (b <$> l).
Proof. unfold sum_Z. induction l as [|x l IH]; csimpl; lia. Qed.

Lemma sum_Z_indicator (k0 : GroupKey) (v : Z) (ks : list GroupKey) :
  NoDup ks →
  sum_Z ((λ k, if decide (k0 = k) then v else 0) <$> ks)
  = if decide (k0 ∈ ks) then v else 0.
Proof.
  unfold sum_Z. induction 1 as [|k ks Hk Hnd IH]; [done|].
  rewrite fmap_cons. cbn [foldr]. rewrite IH.
  destruct (decide (k0 = k)) as [Heq|Hne], (decide (k0 ∈ ks)) as [Hin|Hin],
    (decide (k0 ∈ k :: ks)) as [Hin'|Hin']; subst; try lia; exfalso.
  - done.
  - apply Hin', list_elem_of_here.
  - apply Hin', list_elem_of_here.
  - by apply Hin', list_elem_of_further.
  - apply elem_of_cons in Hin' as [?|?]; done.
Qed.

Lemma total_length_cons k g gl :
  total_length k (g :: gl)
  = (if decide (group_key g = k) then course_length g else 0) + total_length k gl.
Proof.
  unfold total_length, members. rewrite filter_cons.
  case_decide; csimpl; unfold sum_Z; simpl; lia.
Qed.

Lemma sum_Z_zeros {A} (l : list A) : sum_Z ((λ _, 0) <$> l) = 0.
Proof. unfold sum_Z. induction l as [|x l IH]; [done|]. rewrite fmap_cons. simpl. lia. Qed.

(** Summing the totals of all keys gives the total of the list. *)
Lemma sum_total_lengths ks gl :
  NoDup ks → (∀ g, g ∈ gl → group_key g ∈ ks) →
  sum_Z ((λ k, total_length k gl) <$> ks) = sum_Z (course_length <$> gl).
Proof.
  intros Hnd. induction gl as [|g gl IH]; intros Hks.
  - rewrite (list_fmap_ext _ (λ _, 0) ks) by done. apply sum_Z_zeros.
  - rewrite (list_fmap_ext _
      (λ k, (if decide (group_key g = k) then course_length g else 0)
            + total_length k gl) ks)
      by (intros _ k _; apply total_length_cons).
    rewrite (sum_Z_fmap_add (λ k, if decide (group_key g = k) then course_length g else 0)
               (λ k, total_length k gl)).
    rewrite sum_Z_indicator by done.
    rewrite decide_True by (apply Hks, list_elem_of_here).
    rewrite IH by (intros g' Hg'; by apply Hks, list_elem_of_further).
    unfold sum_Z. csimpl. lia.
Qed.

Lemma lengths_merge_bucket n gl :
  course_length <$> merge_bucket n gl = (λ k, total_length k gl) <$> key_order gl.
Proof. rewrite merge_bucket_spec, <-list_fmap_compose. done. Qed.

Lemma dom_merge_group_type (groups : gmap Z (list Group)) :
  dom (_merge_group_type groups) = dom groups.
Proof.
  apply set_eq. intros n. rewrite !elem_of_dom, lookup_merge_group_type.
  apply fmap_is_Some.
Qed.

(** X3.  The merging pass keeps the group numbers of the mapping, and
    under each number the sum of the course lengths: no hour is lost or
    counted twice. *)
Theorem merge_conserves_length (groups : gmap Z (list Group)) (n : Z) :
  dom (_merge_group_type groups) = dom groups
  ∧ sum_Z (course_length <$> default [] (_merge_group_type groups !! n))
    = sum_Z (course_length <$> default [] (groups !! n)).
Proof.
  split; [apply dom_merge_group_type|].
  rewrite lookup_merge_group_type. destruct (groups !! n) as [gl|]; [|done].
  simpl. rewrite lengths_merge_bucket. apply sum_total_lengths.
  - apply key_order_NoDup.
  - intros g Hg. apply key_order_elem_of. by apply list_elem_of_fmap_2.
Qed.

Lemma concat_Permutation {A} (ls ls' : list (list A)) : ls ≡ₚ ls' → concat ls ≡ₚ concat ls'.
Proof.
  induction 1 as [|l ls ls' _ IH|l1 l2 ls|ls1 ls2 ls3 _ IH1 _ IH2]; simpl.
  - done.
  - by rewrite IH.
  - by rewrite !app_assoc, (Permutation_app_comm l1 l2).
  - by rewrite IH1.
Qed.

Lemma hour_tokens_join hs :
  hs ≠ [] → hour_tokens (PyStr.join "," hs) = concat (hour_tokens <$> hs).
Proof. apply (split_join_concat comma). Qed.

(** The stored form of a joined list depends on the tokens only. *)
Lemma normal_hour_join_proper hs hs' :
  (hs = [] ↔ hs' = []) →
  concat (hour_tokens <$> hs) ≡ₚ concat (hour_tokens <$> hs') →
  normal_hour (PyStr.join "," hs) = normal_hour (PyStr.join "," hs').
Proof.
  intros Hnil Htok. destruct (decide (hs = [])) as [->|Hne].
  - by rewrite (proj1 Hnil eq_refl).
  - assert (hs' ≠ []) as Hne' by (intros Hs; by apply Hne, Hnil).
    unfold normal_hour. f_equal. apply sorted_proper.
    fold (hour_tokens (PyStr.join "," hs)). fold (hour_tokens (PyStr.join "," hs')).
    by rewrite !hour_tokens_join.
Qed.

Lemma merged_group_Permutation n gl gl' k :
  gl ≡ₚ gl' → merged_group n gl k = merged_group n gl' k.
Proof.
  intros Hp. pose proof (members_Permutation k gl gl' Hp) as Hm.
  unfold merged_group, Group_init. f_equal.
  - unfold total_length. apply sum_Z_Permutation. by rewrite Hm.
  - apply normal_hour_join_proper; unfold hours_of.
    + split; intros Hnil%fmap_nil_inv; rewrite Hnil in Hm.
      * apply Permutation_nil_l in Hm. by rewrite <-Hm.
      * apply Permutation_nil_r in Hm. by rewrite Hm.
    + apply concat_Permutation. by rewrite Hm.
Qed.

(** X4.  The merging pass does not depend on the order of its input: the
    merged list of a reordered list is the merged list reordered, with
    the same groups, hour fields included. *)
Theorem merge_bucket_Permutation (n : Z) (gl gl' : list Group) :
  gl ≡ₚ gl' → merge_bucket n gl ≡ₚ merge_bucket n gl'.
Proof.
  intros Hp. rewrite !merge_bucket_spec.
  rewrite (list_fmap_ext (merged_group n gl) (merged_group n gl') (key_order gl))
    by (intros _ k _; by apply merged_group_Permutation).
  apply fmap_Permutation. apply NoDup_Permutation; [apply key_order_NoDup..|].
  intros k. rewrite !key_order_elem_of. by rewrite Hp.
Qed.

Lemma merge_bucket_Permutation_witness :
  let g1 := Group_init 2 "LUN" "B-2325" 1 "every_week" "0930" in
  let g2 := Group_init 2 "MAR" "B-2325" 1 "B1" "0830" in
  let g3 := Group_init 2 "LUN" "B-2325" 1 "every_week" "0830" in
  merge_bucket 2 [g1; g2; g3] ≡ₚ merge_bucket 2 [g2; g3; g1].
Proof.
  intros g1 g2 g3. apply (merge_bucket_Permutation 2 [g1; g2; g3] [g2; g3; g1]).
  apply (Permutation_cons_append [g2; g3] g1).
Defined.

Lemma members_merge_bucket_absent n gl k :
  k ∉ group_key <$> gl → members k (merge_bucket n gl) = [].
Proof.
  intros Hk. apply members_nil_iff. by rewrite keys_merge_bucket, key_order_elem_of.
Qed.

Lemma total_length_merge_bucket n gl k :
  total_length k (merge_bucket n gl) = total_length k gl.
Proof.
  unfold total_length. destruct (decide (k ∈ group_key <$> gl)) as [Hk|Hk].
  - rewrite members_merge_bucket by done. unfold sum_Z. simpl.
    unfold total_length, sum_Z. lia.
  - rewrite members_merge_bucket_absent by done.
    by rewrite (proj2 (members_nil_iff k gl) Hk).
Qed.

Lemma hours_of_merge_bucket n gl k :
  hours_of k (merge_bucket n gl)
  = if decide (k ∈ group_key <$> gl) then [normal_hour (PyStr.join "," (hours_of k gl))]
    else [].
Proof.
  unfold hours_of. case_decide as Hk.
  - by rewrite members_merge_bucket.
  - by rewrite members_merge_bucket_absent.
Qed.

Lemma hour_tokens_normal_join hs :
  hs ≠ [] → hour_tokens (normal_hour (PyStr.join "," hs)) ≡ₚ concat (hour_tokens <$> hs).
Proof.
  intros Hne. by rewrite hour_tokens_normal_hour, sorted_Permutation, hour_tokens_join.
Qed.

Lemma merged_group_snoc_merged n gl g k :
  merged_group n (merge_bucket n gl ++ [g]) k = merged_group n (gl ++ [g]) k.
Proof.
  unfold merged_group, Group_init. f_equal.
  - by rewrite !total_length_snoc, total_length_merge_bucket.
  - apply normal_hour_join_proper; rewrite !hours_of_snoc, hours_of_merge_bucket.
    + destruct (decide (k = group_key g)), (decide (k ∈ group_key <$> gl)) as [Hk|Hk];
        split; intros Hnil; try done.
      * by apply app_nil in Hnil as [_ ?].
      * by apply app_nil in Hnil as [_ ?].
      * by apply hours_of_nonempty in Hnil.
      * unfold hours_of. by rewrite (proj2 (members_nil_iff k gl) Hk).
    + destruct (decide (k = group_key g)), (decide (k ∈ group_key <$> gl)) as [Hk|Hk].
      * rewrite !fmap_app, !concat_app. apply Permutation_app; [|done].
        rewrite fmap_cons, concat_cons, fmap_nil, concat_nil, app_nil_r.
        by apply hour_tokens_normal_join, hours_of_nonempty.
      * unfold hours_of. by rewrite (proj2 (members_nil_iff k gl) Hk).
      * rewrite fmap_cons, concat_cons, fmap_nil, concat_nil, app_nil_r.
        by apply hour_tokens_normal_join, hours_of_nonempty.
      * unfold hours_of. by rewrite (proj2 (members_nil_iff k gl) Hk).
Qed.

(** Merging a merged list with one more group is merging the list with
    that group. *)
Lemma merge_bucket_snoc_merged n gl g :
  merge_bucket n (merge_bucket n gl ++ [g]) = merge_bucket n (gl ++ [g]).
Proof.
  rewrite !merge_bucket_spec, !key_order_snoc, <-merge_bucket_spec.
  rewrite key_order_merge_bucket.
  apply list_fmap_ext. intros _ k _. apply merged_group_snoc_merged.
Qed.

Lemma merge_group_type_append_merged g (groups : gmap Z (list Group)) :
  _merge_group_type (bucket_append g (_merge_group_type groups))
  = _merge_group_type (bucket_append g groups).
Proof.
  apply map_eq. intros n. rewrite !lookup_merge_group_type. unfold bucket_append.
  destruct (decide (n = number g)) as [->|Hne].
  - rewrite !lookup_insert_eq, lookup_merge_group_type. simpl.
    destruct (groups !! number g) as [gl|]; simpl; [|done].
    by rewrite merge_bucket_snoc_merged.
  - rewrite !lookup_insert_ne, lookup_merge_group_type by done.
    destruct (groups !! n) as [gl|]; simpl; [|done].
    by rewrite merge_bucket_idemp.
Qed.

Lemma merge_place_merged group_type g c :
  merge_groups (place_group group_type g (merge_groups c))
  = merge_groups (place_group group_type g c).
Proof.
  unfold place_group. repeat case_decide; unfold merge_groups; simpl.
  - by rewrite merge_group_type_append_merged, merge_group_type_idemp.
  - by rewrite merge_group_type_append_merged, merge_group_type_idemp.
  - by rewrite !merge_group_type_idemp.
Qed.

Lemma add_group_place group_type g c :
  add_group group_type g c = merge_groups (place_group group_type g c).
Proof. reflexivity. Qed.

(** X5.  Merging after every insertion gives what one merge at the end
    gives: a sequence of [add_group] calls on a merged course, a new
    course in particular, equals the plain placements followed by a
    single [merge_groups]. *)
Theorem deferred_merge (adds : list (string * Group)) (c : Course)
    (sigle name : string) (nb_credit : Z) :
  add_groups adds (merge_groups c) = merge_groups (place_groups adds c)
  ∧ add_groups adds (Course_init sigle name nb_credit)
    = merge_groups (place_groups adds (Course_init sigle name nb_credit)).
Proof.
  assert (∀ c0, add_groups adds (merge_groups c0) = merge_groups (place_groups adds c0))
    as Hgen.
  { intros c0. unfold add_groups, place_groups.
    induction adds as [|a adds IH] using rev_ind; [done|].
    by rewrite !foldl_snoc, IH, add_group_place, merge_place_merged. }
  split; [apply Hgen|]. by rewrite <-Hgen.
Qed.

Lemma lookup_bucket_append_eq g (groups : gmap Z (list Group)) :
  bucket_append g groups !! number g = Some (default [] (groups !! number g) ++ [g]).
Proof. unfold bucket_append. apply lookup_insert_eq. Qed.

Lemma lookup_bucket_append_ne g (groups : gmap Z (list Group)) n :
  n ≠ number g → bucket_append g groups !! n = groups !! n.
Proof. intros Hne. unfold bucket_append. by apply lookup_insert_ne. Qed.

(** The list a group joins, once merged, has exactly one group with its
    key, of the accumulated length. *)
Lemma merged_after_append n old g :
  members (group_key g) (merge_bucket n (old ++ [g]))
  = [merged_group n (old ++ [g]) (group_key g)]
  ∧ number (merged_group n (old ++ [g]) (group_key g)) = n
  ∧ course_length (merged_group n (old ++ [g]) (group_key g))
    = total_length (group_key g) old + course_length g.
Proof.
  split_and!.
  - apply members_merge_bucket. rewrite fmap_app, elem_of_app. right.
    apply list_elem_of_here.
  - done.
  - simpl. by rewrite total_length_snoc, decide_True.
Qed.

(** X6.  A group added with type "c" or "C" is found again by
    [get_specific_group] under that type and its own number: the list
    returned has exactly one group with its key, carrying that number and
    the length accumulated so far for the key plus the group's.  The same
    holds for "l" or "L" and the lab mapping. *)
Theorem add_group_retrievable (group_type : string) (g : Group) (c : Course) :
  (group_type = "c" ∨ group_type = "C" →
     ∃ bucket g',
       get_specific_group (add_group group_type g c) group_type (number g) = Some bucket
       ∧ members (group_key g) bucket = [g']
       ∧ number g' = number g
       ∧ course_length g'
         = total_length (group_key g) (default [] (theo_groups c !! number g))
           + course_length g)
  ∧ (group_type = "l" ∨ group_type = "L" →
       ∃ bucket g',
         get_specific_group (add_group group_type g c) group_type (number g) = Some bucket
         ∧ members (group_key g) bucket = [g']
         ∧ number g' = number g
         ∧ course_length g'
           = total_length (group_key g) (default [] (lab_groups c !! number g))
             + course_length g).
Proof.
  split.
  - intros Hc%lower_eq_c.
    destruct (merged_after_append (number g)
                (default [] (theo_groups c !! number g)) g) as (Hm & Hn & Hlen).
    eexists _, _. split_and!; [|exact Hm|exact Hn|exact Hlen].
    unfold get_specific_group, add_group. rewrite !decide_True by done. simpl.
    by rewrite lookup_merge_group_type, lookup_bucket_append_eq.
  - intros Hl. assert (PyStr.lower group_type ≠ "c") by (by destruct Hl as [-> | ->]).
    apply lower_eq_l in Hl.
    destruct (merged_after_append (number g)
                (default [] (lab_groups c !! number g)) g) as (Hm & Hn & Hlen).
    eexists _, _. split_and!; [|exact Hm|exact Hn|exact Hlen].
    unfold get_specific_group, add_group.
    rewrite !(decide_False (P := PyStr.lower group_type = "c")) by done.
    rewrite !decide_True by done. simpl.
    by rewrite lookup_merge_group_type, lookup_bucket_append_eq.
Qed.

Lemma add_group_retrievable_witness :
  let g1 := Group_init 2 "LUN" "B-2325" 1 "every_week" "0830" in
  let g2 := Group_init 2 "LUN" "B-2325" 1 "every_week" "0930" in
  let c := add_group "c" g1 (Course_init "LOG1810" "Logiciel" 3) in
  ∃ bucket g',
    get_specific_group (add_group "C" g2 c) "C" (number g2) = Some bucket
    ∧ members (group_key g2) bucket = [g']
    ∧ number g' = number g2
    ∧ course_length g'
      = total_length (group_key g2) (default [] (theo_groups c !! number g2))
        + course_length g2.
Proof.
  intros g1 g2 c. apply (proj1 (add_group_retrievable "C" g2 c)). by right.
Defined.

Lemma merged_course_maps c :
  merge_groups c = c →
  _merge_group_type (theo_groups c) = theo_groups c
  ∧ _merge_group_type (lab_groups c) = lab_groups c.
Proof.
  intros Hc. split.
  - by apply (f_equal theo_groups) in Hc.
  - by apply (f_equal lab_groups) in Hc.
Qed.

(** X7.  On a merged course (a new course, or the result of [add_group])
    [add_group] changes at most the list stored under the group's number
    in the mapping of its type: every other list of both mappings, and the
    code, name and credit count, are as before; with a type that is
    neither "c" nor "l" the course is unchanged and the group is lost. *)
Theorem add_group_frame (group_type : string) (g : Group) (c : Course) :
  merge_groups c = c →
  (∀ n, n ≠ number g →
     theo_groups (add_group group_type g c) !! n = theo_groups c !! n
     ∧ lab_groups (add_group group_type g c) !! n = lab_groups c !! n)
  ∧ (PyStr.lower group_type ≠ "c" →
       theo_groups (add_group group_type g c) = theo_groups c)
  ∧ (PyStr.lower group_type ≠ "l" →
       lab_groups (add_group group_type g c) = lab_groups c)
  ∧ (PyStr.lower group_type ≠ "c" → PyStr.lower group_type ≠ "l" →
       add_group group_type g c = c)
  ∧ sigle (add_group group_type g c) = sigle c
  ∧ name (add_group group_type g c) = name c
  ∧ nb_credit (add_group group_type g c) = nb_credit c.
Proof.
  intros Hc. destruct (merged_course_maps c Hc) as [Htheo Hlab].
  assert (∀ (groups : gmap Z (list Group)) n,
            _merge_group_type groups = groups → n ≠ number g →
            _merge_group_type (bucket_append g groups) !! n = groups !! n) as Hother.
  { intros groups n Hm Hn.
    rewrite lookup_merge_group_type, lookup_bucket_append_ne by done.
    by rewrite <-lookup_merge_group_type, Hm. }
  unfold add_group. split_and!.
  - intros n Hn. repeat case_decide; simpl;
      rewrite ?Htheo, ?Hlab, ?Hother by done; done.
  - intros Hnc. rewrite decide_False by done. case_decide; simpl; by rewrite ?Htheo.
  - intros Hnl. rewrite (decide_False (P := PyStr.lower group_type = "l")) by done.
    case_decide; simpl; by rewrite ?Hlab.
  - intros Hnc Hnl. by rewrite !decide_False.
  - by repeat case_decide.
  - by repeat case_decide.
  - by repeat case_decide.
Qed.

Lemma add_group_frame_witness :
  let g := Group_init 2 "LUN" "B-2325" 1 "every_week" "0830" in
  let c := Course_init "LOG1810" "Logiciel" 3 in
  add_group "x" g c = c.
Proof.
  intros g c.
  destruct (add_group_frame "x" g c) as (_ & _ & _ & Hlost & _).
  - vm_compute. reflexivity.
  - apply Hlost; vm_compute; discriminate.
Defined.

(** Joining what was split gives the text back. *)
Lemma join_split sep s : PyStr.join (String sep EmptyString) (PyStr.split sep s) = s.
Proof.
  induction s as [|c s IH]; [done|]. cbn [PyStr.split].
  pose proof (split_nonempty sep s) as Hne.
  destruct (PyStr.split sep s) as [|tok toks]; [done|]. clear Hne.
  case_decide as Hc.
  - subst c. rewrite <-IH. reflexivity.
  - destruct toks as [|tok' toks]; rewrite <-IH; reflexivity.
Qed.

(** X8.  The hour field a [Group] stores depends only on the tokens of
    the text given, not on their order, and a text whose tokens are
    already in order is stored as it is. *)
Theorem stored_hour_canonical (n : Z) (day rm : string) (len : Z) (freq h h' : string) :
  (Sorted String.le (hour_tokens h) → hour (Group_init n day rm len freq h) = h)
  ∧ (hour_tokens h ≡ₚ hour_tokens h' →
       hour (Group_init n day rm len freq h) = hour (Group_init n day rm len freq h')).
Proof.
  split.
  - intros Hs. simpl. fold (hour_tokens h). rewrite sorted_of_Sorted by done.
    apply (join_split comma).
  - intros Hp. simpl. fold (hour_tokens h). fold (hour_tokens h').
    by rewrite (sorted_proper _ _ Hp).
Qed.

Lemma stored_hour_canonical_witness :
  hour (Group_init 2 "LUN" "B-2325" 1 "every_week" "0830,0930") = "0830,0930"
  ∧ hour (Group_init 2 "LUN" "B-2325" 1 "every_week" "0830,0930")
    = hour (Group_init 2 "LUN" "B-2325" 1 "every_week" "0930,0830").
Proof.
  destruct (stored_hour_canonical 2 "LUN" "B-2325" 1 "every_week"
              "0830,0930" "0930,0830") as [Hsorted Hperm].
  split.
  - apply Hsorted. vm_compute.
    repeat (constructor; try (vm_compute; exact I)).
  - apply Hperm. vm_compute. apply perm_swap.
Defined.

(** * Further properties of the ingestion *)

Lemma for_state_app {A S} (body : S → A → result S) st l1 l2 :
  for_state body st (l1 ++ l2)
  = match for_state body st l1 with
    | Raise e => Raise e
    | Ok st' => for_state body st' l2
    end.
Proof.
  revert st. induction l1 as [|x l1 IH]; intros st; simpl; [done|].
  destruct (body st x) as [st'|e]; [apply IH|done].
Qed.

Lemma for_state_skip {A S} (body : S → A → result S) st l1 x l2 :
  (∀ st', body st' x = Ok st') →
  for_state body st (l1 ++ x :: l2) = for_state body st (l1 ++ l2).
Proof.
  intros Hx. rewrite !for_state_app. destruct (for_state body st l1) as [st'|e]; [|done].
  simpl. by rewrite Hx.
Qed.

Lemma for_state_invariant {A S} (body : S → A → result S) (I : S → Prop) l :
  (∀ st x st', I st → body st x = Ok st' → I st') →
  ∀ st st', I st → for_state body st l = Ok st' → I st'.
Proof.
  intros Hstep. induction l as [|x l IH]; intros st st' Hst; simpl.
  - by intros [= <-].
  - destruct (body st x) as [st1|e] eqn:Hx; [|done].
    apply IH. by apply (Hstep st x).
Qed.

Lemma skipped_row_skips py_int py_int_float row :
  skipped_row py_int py_int_float row →
  ∀ courses, read_row py_int py_int_float courses row = Ok courses.
Proof.
  intros [Hshort|Hbad] courses; [by apply read_row_short|].
  destruct Hbad as (f0 & sg & nu & nc & f4 & f5 & rm & pt & f8 & wk & ct & nm & f12 & wd
                    & hr & -> & [Hempty|[Hint|Hfloat]]).
  - by apply read_row_empty_field.
  - apply read_row_value_error. by left.
  - destruct (py_int nu) as [n|] eqn:Hn.
    + apply read_row_value_error. right. split; [by exists n|done].
    + apply read_row_value_error. by left.
Qed.

(** X9.  A row that is too short, or has an empty required field, or a
    group number or credit count that does not convert, leaves no trace:
    the ingestion of the file is the ingestion of the file without that
    row. *)
Theorem skipped_row_leaves_no_trace (py_int : string → option Z)
    (py_int_float : string → result Z) (courses : gmap string Course)
    (header row : list string) (before after : list (list string)) :
  skipped_row py_int py_int_float row →
  read_csv_files py_int py_int_float courses (header :: before ++ row :: after)
  = read_csv_files py_int py_int_float courses (header :: before ++ after).
Proof.
  intros Hrow. unfold read_csv_files. apply for_state_skip.
  by apply skipped_row_skips.
Qed.

Lemma skipped_row_leaves_no_trace_witness :
  let good :=
    [""; "LOG1810"; "2"; "3,0"; ""; ""; "B-2325"; "C"; ""; ""; "C"; "Logiciel"; "";
     "LUN"; "0830"] in
  let bad :=
    [""; "LOG1810"; "deux"; "3,0"; ""; ""; "B-2325"; "C"; ""; ""; "C"; "Logiciel"; "";
     "LUN"; "0930"] in
  read_csv_files Conv.int_of_digits Conv.int_of_decimal ∅ ([] :: [good] ++ bad :: [good])
  = read_csv_files Conv.int_of_digits Conv.int_of_decimal ∅ ([] :: [good] ++ [good]).
Proof.
  intros good bad.
  apply (skipped_row_leaves_no_trace Conv.int_of_digits Conv.int_of_decimal ∅ []
           bad [good] [good]).
  right. exists "", "LOG1810", "deux", "3,0", "", "", "B-2325", "C", "", "", "C",
    "Logiciel", "", "LUN", "0930".
  split; [reflexivity|]. right. left. vm_compute. reflexivity.
Defined.

(** What [read_row] can return without raising. *)
Lemma read_row_cases py_int py_int_float (courses courses' : gmap string Course) row :
  read_row py_int py_int_float courses row = Ok courses' →
  courses' = courses
  ∨ ∃ sigle name credit group_type n week_day room week_nb hour,
      courses'
      = <[sigle :=
            add_group group_type (Group_init n week_day room 1 (row_frequency week_nb) hour)
              (default (Course_init sigle name credit) (courses !! sigle))]> courses.
Proof.
  unfold read_row. case_decide as Hlen; [intros [= <-]; by left|].
  do 15 (destruct row as [|? row]; [simpl in Hlen; lia|]).
  destruct row as [|? row]; [|done]. clear Hlen.
  destruct (_ || _); [intros [= <-]; by left|].
  destruct (py_int _) as [n|]; [|intros [= <-]; by left].
  destruct (py_int_float _) as [credit|[]]; try done; [|intros [= <-]; by left].
  rewrite alter_created. intros [= <-]. right. by eexists _, _, _, _, _, _, _, _, _.
Qed.

Lemma sum_Z_ge_1 (l : list Z) : l ≠ [] → Forall (λ x, 1 ≤ x) l → 1 ≤ sum_Z l.
Proof.
  unfold sum_Z. intros Hne Hl. destruct Hl as [|x l Hx Hl]; [done|]. clear Hne.
  simpl. assert (0 ≤ foldr Z.add 0 l); [|lia].
  induction Hl as [|y l Hy _ IH]; simpl; lia.
Qed.

Lemma row_frequency_values week_nb : row_frequency week_nb ∈ ["B1"; "B2"; "every_week"].
Proof.
  unfold row_frequency. repeat case_decide.
  - apply list_elem_of_here.
  - apply list_elem_of_further, list_elem_of_here.
  - do 2 apply list_elem_of_further. apply list_elem_of_here.
Qed.

(** Merging a non-empty list of groups with admissible frequencies and
    positive lengths gives a well-formed list. *)
Lemma bucket_ok_merge n gl :
  gl ≠ [] →
  Forall (λ g, frequency g ∈ ["B1"; "B2"; "every_week"] ∧ 1 ≤ course_length g) gl →
  bucket_ok n (merge_bucket n gl).
Proof.
  intros Hne Hgl. rewrite Forall_forall in Hgl. split_and!.
  - destruct gl as [|g gl]; [done|]. intros Hnil.
    assert (group_key g ∈ group_key <$> merge_bucket n (g :: gl)) as Hin.
    { rewrite keys_merge_bucket, key_order_elem_of. apply list_elem_of_here. }
    rewrite Hnil in Hin. by apply elem_of_nil in Hin.
  - rewrite keys_merge_bucket. apply key_order_NoDup.
  - apply Forall_forall. intros g' [Hk Hg']%elem_of_merge_bucket.
    rewrite Hg'. clear Hg'.
    apply list_elem_of_fmap in Hk as (g0 & Hk & Hg0). rewrite Hk.
    split_and!.
    + done.
    + simpl. by apply Hgl.
    + simpl. unfold total_length. apply sum_Z_ge_1.
      * intros Hnil%fmap_nil_inv. apply members_nil_iff in Hnil. apply Hnil.
        by apply list_elem_of_fmap_2.
      * apply Forall_fmap, Forall_forall. intros g1 [_ Hg1]%list_elem_of_filter.
        by apply Hgl.
    + simpl. symmetry. apply normal_hour_idemp.
Qed.

Lemma bucket_ok_weaken n bucket :
  bucket_ok n bucket →
  bucket ≠ []
  ∧ Forall (λ g, frequency g ∈ ["B1"; "B2"; "every_week"] ∧ 1 ≤ course_length g) bucket.
Proof.
  intros (Hne & _ & Hall). split; [done|].
  eapply Forall_impl; [exact Hall|]. by intros g (_ & ? & ? & _).
Qed.

Lemma mapping_ok_merge groups : mapping_ok groups → mapping_ok (_merge_group_type groups).
Proof.
  intros Hok n bucket. rewrite lookup_merge_group_type.
  destruct (groups !! n) as [gl|] eqn:Hn; [|done]. intros [= <-].
  destruct (bucket_ok_weaken n gl (Hok n gl Hn)). by apply bucket_ok_merge.
Qed.

Lemma mapping_ok_merge_append g groups :
  mapping_ok groups →
  frequency g ∈ ["B1"; "B2"; "every_week"] → 1 ≤ course_length g →
  mapping_ok (_merge_group_type (bucket_append g groups)).
Proof.
  intros Hok Hfreq Hlen n bucket. rewrite lookup_merge_group_type.
  destruct (decide (n = number g)) as [->|Hne].
  - rewrite lookup_bucket_append_eq. intros [= <-]. apply bucket_ok_merge.
    + by destruct (default [] (groups !! number g)).
    + apply Forall_app. split; [|apply Forall_singleton; by split].
      destruct (groups !! number g) as [gl|] eqn:Hn; [|apply Forall_nil_2].
      by destruct (bucket_ok_weaken _ gl (Hok _ gl Hn)).
  - rewrite lookup_bucket_append_ne by done.
    rewrite <-lookup_merge_group_type. by apply mapping_ok_merge.
Qed.

Lemma course_ok_add_group key group_type g c :
  course_ok key c →
  frequency g ∈ ["B1"; "B2"; "every_week"] → 1 ≤ course_length g →
  course_ok key (add_group group_type g c).
Proof.
  intros (Hkey & Htheo & Hlab) Hfreq Hlen. unfold add_group, course_ok.
  repeat case_decide; simpl; split_and!; try done;
    by (apply mapping_ok_merge_append || apply mapping_ok_merge).
Qed.

Lemma course_ok_init sigle name credit : course_ok sigle (Course_init sigle name credit).
Proof. split_and!; [done|intros n bucket; simpl; by rewrite lookup_empty..]. Qed.

Lemma read_row_registry_ok py_int py_int_float courses row courses' :
  registry_ok courses →
  read_row py_int py_int_float courses row = Ok courses' →
  registry_ok courses'.
Proof.
  intros Hok [->|Hnew]%read_row_cases; [done|].
  destruct Hnew as (sg & nm & credit & gt & n & wd & rm & wk & hr & ->).
  intros key c. destruct (decide (key = sg)) as [->|Hne].
  - rewrite lookup_insert_eq. intros [= <-]. apply course_ok_add_group.
    + destruct (courses !! sg) as [c0|] eqn:Hsg; simpl.
      * by apply Hok.
      * apply course_ok_init.
    + apply row_frequency_values.
    + done.
  - rewrite lookup_insert_ne by done. apply Hok.
Qed.

Lemma read_csv_files_registry_ok py_int py_int_float (courses courses' : gmap string Course)
    rows :
  registry_ok courses →
  read_csv_files py_int py_int_float courses rows = Ok courses' →
  registry_ok courses'.
Proof.
  intros Hok. unfold read_csv_files. destruct rows as [|header rows]; [done|].
  apply (for_state_invariant (read_row py_int py_int_float) registry_ok); [|done].
  intros st row st'. apply read_row_registry_ok.
Qed.

(** X10.  Ingestion keeps the registry well formed: every course is
    stored under its own code, and every list of groups of its two
    mappings is non-empty, has one group per (weekday, room, frequency)
    key, each with the number the list is stored under, a frequency among
    "B1", "B2" and "every_week", a course length of at least 1 and an
    hour field in stored form. *)
Theorem ingestion_keeps_registry_ok (py_int : string → option Z)
    (py_int_float : string → result Z) (courses courses' : gmap string Course)
    (rows : list (list string)) :
  registry_ok courses →
  read_csv_files py_int py_int_float courses rows = Ok courses' →
  registry_ok courses'.
Proof. apply read_csv_files_registry_ok. Qed.

Lemma ingestion_keeps_registry_ok_witness :
  let rows :=
    [[];
     [""; "LOG1810"; "2"; "3,0"; ""; ""; "B-2325"; "C"; ""; "I"; "C"; "Logiciel"; "";
      "LUN"; "0930"];
     [""; "LOG1810"; "2"; "3,0"; ""; ""; "B-2325"; "C"; ""; "I"; "C"; "Logiciel"; "";
      "LUN"; "0830"]] in
  ∃ courses',
    read_csv_files Conv.int_of_digits Conv.int_of_decimal ∅ rows = Ok courses'
    ∧ registry_ok courses'.
Proof.
  intros rows. eexists. split; [vm_compute; reflexivity|].
  apply (ingestion_keeps_registry_ok Conv.int_of_digits Conv.int_of_decimal ∅ _ rows).
  - intros key c. by rewrite lookup_empty.
  - vm_compute. reflexivity.
Defined.

Lemma add_group_metadata group_type g c :
  sigle (add_group group_type g c) = sigle c
  ∧ name (add_group group_type g c) = name c
  ∧ nb_credit (add_group group_type g c) = nb_credit c.
Proof. unfold add_group. by repeat case_decide. Qed.

Lemma read_row_keeps_course py_int py_int_float courses row courses' key c :
  read_row py_int py_int_float courses row = Ok courses' →
  courses !! key = Some c →
  ∃ c', courses' !! key = Some c'
        ∧ sigle c' = sigle c ∧ name c' = name c ∧ nb_credit c' = nb_credit c.
Proof.
  intros [->|Hnew]%read_row_cases Hkey; [by exists c|].
  destruct Hnew as (sg & nm & credit & gt & n & wd & rm & wk & hr & ->).
  destruct (decide (key = sg)) as [->|Hne].
  - rewrite lookup_insert_eq, Hkey. simpl. eexists. split; [done|].
    apply add_group_metadata.
  - rewrite lookup_insert_ne by done. by exists c.
Qed.

(** X11.  Ingestion never removes a course and never changes the code,
    name or credit count it was created with: a later row for the same
    code only adds its group. *)
Theorem ingestion_keeps_course (py_int : string → option Z)
    (py_int_float : string → result Z) (courses courses' : gmap string Course)
    (rows : list (list string)) (key : string) (c : Course) :
  read_csv_files py_int py_int_float courses rows = Ok courses' →
  courses !! key = Some c →
  ∃ c', courses' !! key = Some c'
        ∧ sigle c' = sigle c ∧ name c' = name c ∧ nb_credit c' = nb_credit c.
Proof.
  unfold read_csv_files. destruct rows as [|header rows]; [done|].
  intros Hrun Hkey.
  apply (for_state_invariant (read_row py_int py_int_float)
           (λ st, ∃ c', st !! key = Some c'
                        ∧ sigle c' = sigle c ∧ name c' = name c
                        ∧ nb_credit c' = nb_credit c) rows) with (st := courses);
    [|by exists c|done].
  intros st row st' (c1 & Hc1 & Hs & Hn & Hcr) Hrow.
  destruct (read_row_keeps_course _ _ _ _ _ _ _ Hrow Hc1) as (c2 & Hc2 & ? & ? & ?).
  exists c2. split_and!; congruence.
Qed.

Lemma ingestion_keeps_course_witness :
  let c := Course_init "LOG1810" "Logiciel" 3 in
  let rows :=
    [[];
     [""; "LOG1810"; "2"; "6,0"; ""; ""; "B-2325"; "C"; ""; "I"; "C"; "Autre nom"; "";
      "LUN"; "0930"]] in
  let courses' : gmap string Course :=
    {["LOG1810" := add_group "c" (Group_init 2 "LUN" "B-2325" 1 "B1" "0930") c]} in
  ∃ c', courses' !! "LOG1810" = Some c'
        ∧ sigle c' = sigle c ∧ name c' = name c ∧ nb_credit c' = nb_credit c.
Proof.
  intros c rows courses'.
  apply (ingestion_keeps_course Conv.int_of_digits Conv.int_of_decimal
           {["LOG1810" := c]} courses' rows "LOG1810" c).
  - vm_compute. reflexivity.
  - vm_compute. reflexivity.
Defined.

(** ** The alternance file *)

Lemma upper_ascii_idemp a : PyStr.upper_ascii (PyStr.upper_ascii a) = PyStr.upper_ascii a.
Proof. destruct a as [[] [] [] [] [] [] [] []]; vm_compute; reflexivity. Qed.

Lemma upper_idemp s : PyStr.upper (PyStr.upper s) = PyStr.upper s.
Proof. induction s as [|a s IH]; simpl; [done|]. by rewrite upper_ascii_idemp, IH. Qed.

Lemma is_space_upper a : PyStrip.is_space (PyStr.upper_ascii a) = PyStrip.is_space a.
Proof. destruct a as [[] [] [] [] [] [] [] []]; vm_compute; reflexivity. Qed.

Lemma lstrip_upper s : PyStrip.lstrip (PyStr.upper s) = PyStr.upper (PyStrip.lstrip s).
Proof.
  induction s as [|a s IH]; simpl; [done|]. rewrite is_space_upper.
  by destruct (PyStrip.is_space a).
Qed.

Lemma rstrip_go_upper s :
  PyStrip.rstrip_go (PyStr.upper s) = PyStr.upper <$> PyStrip.rstrip_go s.
Proof.
  induction s as [|a s IH]; simpl; [done|]. rewrite IH, is_space_upper.
  destruct (PyStrip.rstrip_go s); simpl; [done|]. by destruct (PyStrip.is_space a).
Qed.

Lemma strip_upper s : PyStrip.strip (PyStr.upper s) = PyStr.upper (PyStrip.strip s).
Proof.
  unfold PyStrip.strip, PyStrip.rstrip. rewrite lstrip_upper, rstrip_go_upper.
  by destruct (PyStrip.rstrip_go (PyStrip.lstrip s)).
Qed.

Lemma rstrip_go_fixed s r : PyStrip.rstrip_go s = Some r → PyStrip.rstrip_go r = Some r.
Proof.
  revert r. induction s as [|a s IH]; intros r; simpl; [done|].
  destruct (PyStrip.rstrip_go s) as [r0|].
  - intros [= <-]. simpl. by rewrite (IH r0).
  - destruct (PyStrip.is_space a) eqn:Ha; [done|]. intros [= <-]. simpl. by rewrite Ha.
Qed.

Lemma rstrip_idemp s : PyStrip.rstrip (PyStrip.rstrip s) = PyStrip.rstrip s.
Proof.
  unfold PyStrip.rstrip. destruct (PyStrip.rstrip_go s) as [r|] eqn:Hs; simpl; [|done].
  by rewrite (rstrip_go_fixed s r).
Qed.

Lemma lstrip_head s :
  PyStrip.lstrip s = ""
  ∨ ∃ a t, PyStrip.lstrip s = String a t ∧ PyStrip.is_space a = false.
Proof.
  induction s as [|a s IH]; simpl; [by left|].
  destruct (PyStrip.is_space a) eqn:Ha; [done|]. right. by exists a, s.
Qed.

Lemma lstrip_strip s : PyStrip.lstrip (PyStrip.strip s) = PyStrip.strip s.
Proof.
  unfold PyStrip.strip, PyStrip.rstrip.
  destruct (lstrip_head s) as [->|(a & t & -> & Ha)]; [done|]. simpl.
  destruct (PyStrip.rstrip_go t); simpl; rewrite Ha; simpl; by rewrite ?Ha.
Qed.

Lemma strip_idemp s : PyStrip.strip (PyStrip.strip s) = PyStrip.strip s.
Proof.
  unfold PyStrip.strip at 1. rewrite lstrip_strip.
  unfold PyStrip.strip. apply rstrip_idemp.
Qed.

(** A field as the alternance reader stores it is in upper case and has
    no blank at either end. *)
Lemma stored_field_normal s :
  PyStr.upper (PyStr.upper (PyStrip.strip s)) = PyStr.upper (PyStrip.strip s)
  ∧ PyStrip.strip (PyStr.upper (PyStrip.strip s)) = PyStr.upper (PyStrip.strip s).
Proof. split; [apply upper_idemp|]. by rewrite strip_upper, strip_idemp. Qed.

Lemma read_alternance_row_spec strptime_ymd week_map row :
  (length row ≤ 3)%nat →
  read_alternance_row strptime_ymd week_map row
  = Ok (match alternance_entry strptime_ymd row with
        | Some (date, info) => <[date := info]> week_map
        | None => week_map
        end).
Proof.
  intros Hlen. unfold read_alternance_row, alternance_entry.
  destruct row as [|f1 [|f2 [|f3 [|f4 row]]]]; simpl in *; try done; [|lia].
  by destruct (strptime_ymd f1).
Qed.

Lemma read_alternance_row_cases strptime_ymd week_map row week_map' :
  read_alternance_row strptime_ymd week_map row = Ok week_map' →
  week_map' = week_map
  ∨ ∃ date info,
      alternance_entry strptime_ymd row = Some (date, info)
      ∧ week_map' = <[date := info]> week_map.
Proof.
  unfold read_alternance_row, alternance_entry.
  destruct row as [|f1 [|f2 [|f3 [|f4 row]]]]; simpl; try done;
    try (intros [= <-]; by left).
  destruct (strptime_ymd f1) as [date|]; intros [= <-]; [|by left].
  right. by eexists _, _.
Qed.

Lemma for_state_invariant_in {A S} (body : S → A → result S) (I : S → Prop) l :
  (∀ st x st', x ∈ l → I st → body st x = Ok st' → I st') →
  ∀ st st', I st → for_state body st l = Ok st' → I st'.
Proof.
  induction l as [|x l IH]; intros Hstep st st' Hst; simpl.
  - by intros [= <-].
  - destruct (body st x) as [st1|e] eqn:Hx; [|done].
    apply IH.
    + intros st2 y st3 Hy. apply Hstep. by apply list_elem_of_further.
    + apply (Hstep st x); [apply list_elem_of_here|done..].
Qed.

Lemma ascii_text_upper s : ascii_text s → ascii_text (PyStr.upper s).
Proof.
  assert (∀ c, (N_of_ascii c <? 128)%N = true
               → (N_of_ascii (PyStr.upper_ascii c) <? 128)%N = true) as Hc.
  { intros c. destruct c as [[] [] [] [] [] [] [] []]; vm_compute; done. }
  induction s as [|c s IH]; simpl; [done|].
  intros [Hhead Htail]%andb_prop_elim. apply andb_prop_intro. split.
  - apply Is_true_true, Hc. by apply Is_true_true.
  - by apply IH.
Qed.

Lemma ascii_text_lstrip s : ascii_text s → ascii_text (PyStrip.lstrip s).
Proof.
  induction s as [|c s IH]; simpl; [done|].
  intros Hs. destruct (PyStrip.is_space c); [|done].
  apply andb_prop_elim in Hs as [_ Htail]. by apply IH.
Qed.

Lemma ascii_text_rstrip s : ascii_text s → ascii_text (PyStrip.rstrip s).
Proof.
  unfold PyStrip.rstrip.
  assert (∀ r, PyStrip.rstrip_go s = Some r → ascii_text s → ascii_text r) as Hgo.
  { induction s as [|c s IH]; simpl; [done|]. intros r.
    destruct (PyStrip.rstrip_go s) as [r0|].
    - intros [= <-] [Hhead Htail]%andb_prop_elim. simpl.
      apply andb_prop_intro. split; [done|]. by apply IH.
    - destruct (PyStrip.is_space c); [done|].
      intros [= <-] [Hhead _]%andb_prop_elim. simpl.
      apply andb_prop_intro. by split. }
  intros Hs. destruct (PyStrip.rstrip_go s) as [r|] eqn:Hr; simpl; [|done].
  by apply Hgo.
Qed.

Lemma ascii_text_stored s : ascii_text s → ascii_text (PyStr.upper (PyStrip.strip s)).
Proof.
  intros Hs. apply ascii_text_upper. unfold PyStrip.strip.
  by apply ascii_text_rstrip, ascii_text_lstrip.
Qed.

(** X12.  For an alternance file whose fields are ASCII text, every entry
    of the map the reader returns comes from a row of the file with
    exactly three fields whose date converts, and holds the weekday name
    and the week type of that row in upper case with no blank at either
    end; the stored fields are ASCII text again. *)
Theorem alternance_entries_from_rows (strptime_ymd : string → option Z)
    (header : list string) (rows : list (list string)) (week_map : gmap Z DayInfo)
    (date : Z) (info : DayInfo) :
  Forall (Forall (λ field, ascii_text field)) rows →
  read_alternance_csv strptime_ymd (header :: rows) = Ok week_map →
  week_map !! date = Some info →
  (∃ date_str name type,
     [date_str; name; type] ∈ rows
     ∧ strptime_ymd date_str = Some date
     ∧ day_name info = PyStr.upper (PyStrip.strip name)
     ∧ week_type info = PyStr.upper (PyStrip.strip type))
  ∧ ascii_text (day_name info)
  ∧ ascii_text (week_type info)
  ∧ PyStr.upper (day_name info) = day_name info
  ∧ PyStrip.strip (day_name info) = day_name info
  ∧ PyStr.upper (week_type info) = week_type info
  ∧ PyStrip.strip (week_type info) = week_type info.
Proof.
  unfold read_alternance_csv. intros Hascii Hrun Hdate.
  assert (∃ date_str name type,
            [date_str; name; type] ∈ rows
            ∧ strptime_ymd date_str = Some date
            ∧ day_name info = PyStr.upper (PyStrip.strip name)
            ∧ week_type info = PyStr.upper (PyStrip.strip type)) as Hrow.
  { revert date info Hdate.
    apply (for_state_invariant_in (read_alternance_row strptime_ymd)
             (λ m, ∀ date info, m !! date = Some info →
                ∃ date_str name type,
                  [date_str; name; type] ∈ rows
                  ∧ strptime_ymd date_str = Some date
                  ∧ day_name info = PyStr.upper (PyStrip.strip name)
                  ∧ week_type info = PyStr.upper (PyStrip.strip type)) rows)
      with (st := ∅); [|by intros ??; rewrite lookup_empty|done].
    intros st row st' Hin Hst [->|(d & i & Hentry & ->)]%read_alternance_row_cases;
      [done|].
    intros date info. destruct (decide (date = d)) as [->|Hne].
    - rewrite lookup_insert_eq. intros [= <-].
      unfold alternance_entry in Hentry.
      destruct row as [|f1 [|f2 [|f3 [|f4 row]]]]; try done.
      destruct (strptime_ymd f1) as [d'|] eqn:Hd; [|done].
      injection Hentry as <- <-. by exists f1, f2, f3.
    - rewrite lookup_insert_ne by done. apply Hst. }
  split; [exact Hrow|].
  destruct Hrow as (date_str & nm & ty & Hin & _ & -> & ->).
  rewrite Forall_forall in Hascii. specialize (Hascii _ Hin).
  rewrite !Forall_cons in Hascii. destruct Hascii as (_ & Hnm & Hty & _).
  destruct (stored_field_normal nm), (stored_field_normal ty).
  split_and!; try done; by apply ascii_text_stored.
Qed.

Lemma alternance_entries_from_rows_witness :
  let rows := [["2024-09-02"; " lundi "; "b1"]] in
  let info := mkDayInfo "LUNDI" "B1" in
  (∃ date_str name type,
     [date_str; name; type] ∈ rows
     ∧ ConvDate.date_of_iso date_str = Some 739131
     ∧ day_name info = PyStr.upper (PyStrip.strip name)
     ∧ week_type info = PyStr.upper (PyStrip.strip type))
  ∧ ascii_text (day_name info)
  ∧ ascii_text (week_type info)
  ∧ PyStr.upper (day_name info) = day_name info
  ∧ PyStrip.strip (day_name info) = day_name info
  ∧ PyStr.upper (week_type info) = week_type info
  ∧ PyStrip.strip (week_type info) = week_type info.
Proof.
  intros rows info.
  apply (alternance_entries_from_rows ConvDate.date_of_iso ["date"; "jour"; "semaine"]
           rows {[739131 := info]} 739131 info).
  - apply Forall_singleton.
    repeat (apply Forall_cons; split; [vm_compute; exact I|]). apply Forall_nil_2.
  - vm_compute. reflexivity.
  - vm_compute. reflexivity.
Defined.

Lemma for_state_alternance strptime_ymd rows :
  Forall (λ row, (length row ≤ 3)%nat) rows →
  ∀ week_map,
    for_state (read_alternance_row strptime_ymd) week_map rows
    = Ok (foldl (λ m row,
                   match alternance_entry strptime_ymd row with
                   | Some (date, info) => <[date := info]> m
                   | None => m
                   end) week_map rows).
Proof.
  induction 1 as [|row rows Hrow _ IH]; intros week_map; simpl; [done|].
  rewrite read_alternance_row_spec by done. apply IH.
Qed.

Lemma foldl_alternance_untouched strptime_ymd rows date :
  (∀ row info, row ∈ rows → alternance_entry strptime_ymd row ≠ Some (date, info)) →
  ∀ week_map : gmap Z DayInfo,
    foldl (λ m row,
             match alternance_entry strptime_ymd row with
             | Some (d, i) => <[d := i]> m
             | None => m
             end) week_map rows !! date
    = week_map !! date.
Proof.
  induction rows as [|row rows IH]; intros Hrows week_map; simpl; [done|].
  rewrite IH by (intros r i Hr; by apply Hrows, list_elem_of_further).
  destruct (alternance_entry strptime_ymd row) as [[d i]|] eqn:Hentry; [|done].
  apply lookup_insert_ne. intros ->.
  by apply (Hrows row i (list_elem_of_here _ _)).
Qed.

(** X13.  When no row has more than three fields the alternance reader
    returns a map, and for a date given by several rows the last of them
    decides: the entry of a row stands if no later row converts to the
    same date. *)
Theorem alternance_last_row_wins (strptime_ymd : string → option Z)
    (header row : list string) (before after : list (list string))
    (date : Z) (info : DayInfo) :
  Forall (λ r, (length r ≤ 3)%nat) (before ++ row :: after) →
  alternance_entry strptime_ymd row = Some (date, info) →
  (∀ r info', r ∈ after → alternance_entry strptime_ymd r ≠ Some (date, info')) →
  ∃ week_map,
    read_alternance_csv strptime_ymd (header :: before ++ row :: after) = Ok week_map
    ∧ week_map !! date = Some info.
Proof.
  intros Hlen Hentry Hafter. unfold read_alternance_csv.
  rewrite for_state_alternance by done. eexists. split; [done|].
  rewrite foldl_app. simpl. rewrite Hentry.
  rewrite foldl_alternance_untouched by done. apply lookup_insert_eq.
Qed.

Lemma alternance_last_row_wins_witness :
  ∃ week_map,
    read_alternance_csv ConvDate.date_of_iso
      (["date"; "jour"; "semaine"]
       :: [["2024-09-02"; "MARDI"; "B2"]] ++ ["2024-09-02"; "LUNDI"; "B1"]
          :: [["2024-09-03"; "MARDI"; "B1"]])
    = Ok week_map
    ∧ week_map !! 739131 = Some (mkDayInfo "LUNDI" "B1").
Proof.
  apply (alternance_last_row_wins ConvDate.date_of_iso ["date"; "jour"; "semaine"]
           ["2024-09-02"; "LUNDI"; "B1"] [["2024-09-02"; "MARDI"; "B2"]]
           [["2024-09-03"; "MARDI"; "B1"]] 739131 (mkDayInfo "LUNDI" "B1")).
  - repeat (constructor; [simpl; lia|]). constructor.
  - vm_compute. reflexivity.
  - intros r info' ->%list_elem_of_singleton. vm_compute. discriminate.
Defined.

(** * Further properties of the expansion *)

Lemma generate_ics_file_unfold courses_manager courses_to_convert alternance_map :
  generate_ics_file courses_manager courses_to_convert alternance_map
  = match head (semester_dates alternance_map), last (semester_dates alternance_map) with
    | Some semester_start_date, Some semester_end_date =>
        for_each
          (expand_course courses_manager alternance_map semester_start_date
             semester_end_date)
          courses_to_convert
    | _, _ => Raise IndexError
    end.
Proof. reflexivity. Qed.

Lemma elem_of_semester_dates (alternance_map : gmap Z DayInfo) d :
  d ∈ semester_dates alternance_map ↔ is_Some (alternance_map !! d).
Proof.
  unfold semester_dates. rewrite merge_sort_Permutation, list_elem_of_fmap. split.
  - intros ([d' info] & -> & Hin). apply elem_of_map_to_list in Hin. by exists info.
  - intros [info Hd]. exists (d, info). split; [done|]. by apply elem_of_map_to_list.
Qed.

Lemma semester_dates_nil (alternance_map : gmap Z DayInfo) :
  semester_dates alternance_map = [] ↔ alternance_map = ∅.
Proof.
  split.
  - intros Hnil. apply map_empty. intros d.
    apply eq_None_not_Some. rewrite <-elem_of_semester_dates, Hnil.
    apply not_elem_of_nil.
  - intros ->. done.
Qed.

Lemma semester_dates_sorted alternance_map :
  StronglySorted Z.le (semester_dates alternance_map).
Proof. apply Sorted_StronglySorted; [apply _|]. apply (Sorted_merge_sort Z.le). Qed.

(** The ends of the range are its least and its greatest date. *)
Lemma semester_bounds alternance_map s e d :
  head (semester_dates alternance_map) = Some s →
  last (semester_dates alternance_map) = Some e →
  d ∈ semester_dates alternance_map →
  s ≤ d ≤ e ∧ s ∈ semester_dates alternance_map ∧ e ∈ semester_dates alternance_map.
Proof.
  intros Hs He Hd. pose proof (semester_dates_sorted alternance_map) as Hsorted.
  split_and!.
  - apply head_Some in Hs as [l Hl]. rewrite Hl in Hsorted, Hd.
    apply StronglySorted_inv in Hsorted as [_ Hall].
    apply elem_of_cons in Hd as [->|Hd]; [lia|].
    rewrite Forall_forall in Hall. by apply Hall.
  - apply last_Some in He as [l Hl]. rewrite Hl in Hsorted, Hd.
    apply elem_of_app in Hd as [Hd| ->%list_elem_of_singleton]; [|lia].
    apply (StronglySorted_app_1_elem_of Z.le l [e]); [done..|apply list_elem_of_here].
  - by apply head_Some_elem_of.
  - by apply last_Some_elem_of.
Qed.

(** X14.  On a non-empty alternance map the expansion runs over the
    range from the least to the greatest date of the map: both ends are
    dates of the map and every date of the map lies between them. *)
Theorem semester_range_is_min_max (courses_manager : gmap string Course)
    (courses_to_convert : list (string * list (string * list Z)))
    (alternance_map : gmap Z DayInfo) :
  alternance_map ≠ ∅ →
  ∃ s e,
    generate_ics_file courses_manager courses_to_convert alternance_map
    = for_each (expand_course courses_manager alternance_map s e) courses_to_convert
    ∧ is_Some (alternance_map !! s)
    ∧ is_Some (alternance_map !! e)
    ∧ ∀ d, is_Some (alternance_map !! d) → s ≤ d ≤ e.
Proof.
  intros Hne. rewrite <-semester_dates_nil in Hne.
  destruct (proj2 (head_is_Some _) Hne) as [s Hs].
  destruct (proj2 (last_is_Some _) Hne) as [e He].
  exists s, e. rewrite generate_ics_file_unfold, Hs, He. split; [done|].
  assert (s ∈ semester_dates alternance_map) as Hsin by (by apply head_Some_elem_of).
  destruct (semester_bounds _ _ _ _ Hs He Hsin) as (_ & _ & Hein).
  split_and!; [by apply elem_of_semester_dates..|].
  intros d Hd%elem_of_semester_dates.
  by destruct (semester_bounds _ _ _ _ Hs He Hd).
Qed.

Lemma semester_range_is_min_max_witness :
  let alternance_map : gmap Z DayInfo :=
    {[739133 := mkDayInfo "MERCREDI" "B1"; 739131 := mkDayInfo "LUNDI" "B1"]} in
  ∃ s e,
    generate_ics_file ∅ [] alternance_map
    = for_each (expand_course ∅ alternance_map s e) []
    ∧ is_Some (alternance_map !! s)
    ∧ is_Some (alternance_map !! e)
    ∧ ∀ d, is_Some (alternance_map !! d) → s ≤ d ≤ e.
Proof.
  intros alternance_map.
  apply (semester_range_is_min_max ∅ [] alternance_map).
  intros Hempty. apply (f_equal (λ m : gmap Z DayInfo, m !! 739131)) in Hempty.
  vm_compute in Hempty. discriminate.
Defined.

(** ** Which exceptions the expansion can raise *)

Lemma for_each_raise {A B} (f : A → result (list B)) l e :
  for_each f l = Raise e → ∃ x, x ∈ l ∧ f x = Raise e.
Proof.
  induction l as [|x l IH]; simpl; [done|].
  destruct (f x) as [out|e'] eqn:Hx.
  - destruct (for_each f l) as [out'|e'']; [done|]. intros [= <-].
    destruct (IH eq_refl) as (y & Hy & Hfy). exists y. split; [|done].
    by apply list_elem_of_further.
  - intros [= <-]. exists x. split; [apply list_elem_of_here|done].
Qed.

Lemma make_event_raise course group_type group d e :
  make_event course group_type group d = Raise e → e = ValueError ∨ e = OverflowError.
Proof.
  unfold make_event. pose proof (split_nonempty comma (hour group)) as Hne.
  destruct (PyStr.split comma (hour group)) as [|tok toks]; [done|].
  destruct (PyDate.strptime_HM tok) as [[h m]|]; [|intros [= <-]; by left].
  unfold localize. case_decide; [|done]. intros [= <-]. by right.
Qed.

Lemma days_loop_raise alternance_map course group_type group days current_date e :
  days_loop alternance_map course group_type group days current_date = Raise e →
  e = ValueError ∨ e = OverflowError.
Proof.
  revert current_date. induction days as [|days IH]; intros cur; [done|].
  rewrite days_loop_unfold. cbv zeta.
  destruct (day_selected alternance_map group cur).
  - destruct (make_event course group_type group cur) as [ev|e'] eqn:Hmk.
    + destruct (decide (PyDate.MAXORDINAL < cur + 1)); [intros [= <-]; by right|].
      destruct (days_loop alternance_map course group_type group days (cur + 1))
        as [evs|e'] eqn:Hloop; [done|].
      intros [= <-]. by apply (IH (cur + 1)).
    + intros [= <-]. by apply make_event_raise in Hmk.
  - destruct (decide (PyDate.MAXORDINAL < cur + 1)); [intros [= <-]; by right|].
    apply IH.
Qed.

Lemma expand_course_raise courses_manager alternance_map s e' item e :
  expand_course courses_manager alternance_map s e' item = Raise e →
  e = ValueError ∨ e = OverflowError.
Proof.
  unfold expand_course. destruct (get_course courses_manager item.1) as [course|]; [|done].
  intros ([group_type numbers] & _ & Htype)%for_each_raise.
  unfold expand_type in Htype. apply for_each_raise in Htype as (n & _ & Hn).
  unfold expand_number in Hn.
  destruct (get_specific_group course _ n) as [[|g gs]|]; [done| |done].
  apply for_each_raise in Hn as (group & _ & Hgroup).
  by apply days_loop_raise in Hgroup.
Qed.

(** X15.  On an empty alternance map the expansion raises [IndexError],
    whatever is selected; this is the only way it raises [IndexError], and
    on a non-empty map the only exceptions are [ValueError] and
    [OverflowError]. *)
Theorem expansion_exceptions (courses_manager : gmap string Course)
    (courses_to_convert : list (string * list (string * list Z))) :
  generate_ics_file courses_manager courses_to_convert ∅ = Raise IndexError
  ∧ ∀ alternance_map e,
      generate_ics_file courses_manager courses_to_convert alternance_map = Raise e →
      (e = IndexError ∧ alternance_map = ∅)
      ∨ (alternance_map ≠ ∅ ∧ (e = ValueError ∨ e = OverflowError)).
Proof.
  split; [done|]. intros alternance_map e. rewrite generate_ics_file_unfold.
  destruct (decide (alternance_map = ∅)) as [->|Hne].
  - intros [= <-]. by left.
  - pose proof Hne as Hdates. rewrite <-semester_dates_nil in Hdates.
    destruct (proj2 (head_is_Some _) Hdates) as [s ->].
    destruct (proj2 (last_is_Some _) Hdates) as [e' ->].
    intros (item & _ & Hitem)%for_each_raise. right. split; [done|].
    by apply expand_course_raise in Hitem.
Qed.

Lemma expansion_exceptions_witness :
  (IndexError = IndexError ∧ (∅ : gmap Z DayInfo) = ∅)
  ∨ ((∅ : gmap Z DayInfo) ≠ ∅ ∧ (IndexError = ValueError ∨ IndexError = OverflowError)).
Proof.
  apply (proj2 (expansion_exceptions ∅ courses_to_convert) ∅ IndexError).
  reflexivity.
Defined.

(** ** Where the events come from *)

Lemma days_loop_sound alternance_map course group_type group days current_date events event :
  days_loop alternance_map course group_type group days current_date = Ok events →
  event ∈ events →
  ∃ d info,
    current_date ≤ d < current_date + Z.of_nat days
    ∧ alternance_map !! d = Some info
    ∧ day_matches group (resolve_day_abbr d info) (week_type info) = true
    ∧ make_event course group_type group d = Ok event.
Proof.
  revert current_date events. induction days as [|days IH]; intros cur events.
  - intros [= <-] Hev. by apply elem_of_nil in Hev.
  - cbn [days_loop].
    assert (∀ evs, (if decide (PyDate.MAXORDINAL < cur + 1) then Raise OverflowError
                    else days_loop alternance_map course group_type group days (cur + 1))
                   = Ok evs →
                   event ∈ evs →
                   ∃ d info,
                     cur ≤ d < cur + Z.of_nat (S days)
                     ∧ alternance_map !! d = Some info
                     ∧ day_matches group (resolve_day_abbr d info) (week_type info) = true
                     ∧ make_event course group_type group d = Ok event) as Hnext.
    { intros evs. case_decide; [done|]. intros Hloop Hev.
      destruct (IH _ _ Hloop Hev) as (d & info & Hd & Hrest).
      exists d, info. split; [lia|done]. }
    destruct (alternance_map !! cur) as [info|] eqn:Hcur; [|apply Hnext].
    destruct (day_matches group _ _) eqn:Hmatch; [|apply Hnext].
    destruct (make_event course group_type group cur) as [ev|e] eqn:Hmk; [|done].
    destruct (if decide (PyDate.MAXORDINAL < cur + 1) then _ else _) as [evs|e] eqn:Hn;
      [|done].
    intros [= <-] [->|Hev]%elem_of_cons.
    + exists cur, info. split; [lia|done].
    + by apply (Hnext evs).
Qed.

Lemma generate_ics_file_sound (courses_manager : gmap string Course)
    (courses_to_convert : list (string * list (string * list Z)))
    (alternance_map : gmap Z DayInfo) (events : list Event) (event : Event) :
  generate_ics_file courses_manager courses_to_convert alternance_map = Ok events →
  event ∈ events →
  ∃ course_code group_selection group_type group_numbers group_number course groups
    group d info,
    (course_code, group_selection) ∈ courses_to_convert
    ∧ (group_type, group_numbers) ∈ group_selection
    ∧ group_number ∈ group_numbers
    ∧ get_course courses_manager course_code = Some course
    ∧ get_specific_group course group_type group_number = Some groups
    ∧ group ∈ groups
    ∧ alternance_map !! d = Some info
    ∧ day_matches group (resolve_day_abbr d info) (week_type info) = true
    ∧ make_event course group_type group d = Ok event
    ∧ dt_ordinal (ev_begin event) = d.
Proof.
  rewrite generate_ics_file_unfold.
  destruct (head _) as [s|]; [|done]. destruct (last _) as [e|]; [|done].
  intros Hrun Hev.
  destruct (for_each_elem_of _ _ _ _ Hrun Hev) as ([code sel] & out1 & Hitem & Hout1 & Hev1).
  unfold expand_course in Hout1. simpl in Hout1.
  destruct (get_course courses_manager code) as [course|] eqn:Hcourse;
    [|injection Hout1 as <-; by apply elem_of_nil in Hev1].
  destruct (for_each_elem_of _ _ _ _ Hout1 Hev1)
    as ([gt nums] & out2 & Htype & Hout2 & Hev2).
  unfold expand_type in Hout2. simpl in Hout2.
  destruct (for_each_elem_of _ _ _ _ Hout2 Hev2) as (n & out3 & Hn & Hout3 & Hev3).
  unfold expand_number in Hout3.
  destruct (get_specific_group course gt n) as [[|g gs]|] eqn:Hgroups;
    [injection Hout3 as <-; by apply elem_of_nil in Hev3| |
     injection Hout3 as <-; by apply elem_of_nil in Hev3].
  destruct (for_each_elem_of _ _ _ _ Hout3 Hev3) as (group & out4 & Hg & Hout4 & Hev4).
  unfold expand_group in Hout4.
  destruct (days_loop_sound _ _ _ _ _ _ _ _ Hout4 Hev4) as (d & info & _ & Hd & Hm & Hmk).
  exists code, sel, gt, nums, n, course, (g :: gs), group, d, info.
  split_and!; try done.
  destruct (make_event_fields _ _ _ _ _ Hmk) as (? & ? & ? & ? & _ & _ & -> & _). done.
Qed.

(** X16.  Every event written comes from the selection: from one entry
    of it whose course code, group type and group number resolve in the
    registry, from one group of the list retrieved, and from one date
    that has an alternance entry and passes the day test for that group.
    No event falls on a date without an entry. *)
Theorem expansion_sound (courses_manager : gmap string Course)
    (courses_to_convert : list (string * list (string * list Z)))
    (alternance_map : gmap Z DayInfo) (events : list Event) (event : Event) :
  generate_ics_file courses_manager courses_to_convert alternance_map = Ok events →
  event ∈ events →
  ∃ course_code group_selection group_type group_numbers group_number course groups
    group d info,
    (course_code, group_selection) ∈ courses_to_convert
    ∧ (group_type, group_numbers) ∈ group_selection
    ∧ group_number ∈ group_numbers
    ∧ get_course courses_manager course_code = Some course
    ∧ get_specific_group course group_type group_number = Some groups
    ∧ group ∈ groups
    ∧ alternance_map !! d = Some info
    ∧ day_matches group (resolve_day_abbr d info) (week_type info) = true
    ∧ make_event course group_type group d = Ok event
    ∧ dt_ordinal (ev_begin event) = d.
Proof. apply generate_ics_file_sound. Qed.

Lemma expansion_sound_witness :
  let group := Group_init 2 "LUN" "B-2325" 1 "every_week" "0830,0930" in
  let course0 := add_group "c" group (Course_init "LOG1810" "Logiciel" 3) in
  let courses_manager : gmap string Course := {["LOG1810" := course0]} in
  let alternance_map : gmap Z DayInfo := {[739131 := mkDayInfo "LUNDI" "B1"]} in
  let event := event_for course0 "c" group 8 30 739131 in
  ∃ course_code group_selection group_type group_numbers group_number course groups
    group d info,
    (course_code, group_selection) ∈ courses_to_convert
    ∧ (group_type, group_numbers) ∈ group_selection
    ∧ group_number ∈ group_numbers
    ∧ get_course courses_manager course_code = Some course
    ∧ get_specific_group course group_type group_number = Some groups
    ∧ group ∈ groups
    ∧ alternance_map !! d = Some info
    ∧ day_matches group (resolve_day_abbr d info) (week_type info) = true
    ∧ make_event course group_type group d = Ok event
    ∧ dt_ordinal (ev_begin event) = d.
Proof.
  intros group course0 courses_manager alternance_map event.
  apply (expansion_sound courses_manager courses_to_convert alternance_map [event] event).
  - vm_compute. reflexivity.
  - apply list_elem_of_here.
Defined.

(** ** An hour field that does not parse *)

Lemma make_event_bad_hour course group_type group tok toks d :
  hour_tokens (hour group) = tok :: toks →
  PyDate.strptime_HM tok = None →
  make_event course group_type group d = Raise ValueError.
Proof. unfold make_event, hour_tokens. intros -> ->. done. Qed.

Lemma days_loop_bad_hour alternance_map course group_type group tok toks :
  hour_tokens (hour group) = tok :: toks →
  PyDate.strptime_HM tok = None →
  ∀ days current_date,
    current_date + Z.of_nat days ≤ PyDate.MAXORDINAL →
    (∃ d, current_date ≤ d < current_date + Z.of_nat days
          ∧ day_selected alternance_map group d = true) →
    days_loop alternance_map course group_type group days current_date
    = Raise ValueError.
Proof.
  intros Htok Hbad. induction days as [|days IH]; intros cur Hmax (d & Hd & Hsel).
  - lia.
  - rewrite days_loop_unfold. cbv zeta.
    rewrite (make_event_bad_hour _ _ _ _ _ _ Htok Hbad).
    destruct (day_selected alternance_map group cur) eqn:Hcur; [done|].
    rewrite decide_False by lia. apply IH; [lia|].
    exists d. split; [|done].
    destruct (decide (d = cur)) as [->|Hne]; [congruence|lia].
Qed.

Lemma days_loop_no_day alternance_map course group_type group :
  ∀ days current_date,
    current_date + Z.of_nat days ≤ PyDate.MAXORDINAL →
    (∀ d, current_date ≤ d < current_date + Z.of_nat days →
          day_selected alternance_map group d = false) →
    days_loop alternance_map course group_type group days current_date = Ok [].
Proof.
  induction days as [|days IH]; intros cur Hmax Hnone; [done|].
  rewrite days_loop_unfold. cbv zeta.
  rewrite Hnone by lia. rewrite decide_False by lia.
  apply IH; [lia|]. intros d Hd. apply Hnone. lia.
Qed.

(** X17.  A group whose first hour token [strptime] refuses stops the
    expansion with [ValueError] if some day of the range passes the day
    test for it, and contributes nothing, without an error, if none
    does. *)
Theorem unparsable_hour_field (alternance_map : gmap Z DayInfo) (course : Course)
    (group_type : string) (group : Group) (semester_start_date semester_end_date : Z)
    (tok : string) (toks : list string) :
  hour_tokens (hour group) = tok :: toks →
  PyDate.strptime_HM tok = None →
  semester_end_date < PyDate.MAXORDINAL →
  ((∃ d, semester_start_date ≤ d ≤ semester_end_date
         ∧ day_selected alternance_map group d = true) →
     expand_group alternance_map semester_start_date semester_end_date
       course group_type group = Raise ValueError)
  ∧ ((∀ d, semester_start_date ≤ d ≤ semester_end_date →
           day_selected alternance_map group d = false) →
       expand_group alternance_map semester_start_date semester_end_date
         course group_type group = Ok []).
Proof.
  intros Htok Hbad Hend. unfold expand_group.
  destruct (decide (semester_end_date < semester_start_date)) as [Hempty|Hrange].
  - replace (Z.to_nat (semester_end_date - semester_start_date + 1)) with O by lia.
    split; [|done]. intros (d & Hd & _). lia.
  - split.
    + intros (d & Hd & Hsel).
      apply (days_loop_bad_hour _ _ _ _ _ _ Htok Hbad); [lia|].
      exists d. split; [lia|done].
    + intros Hnone. apply days_loop_no_day; [lia|].
      intros d Hd. apply Hnone. lia.
Qed.

Lemma unparsable_hour_field_witness :
  let group := Group_init 2 "LUN" "B-2325" 1 "every_week" "8h30" in
  let course := Course_init "LOG1810" "Logiciel" 3 in
  expand_group {[739131 := mkDayInfo "LUNDI" "B1"]} 739131 739131 course "c" group
  = Raise ValueError
  ∧ expand_group {[739132 := mkDayInfo "MARDI" "B1"]} 739132 739132 course "c" group
    = Ok [].
Proof.
  intros group course. split.
  - apply (proj1 (unparsable_hour_field {[739131 := mkDayInfo "LUNDI" "B1"]} course "c"
                    group 739131 739131 "8h30" [] eq_refl eq_refl eq_refl)).
    exists 739131. split; [lia|]. vm_compute. reflexivity.
  - apply (proj2 (unparsable_hour_field {[739132 := mkDayInfo "MARDI" "B1"]} course "c"
                    group 739132 739132 "8h30" [] eq_refl eq_refl eq_refl)).
    intros d Hd. assert (d = 739132) as -> by lia. vm_compute. reflexivity.
Defined.

(** ** When the expansion returns *)

Lemma for_each_ok {A B} (f : A → result (list B)) l :
  (∀ x, x ∈ l → ∃ out, f x = Ok out) → ∃ out, for_each f l = Ok out.
Proof.
  induction l as [|x l IH]; intros Hf; simpl; [by eexists|].
  destruct (Hf x (list_elem_of_here _ _)) as [out ->].
  destruct IH as [out' ->]; [|by eexists].
  intros y Hy. by apply Hf, list_elem_of_further.
Qed.

Lemma get_specific_group_Some course group_type n groups :
  get_specific_group course group_type n = Some groups →
  theo_groups course !! n = Some groups ∨ lab_groups course !! n = Some groups.
Proof. unfold get_specific_group. repeat case_decide; tauto || done. Qed.

Lemma expand_group_ok alternance_map s e course group_type group :
  hour_parses group → 1 < s → e < PyDate.MAXORDINAL →
  ∃ events, expand_group alternance_map s e course group_type group = Ok events.
Proof.
  intros (tok & toks & h & m & Htok & Hhm) Hs He. unfold expand_group.
  rewrite (days_loop_spec _ _ _ _ _ _ _ _ Htok Hhm) by lia. by eexists.
Qed.

Lemma semester_range_bounds_aux (alternance_map : gmap Z DayInfo) :
  alternance_map ≠ ∅ →
  ∃ s e,
    head (semester_dates alternance_map) = Some s
    ∧ last (semester_dates alternance_map) = Some e
    ∧ is_Some (alternance_map !! s)
    ∧ is_Some (alternance_map !! e).
Proof.
  intros Hne. rewrite <-semester_dates_nil in Hne.
  destruct (proj2 (head_is_Some _) Hne) as [s Hs].
  destruct (proj2 (last_is_Some _) Hne) as [e He].
  exists s, e. split_and!; [done..| |].
  - by apply elem_of_semester_dates, head_Some_elem_of.
  - by apply elem_of_semester_dates, last_Some_elem_of.
Qed.

(** X18.  The expansion returns its events, raising nothing, when the
    alternance map is not empty, its dates lie strictly between the first
    and the last representable day, and the first hour token of every
    group of the registry is one [strptime] accepts. *)
Theorem expansion_returns (courses_manager : gmap string Course)
    (courses_to_convert : list (string * list (string * list Z)))
    (alternance_map : gmap Z DayInfo) :
  alternance_map ≠ ∅ →
  (∀ d, is_Some (alternance_map !! d) → 1 < d < PyDate.MAXORDINAL) →
  registry_parses courses_manager →
  ∃ events,
    generate_ics_file courses_manager courses_to_convert alternance_map = Ok events.
Proof.
  intros Hne Hdates Hparse.
  destruct (semester_range_bounds_aux alternance_map Hne) as (s & e & Hs & He & Hsin & Hein).
  rewrite generate_ics_file_unfold, Hs, He.
  apply for_each_ok. intros [code sel] _. unfold expand_course. simpl.
  destruct (get_course courses_manager code) as [course|] eqn:Hcourse; [|by eexists].
  apply for_each_ok. intros [gt nums] _. unfold expand_type. simpl.
  apply for_each_ok. intros n _. unfold expand_number.
  destruct (get_specific_group course gt n) as [[|g gs]|] eqn:Hgroups;
    [by eexists| |by eexists].
  apply for_each_ok. intros group Hgroup. apply expand_group_ok.
  - apply (Hparse code course n (g :: gs) group); [done| |done].
    by apply get_specific_group_Some in Hgroups.
  - by apply Hdates.
  - by apply Hdates.
Qed.

Lemma expansion_returns_witness :
  let group := Group_init 2 "LUN" "B-2325" 1 "every_week" "0830,0930" in
  let course := add_group "c" group (Course_init "LOG1810" "Logiciel" 3) in
  ∃ events,
    generate_ics_file {["LOG1810" := course]} courses_to_convert
      {[739131 := mkDayInfo "LUNDI" "B1"]}
    = Ok events.
Proof.
  intros group course.
  apply (expansion_returns {["LOG1810" := course]} courses_to_convert
           {[739131 := mkDayInfo "LUNDI" "B1"]}).
  - intros Hempty. apply (f_equal (λ m : gmap Z DayInfo, m !! 739131)) in Hempty.
    vm_compute in Hempty. discriminate.
  - intros d [info Hd]. apply lookup_singleton_Some in Hd as [<- _].
    split; vm_compute; reflexivity.
  - intros key c n bucket g Hc Hbucket Hg.
    apply lookup_singleton_Some in Hc as [<- <-].
    assert (theo_groups course = {[2 := [group]]}) as Htheo by (vm_compute; reflexivity).
    assert (lab_groups course = ∅) as Hlab by (vm_compute; reflexivity).
    rewrite Htheo, Hlab, lookup_empty in Hbucket.
    destruct Hbucket as [Hbucket|Hbucket]; [|done].
    apply lookup_singleton_Some in Hbucket as [<- <-].
    apply list_elem_of_singleton in Hg as ->.
    exists "0830", ["0930"], 8, 30. split; vm_compute; reflexivity.
Defined.

(** ** The events of one group *)

Lemma StronglySorted_filter {A} (R : relation A) (P : A → Prop) `{∀ x, Decision (P x)} l :
  StronglySorted R l → StronglySorted R (filter P l).
Proof.
  induction 1 as [|x l Hl IH Hx]; [constructor|].
  rewrite filter_cons. case_decide; [|done]. constructor; [done|].
  apply Forall_forall. intros y [_ Hy]%list_elem_of_filter.
  rewrite Forall_forall in Hx. by apply Hx.
Qed.

Lemma StronglySorted_seqZ m (n : nat) : StronglySorted Z.lt (seqZ m (Z.of_nat n)).
Proof.
  revert m. induction n as [|n IH]; intros m.
  - rewrite seqZ_nil by lia. constructor.
  - rewrite seqZ_cons by lia.
    replace (Z.pred (Z.of_nat (S n))) with (Z.of_nat n) by lia.
    constructor; [apply IH|].
    apply Forall_forall. intros d Hd%elem_of_seqZ. lia.
Qed.

(** X19.  For a group whose hour field parses, on a range strictly
    between the first and the last representable day, the day loop emits
    exactly one event for each day of the range that passes the day test,
    in date order: the dates of the events are those days, strictly
    increasing, so no two events of a group fall on the same day. *)
Theorem group_events_by_date (alternance_map : gmap Z DayInfo) (course : Course)
    (group_type : string) (group : Group) (semester_start_date semester_end_date : Z)
    (tok : string) (toks : list string) (h m : Z) :
  hour_tokens (hour group) = tok :: toks →
  PyDate.strptime_HM tok = Some (h, m) →
  1 < semester_start_date →
  semester_end_date < PyDate.MAXORDINAL →
  ∃ events,
    expand_group alternance_map semester_start_date semester_end_date
      course group_type group = Ok events
    ∧ (λ event, dt_ordinal (ev_begin event)) <$> events
      = filter (λ d, day_selected alternance_map group d)
          (seqZ semester_start_date (semester_end_date - semester_start_date + 1))
    ∧ StronglySorted Z.lt ((λ event, dt_ordinal (ev_begin event)) <$> events)
    ∧ Forall (λ event, dt_hour (ev_begin event) = h ∧ dt_minute (ev_begin event) = m)
        events.
Proof.
  intros Htok Hhm Hs He. eexists. split.
  { unfold expand_group. apply (days_loop_spec _ _ _ _ _ _ _ _ Htok Hhm). lia. }
  assert (seqZ semester_start_date (semester_end_date - semester_start_date + 1)
          = seqZ semester_start_date
              (Z.of_nat (Z.to_nat (semester_end_date - semester_start_date + 1)))) as Hseq.
  { unfold seqZ. by rewrite Nat2Z.id. }
  assert ((λ event, dt_ordinal (ev_begin event))
            <$> (event_for course group_type group h m
                   <$> filter (λ d, day_selected alternance_map group d)
                         (seqZ semester_start_date
                            (Z.of_nat (Z.to_nat (semester_end_date - semester_start_date + 1)))))
          = filter (λ d, day_selected alternance_map group d)
              (seqZ semester_start_date
                 (Z.of_nat (Z.to_nat (semester_end_date - semester_start_date + 1)))))
    as Hdates.
  { rewrite <-list_fmap_compose. apply list_fmap_id. }
  split_and!.
  - by rewrite Hdates, Hseq.
  - rewrite Hdates. apply StronglySorted_filter, StronglySorted_seqZ.
  - apply Forall_fmap, Forall_forall. by intros d _.
Qed.

Lemma group_events_by_date_witness :
  let group := Group_init 2 "LUN" "B-2325" 1 "every_week" "0830,0930" in
  let course := Course_init "LOG1810" "Logiciel" 3 in
  let alternance_map : gmap Z DayInfo :=
    {[739131 := mkDayInfo "LUNDI" "B1"; 739138 := mkDayInfo "LUNDI" "B2"]} in
  ∃ events,
    expand_group alternance_map 739131 739138 course "c" group = Ok events
    ∧ (λ event, dt_ordinal (ev_begin event)) <$> events
      = filter (λ d, day_selected alternance_map group d) (seqZ 739131 (739138 - 739131 + 1))
    ∧ StronglySorted Z.lt ((λ event, dt_ordinal (ev_begin event)) <$> events)
    ∧ Forall (λ event, dt_hour (ev_begin event) = 8 ∧ dt_minute (ev_begin event) = 30)
        events.
Proof.
  intros group course alternance_map.
  apply (group_events_by_date alternance_map course "c" group 739131 739138
           "0830" ["0930"] 8 30); vm_compute; reflexivity.
Defined.

(** ** The start of an event *)

Lemma valid_time_seqZ t : valid_time t → t.1 ∈ seqZ 0 24 ∧ t.2 ∈ seqZ 0 60.
Proof. intros [??]. rewrite !elem_of_seqZ. lia. Qed.

(** [strptime] reads a time written "HHMM" back. *)
Lemma strptime_HHMM t : valid_time t → PyDate.strptime_HM (HHMM t) = Some t.
Proof.
  assert (Forall (λ h, Forall (λ m, PyDate.strptime_HM (HHMM (h, m)) = Some (h, m))
                         (seqZ 0 60)) (seqZ 0 24)) as Hall.
  { apply (bool_decide_unpack _). vm_compute. exact I. }
  intros [Hh Hm]%valid_time_seqZ. destruct t as [h m]. simpl in *.
  rewrite Forall_forall in Hall. specialize (Hall h Hh).
  rewrite Forall_forall in Hall. by apply Hall.
Qed.

Lemma HHMM_no_comma t : valid_time t → PyStr.contains comma (HHMM t) = false.
Proof.
  assert (Forall (λ h, Forall (λ m, PyStr.contains comma (HHMM (h, m)) = false)
                         (seqZ 0 60)) (seqZ 0 24)) as Hall.
  { apply (bool_decide_unpack _). vm_compute. exact I. }
  intros [Hh Hm]%valid_time_seqZ. destruct t as [h m]. simpl in *.
  rewrite Forall_forall in Hall. specialize (Hall h Hh).
  rewrite Forall_forall in Hall. by apply Hall.
Qed.

Lemma compare_digit_char x y :
  0 ≤ x ≤ 9 → 0 ≤ y ≤ 9 → Ascii.compare (digit_char x) (digit_char y) = (x ?= y).
Proof.
  assert (Forall (λ a, Forall (λ b, Ascii.compare (digit_char a) (digit_char b) = (a ?= b))
                         (seqZ 0 10)) (seqZ 0 10)) as Hall.
  { apply (bool_decide_unpack _). vm_compute. exact I. }
  intros Hx Hy. rewrite Forall_forall in Hall.
  assert (x ∈ seqZ 0 10) as Hxin by (rewrite elem_of_seqZ; lia).
  specialize (Hall x Hxin). rewrite Forall_forall in Hall.
  apply Hall. rewrite elem_of_seqZ. lia.
Qed.

(** The order of the texts "HHMM" is the order of the times. *)
Lemma HHMM_le t t' :
  valid_time t → valid_time t' → String.le (HHMM t) (HHMM t') →
  60 * t.1 + t.2 ≤ 60 * t'.1 + t'.2.
Proof.
  intros [Hh Hm] [Hh' Hm'] Hle. destruct t as [h m], t' as [h' m']. simpl in *.
  unfold String.le, String.leb, HHMM in Hle. simpl in Hle.
  pose proof (Z.div_mod h 10 ltac:(lia)) as Eh.
  pose proof (Z.div_mod h' 10 ltac:(lia)) as Eh'.
  pose proof (Z.div_mod m 10 ltac:(lia)) as Em.
  pose proof (Z.div_mod m' 10 ltac:(lia)) as Em'.
  pose proof (Z.mod_pos_bound h 10 ltac:(lia)).
  pose proof (Z.mod_pos_bound h' 10 ltac:(lia)).
  pose proof (Z.mod_pos_bound m 10 ltac:(lia)).
  pose proof (Z.mod_pos_bound m' 10 ltac:(lia)).
  assert (0 ≤ h / 10 ≤ 9) by (split; [apply Z.div_pos|apply Z.div_le_upper_bound]; lia).
  assert (0 ≤ h' / 10 ≤ 9) by (split; [apply Z.div_pos|apply Z.div_le_upper_bound]; lia).
  assert (0 ≤ m / 10 ≤ 9) by (split; [apply Z.div_pos|apply Z.div_le_upper_bound]; lia).
  assert (0 ≤ m' / 10 ≤ 9) by (split; [apply Z.div_pos|apply Z.div_le_upper_bound]; lia).
  rewrite !compare_digit_char in Hle by lia.
  destruct (Z.compare_spec (h / 10) (h' / 10)); [|lia|done].
  destruct (Z.compare_spec (h mod 10) (h' mod 10)); [|lia|done].
  destruct (Z.compare_spec (m / 10) (m' / 10)); [|lia|done].
  destruct (Z.compare_spec (m mod 10) (m' mod 10)); [lia|lia|done].
Qed.

Lemma hour_tokens_of_times (times : list (Z * Z)) :
  times ≠ [] → Forall valid_time times →
  hour_tokens (normal_hour (PyStr.join "," (HHMM <$> times)))
  = PyStr.sorted (HHMM <$> times).
Proof.
  intros Hne Hvalid. rewrite hour_tokens_normal_hour. f_equal.
  apply (split_join comma).
  - by destruct times.
  - apply Forall_fmap. eapply Forall_impl; [exact Hvalid|].
    intros t Ht. by apply HHMM_no_comma.
Qed.

(** X20.  When the hour text of a group lists times of day written
    "HHMM", in any order, the event starts at the earliest of them and
    lasts as many hours as there are tokens. *)
Theorem event_starts_at_earliest_time (course : Course) (group_type : string) (n : Z)
    (day rm : string) (len : Z) (freq : string) (times : list (Z * Z)) (d : Z) :
  times ≠ [] → Forall valid_time times → 1 < d < PyDate.MAXORDINAL →
  ∃ event t,
    make_event course group_type
      (Group_init n day rm len freq (PyStr.join "," (HHMM <$> times))) d = Ok event
    ∧ t ∈ times
    ∧ (∀ t', t' ∈ times → 60 * t.1 + t.2 ≤ 60 * t'.1 + t'.2)
    ∧ ev_begin event = {| dt_ordinal := d; dt_hour := t.1; dt_minute := t.2;
                          dt_zone := "America/Toronto" |}
    ∧ ev_duration_hours event = Z.of_nat (length times).
Proof.
  intros Hne Hvalid Hd.
  set (group := Group_init n day rm len freq (PyStr.join "," (HHMM <$> times))).
  assert (hour_tokens (hour group) = PyStr.sorted (HHMM <$> times)) as Htoks
    by (by apply hour_tokens_of_times).
  pose proof (sorted_Permutation (HHMM <$> times)) as Hperm.
  pose proof (sorted_Sorted (HHMM <$> times)) as Hsorted.
  apply Sorted_StronglySorted in Hsorted; [|apply _].
  destruct (PyStr.sorted (HHMM <$> times)) as [|tok toks] eqn:Hs.
  { apply Permutation_nil_l in Hperm. by destruct times. }
  assert (tok ∈ HHMM <$> times) as Htok by (rewrite <-Hperm; apply list_elem_of_here).
  apply list_elem_of_fmap in Htok as (t & -> & Ht).
  rewrite Forall_forall in Hvalid.
  exists (event_for course group_type group t.1 t.2 d), t. split_and!.
  - apply (make_event_ok _ _ _ (HHMM t) toks); [done| |done].
    rewrite strptime_HHMM by (by apply Hvalid). by destruct t.
  - done.
  - intros t' Ht'. apply HHMM_le; [by apply Hvalid..|].
    assert (HHMM t' ∈ HHMM t :: toks) as Hin
      by (rewrite Hperm; by apply list_elem_of_fmap_2).
    apply StronglySorted_inv in Hsorted as [_ Hall].
    apply elem_of_cons in Hin as [->|Hin]; [done|].
    rewrite Forall_forall in Hall. by apply Hall.
  - done.
  - simpl. fold (normal_hour (PyStr.join "," (HHMM <$> times))).
    change (hour_tokens (normal_hour (PyStr.join "," (HHMM <$> times))))
      with (hour_tokens (hour group)).
    rewrite Htoks, <-(length_fmap HHMM times). f_equal.
    by apply Permutation_length.
Qed.

Lemma event_starts_at_earliest_time_witness :
  let course := Course_init "LOG1810" "Logiciel" 3 in
  ∃ event t,
    make_event course "c"
      (Group_init 2 "LUN" "B-2325" 2 "every_week"
         (PyStr.join "," (HHMM <$> [(9, 30); (8, 30)]))) 739131 = Ok event
    ∧ t ∈ [(9, 30); (8, 30)]
    ∧ (∀ t', t' ∈ [(9, 30); (8, 30)] → 60 * t.1 + t.2 ≤ 60 * t'.1 + t'.2)
    ∧ ev_begin event = {| dt_ordinal := 739131; dt_hour := t.1; dt_minute := t.2;
                          dt_zone := "America/Toronto" |}
    ∧ ev_duration_hours event = Z.of_nat (length [(9, 30); (8, 30)]).
Proof.
  intros course.
  apply (event_starts_at_earliest_time course "c" 2 "LUN" "B-2325" 2 "every_week"
           [(9, 30); (8, 30)] 739131).
  - discriminate.
  - repeat (constructor; [split; simpl; lia|]). constructor.
  - split; vm_compute; reflexivity.
Defined.

(** * The script as a whole *)

Lemma registry_ok_group courses code course group_type n groups group :
  registry_ok courses →
  get_course courses code = Some course →
  get_specific_group course group_type n = Some groups →
  group ∈ groups →
  sigle course = code ∧ number group = n
  ∧ frequency group ∈ ["B1"; "B2"; "every_week"].
Proof.
  intros Hok Hcourse Hgroups Hgroup.
  destruct (Hok code course Hcourse) as (Hsigle & Htheo & Hlab).
  split; [done|].
  assert (bucket_ok n groups) as (_ & _ & Hall).
  { apply get_specific_group_Some in Hgroups as [Hg|Hg]; [by apply Htheo|by apply Hlab]. }
  rewrite Forall_forall in Hall. by destruct (Hall group Hgroup) as (? & ? & _).
Qed.

(** X21.  Every event the script writes is an event of one of the four
    hard-coded selections, and of a group of the registry: it comes from
    a group of the list retrieved for course LOG1810, lecture number 2 or
    lab number 4, or for course INF1015, lecture number 1 or lab number 1;
    its title names that course, with the name held in the registry, that
    number and the label of the type; its location is the room of the
    group, its duration the number of hour tokens of the group; it falls
    on a date of the alternance file that passes the day test for the
    group. *)
Theorem script_events (py_int : string → option Z) (py_int_float : string → result Z)
    (strptime_ymd : string → option Z) (horsage_rows alternance_rows : list (list string))
    (events : list Event) (event : Event) :
  main py_int py_int_float strptime_ymd horsage_rows alternance_rows = Ok events →
  event ∈ events →
  ∃ courses_manager alternance_map course group_type group_number groups group info,
    read_csv_files py_int py_int_float ∅ horsage_rows = Ok courses_manager
    ∧ read_alternance_csv strptime_ymd alternance_rows = Ok alternance_map
    ∧ ((courses_manager !! "LOG1810" = Some course
        ∧ ((group_type = "c" ∧ group_number = 2
            ∧ ev_name event = "LOG1810 - " +:+ name course +:+ " - Groupe 2 (COURS)")
           ∨ (group_type = "l" ∧ group_number = 4
              ∧ ev_name event = "LOG1810 - " +:+ name course +:+ " - Groupe 4 (LAB)")))
       ∨ (courses_manager !! "INF1015" = Some course
          ∧ ((group_type = "c" ∧ group_number = 1
              ∧ ev_name event = "INF1015 - " +:+ name course +:+ " - Groupe 1 (COURS)")
             ∨ (group_type = "l" ∧ group_number = 1
                ∧ ev_name event = "INF1015 - " +:+ name course +:+ " - Groupe 1 (LAB)"))))
    ∧ get_specific_group course group_type group_number = Some groups
    ∧ group ∈ groups
    ∧ number group = group_number
    ∧ frequency group ∈ ["B1"; "B2"; "every_week"]
    ∧ ev_location event = room group
    ∧ ev_duration_hours event = Z.of_nat (length (hour_tokens (hour group)))
    ∧ alternance_map !! dt_ordinal (ev_begin event) = Some info
    ∧ day_matches group (resolve_day_abbr (dt_ordinal (ev_begin event)) info)
        (week_type info) = true.
Proof.
  unfold main.
  destruct (read_csv_files py_int py_int_float ∅ horsage_rows) as [mgr|] eqn:Hmgr; [|done].
  destruct (read_alternance_csv strptime_ymd alternance_rows) as [alt|] eqn:Halt; [|done].
  intros Hrun Hev.
  assert (registry_ok mgr) as Hok.
  { apply (read_csv_files_registry_ok _ _ ∅ _ _) in Hmgr; [done|].
    intros key c. by rewrite lookup_empty. }
  destruct (generate_ics_file_sound _ _ _ _ _ Hrun Hev)
    as (code & sel & gt & nums & n & course & groups & group & d & info
        & Hcode & Htype & Hn & Hcourse & Hgroups & Hgroup & Hd & Hmatch & Hmk & Hdate).
  destruct (registry_ok_group _ _ _ _ _ _ _ Hok Hcourse Hgroups Hgroup)
    as (Hsigle & Hnumber & Hfreq).
  pose proof (make_event_name _ _ _ _ _ Hmk) as Hname.
  destruct (make_event_fields _ _ _ _ _ Hmk)
    as (? & ? & ? & ? & _ & _ & _ & Hdur & Hloc & _).
  exists mgr, alt, course, gt, n, groups, group, info.
  rewrite Hdate.
  split_and!; [done|done| |done|done|done|done|done|done|done|done].
  unfold event_title in Hname. rewrite Hsigle, Hnumber in Hname.
  unfold get_course in Hcourse. unfold courses_to_convert in Hcode.
  repeat (apply elem_of_cons in Hcode as [Hcode|Hcode]); [| |by apply elem_of_nil in Hcode];
    injection Hcode as -> ->;
    (repeat (apply elem_of_cons in Htype as [Htype|Htype]);
       [| |by apply elem_of_nil in Htype]);
    injection Htype as -> ->;
    apply list_elem_of_singleton in Hn as ->; rewrite Hname.
  - left. split; [done|]. by left.
  - left. split; [done|]. by right.
  - right. split; [done|]. by left.
  - right. split; [done|]. by right.
Qed.

Lemma script_events_witness :
  let group0 := Group_init 2 "LUN" "B-2325" 1 "every_week" "0830" in
  let course0 := add_group "c" group0 (Course_init "LOG1810" "Logiciel" 3) in
  let event := event_for course0 "c" group0 8 30 739131 in
  let horsage_rows :=
    [[];
     [""; "LOG1810"; "2"; "3,0"; ""; ""; "B-2325"; "C"; ""; ""; "C"; "Logiciel"; "";
      "LUN"; "0830"]] in
  let alternance_rows := [[]; ["2024-09-02"; "LUNDI"; "B1"]] in
  ∃ courses_manager alternance_map course group_type group_number groups group info,
    read_csv_files Conv.int_of_digits Conv.int_of_decimal ∅ horsage_rows = Ok courses_manager
    ∧ read_alternance_csv ConvDate.date_of_iso alternance_rows = Ok alternance_map
    ∧ ((courses_manager !! "LOG1810" = Some course
        ∧ ((group_type = "c" ∧ group_number = 2
            ∧ ev_name event = "LOG1810 - " +:+ name course +:+ " - Groupe 2 (COURS)")
           ∨ (group_type = "l" ∧ group_number = 4
              ∧ ev_name event = "LOG1810 - " +:+ name course +:+ " - Groupe 4 (LAB)")))
       ∨ (courses_manager !! "INF1015" = Some course
          ∧ ((group_type = "c" ∧ group_number = 1
              ∧ ev_name event = "INF1015 - " +:+ name course +:+ " - Groupe 1 (COURS)")
             ∨ (group_type = "l" ∧ group_number = 1
                ∧ ev_name event = "INF1015 - " +:+ name course +:+ " - Groupe 1 (LAB)"))))
    ∧ get_specific_group course group_type group_number = Some groups
    ∧ group ∈ groups
    ∧ number group = group_number
    ∧ frequency group ∈ ["B1"; "B2"; "every_week"]
    ∧ ev_location event = room group
    ∧ ev_duration_hours event = Z.of_nat (length (hour_tokens (hour group)))
    ∧ alternance_map !! dt_ordinal (ev_begin event) = Some info
    ∧ day_matches group (resolve_day_abbr (dt_ordinal (ev_begin event)) info)
        (week_type info) = true.
Proof.
  intros group0 course0 event horsage_rows alternance_rows.
  apply (script_events Conv.int_of_digits Conv.int_of_decimal ConvDate.date_of_iso
           horsage_rows alternance_rows [event] event).
  - vm_compute. reflexivity.
  - apply list_elem_of_here.
Defined.

(** X22.  The events of a selection made of two parts are the events of
    the first part followed by those of the second; an exception in
    either part is the exception of the whole, the first part's first. *)
Theorem selection_is_additive (courses_manager : gmap string Course)
    (first second : list (string * list (string * list Z)))
    (alternance_map : gmap Z DayInfo) :
  generate_ics_file courses_manager (first ++ second) alternance_map
  = match generate_ics_file courses_manager first alternance_map with
    | Raise e => Raise e
    | Ok events1 =>
        match generate_ics_file courses_manager second alternance_map with
        | Raise e => Raise e
        | Ok events2 => Ok (events1 ++ events2)
        end
    end.
Proof.
  rewrite !generate_ics_file_unfold.
  destruct (head _) as [s|]; [|done]. destruct (last _) as [e|]; [|done].
  apply for_each_app.
Qed.

(** X23.  A well-formed row whose period type is neither "C" nor "L", in
    either case, still registers its course when the code is new, with
    the name and credit count of the row and no group at all: the group
    of the row is lost, and nothing can be retrieved from the course. *)
Theorem row_of_unknown_period_type (py_int : string → option Z)
    (py_int_float : string → result Z) (courses : gmap string Course)
    (f0 sigle number nb_credit f4 f5 room period_type f8 week_nb course_type name f12
       week_day hour : string) (n credit : Z) :
  "" ∉ [sigle; number; nb_credit; room; period_type; course_type; name; week_day; hour] →
  py_int number = Some n →
  py_int_float (PyStr.replace "," "." nb_credit) = Ok credit →
  period_type ∉ ["c"; "C"; "l"; "L"] →
  courses !! sigle = None →
  read_row py_int py_int_float courses
    [f0; sigle; number; nb_credit; f4; f5; room; period_type; f8; week_nb; course_type;
     name; f12; week_day; hour]
  = Ok (<[sigle := Course_init sigle name credit]> courses)
  ∧ ∀ group_type group_number,
      get_specific_group (Course_init sigle name credit) group_type group_number = None.
Proof.
  intros Hfull Hn Hcredit Htype Hnew.
  rewrite !not_elem_of_cons in Hfull. rewrite !not_elem_of_cons in Htype.
  destruct Hfull as (? & ? & ? & ? & ? & ? & ? & ? & ? & _).
  split.
  - rewrite (read_row_well_formed _ _ _ _ _ _ _ _ _ _ _ _ _ _ _ _ _ _ n credit)
      by (done || congruence).
    rewrite Hnew. simpl. unfold add_group. rewrite lower_idemp.
    rewrite !decide_False; [done| |]; rewrite ?lower_eq_l, ?lower_eq_c; tauto.
  - intros group_type group_number. unfold get_specific_group.
    repeat case_decide; simpl; by rewrite ?lookup_empty.
Qed.

Lemma row_of_unknown_period_type_witness :
  read_row Conv.int_of_digits Conv.int_of_decimal ∅
    [""; "LOG1810"; "2"; "3,0"; ""; ""; "B-2325"; "T"; ""; ""; "C"; "Logiciel"; "";
     "LUN"; "0830"]
  = Ok (<["LOG1810" := Course_init "LOG1810" "Logiciel" 3]> ∅)
  ∧ ∀ group_type group_number,
      get_specific_group (Course_init "LOG1810" "Logiciel" 3) group_type group_number
      = None.
Proof.
  apply (row_of_unknown_period_type Conv.int_of_digits Conv.int_of_decimal ∅
           "" "LOG1810" "2" "3,0" "" "" "B-2325" "T" "" "" "C" "Logiciel" ""
           "LUN" "0830" 2 3).
  - rewrite !not_elem_of_cons. split_and!; (discriminate || apply not_elem_of_nil).
  - vm_compute. reflexivity.
  - vm_compute. reflexivity.
  - rewrite !not_elem_of_cons. split_and!; (discriminate || apply not_elem_of_nil).
  - apply lookup_empty.
Defined.

(** * The expansion of one selected group *)

(** Which days of a range get an event, for a group whose hour field
    parses. *)
Lemma emission_on_day alternance_map course group_type group h m s e d info :
  s ≤ d ≤ e →
  alternance_map !! d = Some info →
  (∃ event,
     event ∈ event_for course group_type group h m
               <$> filter (λ d', day_selected alternance_map group d')
                     (seqZ s (Z.of_nat (Z.to_nat (e - s + 1))))
     ∧ dt_ordinal (ev_begin event) = d)
  ↔ day_matches group (resolve_day_abbr d info) (week_type info) = true.
Proof.
  intros Hd Hinfo. split.
  - intros (event & (d' & -> & Hd')%list_elem_of_fmap & Heq).
    simpl in Heq. subst d'.
    apply list_elem_of_filter in Hd' as [Hsel _].
    unfold day_selected in Hsel. rewrite Hinfo in Hsel.
    by apply Is_true_true.
  - intros Hm. exists (event_for course group_type group h m d). split; [|done].
    apply list_elem_of_fmap_2, list_elem_of_filter. split.
    + unfold day_selected. rewrite Hinfo. by apply Is_true_true.
    + by apply elem_of_seqZ_range.
Qed.

(** The whole run for a selection of one course, one type and one number
    that resolves to a list of one group. *)
Lemma generate_single_selection courses_manager alternance_map course_code group_type
    group_number course group tok toks h m :
  get_course courses_manager course_code = Some course →
  get_specific_group course group_type group_number = Some [group] →
  hour_tokens (hour group) = tok :: toks →
  PyDate.strptime_HM tok = Some (h, m) →
  alternance_map ≠ ∅ →
  (∀ d, is_Some (alternance_map !! d) → 1 < d < PyDate.MAXORDINAL) →
  ∃ s e,
    (∀ d, is_Some (alternance_map !! d) → s ≤ d ≤ e)
    ∧ generate_ics_file courses_manager
        [(course_code, [(group_type, [group_number])])] alternance_map
      = Ok (event_for course group_type group h m
              <$> filter (λ d, day_selected alternance_map group d)
                    (seqZ s (Z.of_nat (Z.to_nat (e - s + 1))))).
Proof.
  intros Hcourse Hgroups Htok Hhm Hne Hbounds.
  destruct (semester_range_bounds_aux alternance_map Hne) as (s & e & Hs & He & Hsin & Hein).
  exists s, e. split.
  - intros d Hd%elem_of_semester_dates.
    by destruct (semester_bounds _ _ _ _ Hs He Hd).
  - rewrite generate_ics_file_unfold, Hs, He. cbn [for_each].
    unfold expand_course. cbn [fst snd]. rewrite Hcourse. cbn [for_each].
    unfold expand_type. cbn [fst snd for_each]. unfold expand_number.
    rewrite Hgroups. cbn [for_each]. unfold expand_group.
    rewrite (days_loop_spec _ _ _ _ _ _ _ _ Htok Hhm).
    + by rewrite !app_nil_r.
    + intros _. pose proof (Hbounds s Hsin). pose proof (Hbounds e Hein). lia.
Qed.

Lemma day_matches_LUN group week_type :
  day_matches group "LUN" week_type = true
  ↔ PyStr.upper (week_day group) = "LUN" ∧ frequency_passes group week_type.
Proof. rewrite day_matches_spec. split; intros [? ?]; by split. Qed.

(** C7.  On 2024-10-01 the expansion decides with the abbreviation "LUN",
    whatever weekday name the alternance map records for that date: a
    selected group gets an event on that day iff its weekday token in
    upper case is "LUN" and the frequency test passes on the week type of
    the day.  This holds of the day loop of any group on any range that
    contains the date, and of the whole run for a selection that resolves
    to one group; and the events written do not change when the recorded
    name is replaced by any other. *)
Theorem october_first_is_monday (courses_manager : gmap string Course)
    (alternance_map : gmap Z DayInfo) (course_code group_type : string)
    (group_number : Z) (course : Course) (group : Group)
    (semester_start_date semester_end_date : Z)
    (tok : string) (toks : list string) (h m : Z) (info : DayInfo) :
  hour_tokens (hour group) = tok :: toks →
  PyDate.strptime_HM tok = Some (h, m) →
  alternance_map !! october_first = Some info →
  october_first = PyDate.ymd2ord 2024 10 1
  ∧ resolve_day_abbr october_first info = "LUN"
  ∧ (1 < semester_start_date → semester_end_date < PyDate.MAXORDINAL →
     semester_start_date ≤ october_first ≤ semester_end_date →
     ∃ events,
       expand_group alternance_map semester_start_date semester_end_date
         course group_type group = Ok events
       ∧ ((∃ event, event ∈ events ∧ dt_ordinal (ev_begin event) = october_first)
          ↔ PyStr.upper (week_day group) = "LUN"
            ∧ frequency_passes group (week_type info)))
  ∧ (get_course courses_manager course_code = Some course →
     get_specific_group course group_type group_number = Some [group] →
     (∀ d, is_Some (alternance_map !! d) → 1 < d < PyDate.MAXORDINAL) →
     ∃ events,
       generate_ics_file courses_manager
         [(course_code, [(group_type, [group_number])])] alternance_map = Ok events
       ∧ ((∃ event, event ∈ events ∧ dt_ordinal (ev_begin event) = october_first)
          ↔ PyStr.upper (week_day group) = "LUN"
            ∧ frequency_passes group (week_type info)))
  ∧ (∀ courses_to_convert recorded_name,
       generate_ics_file courses_manager courses_to_convert alternance_map
       = generate_ics_file courses_manager courses_to_convert
           (<[october_first := {| day_name := recorded_name;
                                  week_type := week_type info |}]> alternance_map)).
Proof.
  intros Htok Hhm Hinfo. split_and!.
  - done.
  - apply resolve_october_first.
  - intros Hs He Hrange. eexists. split.
    + unfold expand_group. apply (days_loop_spec _ _ _ _ _ _ _ _ Htok Hhm). lia.
    + rewrite (emission_on_day _ _ _ _ _ _ _ _ _ info) by done.
      rewrite resolve_october_first. apply day_matches_LUN.
  - intros Hcourse Hgroups Hbounds.
    assert (alternance_map ≠ ∅) as Hne by (intros ->; by rewrite lookup_empty in Hinfo).
    destruct (generate_single_selection _ _ _ _ _ _ _ _ _ _ _
                Hcourse Hgroups Htok Hhm Hne Hbounds) as (s & e & Hrange & ->).
    eexists. split; [done|].
    rewrite (emission_on_day _ _ _ _ _ _ _ _ _ info); [|by apply Hrange|done].
    rewrite resolve_october_first. apply day_matches_LUN.
  - intros courses_to_convert recorded_name.
    rewrite <-(insert_id alternance_map october_first info Hinfo) at 1.
    unfold generate_ics_file.
    rewrite (merge_sort_Z_proper _ _ (keys_insert alternance_map october_first info)).
    rewrite (merge_sort_Z_proper _ _ (keys_insert alternance_map october_first
               {| day_name := recorded_name; week_type := week_type info |})).
    destruct (head _) as [s|]; [|done]. destruct (last _) as [e|]; [|done].
    apply for_each_ext. intros item _. apply expand_course_ext.
    intros g d. apply day_selected_october_first.
Qed.

Lemma october_first_is_monday_witness :
  let group := Group_init 2 "LUN" "B-2325" 1 "every_week" "0830" in
  let course := add_group "c" group (Course_init "LOG1810" "Logiciel" 3) in
  let info := mkDayInfo "MARDI" "B1" in
  let alternance_map : gmap Z DayInfo := {[october_first := info]} in
  ∃ events,
    generate_ics_file {["LOG1810" := course]} [("LOG1810", [("c", [2])])] alternance_map
    = Ok events
    ∧ ((∃ event, event ∈ events ∧ dt_ordinal (ev_begin event) = october_first)
       ↔ PyStr.upper (week_day group) = "LUN" ∧ frequency_passes group (week_type info)).
Proof.
  intros group course info alternance_map.
  destruct (october_first_is_monday {["LOG1810" := course]} alternance_map "LOG1810" "c" 2
              course group october_first october_first "0830" [] 8 30 info)
    as (_ & _ & _ & Hrun & _).
  - vm_compute. reflexivity.
  - vm_compute. reflexivity.
  - vm_compute. reflexivity.
  - apply Hrun.
    + vm_compute. reflexivity.
    + vm_compute. reflexivity.
    + intros d [i Hd]. apply lookup_singleton_Some in Hd as [<- _].
      split; vm_compute; reflexivity.
Defined.

(** C10.  Retrieval reads the group type without regard to case: "c" and
    "C" give the theoretical mapping, "l" and "L" the lab mapping, any
    other text nothing.  The title says "COURS" only for the exact key
    "c".  So under the key "C" every event comes from a theoretical group
    and is titled "LAB", and such events are emitted on the selected
    days, by the loop over one selected number and by the whole run. *)
Theorem uppercase_type_key_mislabelled :
  (∀ course n,
     get_specific_group course "c" n = theo_groups course !! n
     ∧ get_specific_group course "C" n = theo_groups course !! n
     ∧ get_specific_group course "l" n = lab_groups course !! n
     ∧ get_specific_group course "L" n = lab_groups course !! n)
  ∧ (∀ course group_type n,
       group_type ≠ "c" → group_type ≠ "C" → group_type ≠ "l" → group_type ≠ "L" →
       get_specific_group course group_type n = None)
  ∧ (∀ group_type, type_label group_type = "COURS" ↔ group_type = "c")
  ∧ (∀ alternance_map semester_start_date semester_end_date course n events event,
       expand_number alternance_map semester_start_date semester_end_date course "C" n
       = Ok events →
       event ∈ events →
       ∃ groups group,
         theo_groups course !! n = Some groups ∧ group ∈ groups
         ∧ ev_name event = event_title course group "LAB")
  ∧ (∀ alternance_map semester_start_date semester_end_date course n group
       tok toks h m d,
       theo_groups course !! n = Some [group] →
       hour_tokens (hour group) = tok :: toks →
       PyDate.strptime_HM tok = Some (h, m) →
       1 < semester_start_date →
       semester_end_date < PyDate.MAXORDINAL →
       semester_start_date ≤ d ≤ semester_end_date →
       day_selected alternance_map group d = true →
       ∃ events,
         expand_number alternance_map semester_start_date semester_end_date course "C" n
         = Ok events
         ∧ event_for course "C" group h m d ∈ events
         ∧ ev_name (event_for course "C" group h m d) = event_title course group "LAB")
  ∧ (∀ courses_manager alternance_map course_code course n group tok toks h m d,
       get_course courses_manager course_code = Some course →
       theo_groups course !! n = Some [group] →
       hour_tokens (hour group) = tok :: toks →
       PyDate.strptime_HM tok = Some (h, m) →
       (∀ d', is_Some (alternance_map !! d') → 1 < d' < PyDate.MAXORDINAL) →
       day_selected alternance_map group d = true →
       ∃ events,
         generate_ics_file courses_manager [(course_code, [("C", [n])])] alternance_map
         = Ok events
         ∧ event_for course "C" group h m d ∈ events
         ∧ Forall (λ event, ev_name event = event_title course group "LAB") events).
Proof.
  split_and!.
  - done.
  - intros course group_type n Hc HC Hl HL. apply get_specific_group_other.
    + rewrite lower_eq_c. by intros [|].
    + rewrite lower_eq_l. by intros [|].
  - apply type_label_cours.
  - intros alt s e course n events event. unfold expand_number.
    change (get_specific_group course "C" n) with (theo_groups course !! n).
    destruct (theo_groups course !! n) as [[|g gs]|] eqn:Hn.
    + intros [= <-] Hev. by apply elem_of_nil in Hev.
    + intros Hrun Hev.
      destruct (for_each_elem_of _ _ _ _ Hrun Hev) as (group & out & Hg & Hout & Hev').
      destruct (days_loop_elem_of _ _ _ _ _ _ _ _ Hout Hev') as [d Hmk].
      exists (g :: gs), group. split_and!; [done..|].
      by rewrite (make_event_name _ _ _ _ _ Hmk).
    + intros [= <-] Hev. by apply elem_of_nil in Hev.
  - intros alt s e course n group tok toks h m d Hn Htok Hhm Hs He Hd Hsel.
    unfold expand_number.
    change (get_specific_group course "C" n) with (theo_groups course !! n).
    rewrite Hn. simpl. unfold expand_group.
    rewrite (days_loop_spec _ _ _ _ _ _ _ _ Htok Hhm) by lia.
    eexists. split; [done|]. split; [|done]. rewrite app_nil_r.
    apply list_elem_of_fmap_2, list_elem_of_filter. split.
    + by apply Is_true_true.
    + by apply elem_of_seqZ_range.
  - intros mgr alt code course n group tok toks h m d Hcourse Hn Htok Hhm Hbounds Hsel.
    assert (is_Some (alt !! d)) as Hd.
    { unfold day_selected in Hsel. by destruct (alt !! d). }
    assert (alt ≠ ∅) as Hne.
    { intros ->. rewrite lookup_empty in Hd. by destruct Hd. }
    assert (get_specific_group course "C" n = Some [group]) as Hgroups by exact Hn.
    destruct (generate_single_selection _ _ _ _ _ _ _ _ _ _ _
                Hcourse Hgroups Htok Hhm Hne Hbounds) as (s & e & Hrange & ->).
    eexists. split_and!; [done| |].
    + apply list_elem_of_fmap_2, list_elem_of_filter. split.
      * by apply Is_true_true.
      * by apply elem_of_seqZ_range, Hrange.
    + apply Forall_fmap, Forall_forall. by intros d' _.
Qed.

Lemma uppercase_type_key_mislabelled_witness :
  let group := Group_init 2 "LUN" "B-2325" 1 "every_week" "0830" in
  let course := add_group "c" group (Course_init "LOG1810" "Logiciel" 3) in
  let alternance_map : gmap Z DayInfo := {[739131 := mkDayInfo "LUNDI" "B1"]} in
  get_specific_group course "x" 2 = None
  ∧ ∃ events,
      expand_number alternance_map 739131 739131 course "C" 2 = Ok events
      ∧ event_for course "C" group 8 30 739131 ∈ events
      ∧ ev_name (event_for course "C" group 8 30 739131) = event_title course group "LAB".
Proof.
  intros group course alternance_map.
  destruct uppercase_type_key_mislabelled as (_ & Hother & _ & _ & Hemit & _).
  split.
  - apply Hother; discriminate.
  - apply (Hemit alternance_map 739131 739131 course 2 group "0830" [] 8 30 739131).
    + vm_compute. reflexivity.
    + vm_compute. reflexivity.
    + vm_compute. reflexivity.
    + vm_compute. reflexivity.
    + vm_compute. reflexivity.
    + split; vm_compute; discriminate.
    + vm_compute. reflexivity.
Defined.
